(** * Hagee: document extraction and OCR-fallback pipeline

    A shallow embedding of the TypeScript services

    - [SmartOCRService]            (src/services/SmartOCRService.ts)
    - [MistralOCRService]          (remote provider, retry and throttle)
    - [OfflineOCRService]          (device provider)
    - [EnhancedPDFService], [EnhancedPPTXService] (page and slide loops)
    - [DocumentProcessingService]  (dispatch and batch loop)

    Asynchronous code is run sequentially (the services await every call).
    A JavaScript [number] holding a time stamp or a counter is a [Z]; a
    confidence is a rational [Q] (the rounding of IEEE doubles is not
    modelled).  A JavaScript string is a [string] whose characters are read
    as code units below 256.  Exceptions keep the state reached when they
    were thrown, so computations live in a state-and-exception monad. *)

From Stdlib Require Import ZArith List String Ascii Bool Lia QArith DecimalString.
Import ListNotations.

Open Scope string_scope.
Open Scope Z_scope.

(* ================================================================== *)
(** ** JavaScript values and string primitives *)
(* ================================================================== *)

Module JS.

  (** An [Error] object: its [name] and its [message].  The services read
      the message; the name shows where an error is printed.  Whatever is
      thrown is taken to be an [Error] object. *)
Record JsError := mkJsError { errorName : string; message : string }.

  (** [new Error(message)] *)
Abbreviation mkError m := (mkJsError "Error" m).

  (** [`${error}`] for an [Error] object: [Error.prototype.toString]. *)
Definition error_toString (e : JsError) : string :=
    match errorName e, message e with
    | EmptyString, msg => msg
    | name, EmptyString => name
    | name, msg => name ++ ": " ++ msg
    end.

Definition nl : string := String (ascii_of_nat 10) EmptyString.

  (** [hay.includes(needle)] *)
Fixpoint includes (hay needle : string) : bool :=
    if prefix needle hay then true
    else match hay with
         | EmptyString => false
         | String _ rest => includes rest needle
         end.

  (** The class [\s] on code units below 256. *)
Definition is_space (c : ascii) : bool :=
    let n := nat_of_ascii c in
    ((9 <=? n) && (n <=? 13) || (n =? 32) || (n =? 160))%nat.

Fixpoint trimStart (s : string) : string :=
    match s with
    | EmptyString => EmptyString
    | String c rest => if is_space c then trimStart rest else s
    end.

Fixpoint trimEnd (s : string) : string :=
    match s with
    | EmptyString => EmptyString
    | String c rest =>
        match trimEnd rest with
        | EmptyString => if is_space c then EmptyString else String c EmptyString
        | r => String c r
        end
    end.

  (** [s.trim()] *)
Definition trim (s : string) : string := trimEnd (trimStart s).

  (** [s.split(/\s+/).filter(word => word.length > 0).length]: the number
      of maximal runs of non-space characters.  [inword] tells whether the
      previous character belonged to a word. *)
Fixpoint count_words (inword : bool) (s : string) : Z :=
    match s with
    | EmptyString => 0
    | String c rest =>
        if is_space c then count_words false rest
        else (if inword then 0 else 1) + count_words true rest
    end.

Definition wordCount (s : string) : Z := count_words false s.

  (** [String(n)] for an integer. *)
Definition string_of_Z (n : Z) : string := NilZero.string_of_int (Z.to_int n).

  (** [!s] for a string: the empty string is the only falsy one. *)
Definition falsy (s : string) : bool :=
    match s with EmptyString => true | _ => false end.

Definition strlen (s : string) : Z := Z.of_nat (String.length s).

  (** [s.startsWith(p)] and [s.endsWith(p)] *)
Definition startsWith (s p : string) : bool := prefix p s.

Fixpoint endsWith (s p : string) : bool :=
    String.eqb s p
    || match s with
       | EmptyString => false
       | String _ rest => endsWith rest p
       end.

  (** [xs.join(sep)] *)
Fixpoint join (sep : string) (xs : list string) : string :=
    match xs with
    | [] => ""
    | [x] => x
    | x :: rest => x ++ sep ++ join sep rest
    end.

  (** [s.split('/').pop()]: what follows the last slash.  [acc] is the
      segment read so far. *)
Fixpoint lastSegment (acc : string) (s : string) : string :=
    match s with
    | EmptyString => acc
    | String c rest =>
        if Ascii.eqb c "/"%char then lastSegment "" rest
        else lastSegment (acc ++ String c EmptyString) rest
    end.

End JS.
Import JS.

(* ================================================================== *)
(** ** Computations: state and exceptions *)
(* ================================================================== *)

Inductive Res (A : Type) : Type :=
| Ok (a : A)
| Throw (e : JsError).
Arguments Ok {A} a.
Arguments Throw {A} e.

Definition M (S A : Type) : Type := S -> Res A * S.

Definition ret {S A} (a : A) : M S A := fun s => (Ok a, s).

Definition throw {S A} (e : JsError) : M S A := fun s => (Throw e, s).

Definition bind {S A B} (c : M S A) (k : A -> M S B) : M S B :=
  fun s => match c s with
           | (Ok a, s1) => k a s1
           | (Throw e, s1) => (Throw e, s1)
           end.

(** [try { body } catch (e) { handler }] *)
Definition try_catch {S A} (body : M S A) (handler : JsError -> M S A) : M S A :=
  fun s => match body s with
           | (Ok a, s1) => (Ok a, s1)
           | (Throw e, s1) => handler e s1
           end.

Definition gets {S A} (f : S -> A) : M S A := fun s => (Ok (f s), s).

Definition modify {S} (f : S -> S) : M S unit := fun s => (Ok tt, f s).

Declare Scope js_scope.
Delimit Scope js_scope with js.
Notation "'let*' x := c 'in' k" := (bind c (fun x => k))
  (at level 10, x name, c at level 100, k at level 200) : js_scope.
Notation "c ;; k" := (bind c (fun _ => k))
  (at level 100, k at level 200, right associativity) : js_scope.
Open Scope js_scope.

(** [when b c]: [if (b) { c }] *)
Definition when {S} (b : bool) (c : M S unit) : M S unit :=
  if b then c else ret tt.

(* ================================================================== *)
(** ** The runtime the services run on *)
(* ================================================================== *)

(** What the services ask of their surroundings, over a world [W] that the
    arbiter's own bookkeeping is no part of:
    - [Date_now]: [Date.now()], one reading of the wall clock per call;
    - [wait ms]: [await new Promise(resolve => setTimeout(resolve, ms))];
    - [Math_random36]: [Math.random().toString(36).substr(2, 9)]. *)
Class Runtime (W : Type) : Type := {
  Date_now : W -> Z * W;
  wait : Z -> W -> W;
  Math_random36 : W -> string * W;
}.

(** The result of the device recogniser, [OfflineOCRResult] (its [blocks]
    are folded into [confidence] by the provider). *)
Record OfflineOCRResult := mkOfflineResult {
  off_text : string;
  off_confidence : Q;
  off_processingTime : Z;
}.

(** The two OCR providers [SmartOCRService] imports. *)
Class OCRProviders (W : Type) : Type := {
  Mistral_extractTextFromImage : string -> M W string;
  Offline_extractTextFromImage : string -> M W OfflineOCRResult;
}.

(* ================================================================== *)
(** ** SmartOCRService: the arbiter *)
(* ================================================================== *)

Inductive Mode := Online | Offline | Auto.

Inductive Source := SrcMistral | SrcOnline | SrcOffline.

Record OCRResult := mkOCRResult {
  text : string;
  source : Source;
  confidence : Q;
  processingTime : Z;
  fallbackUsed : bool;
}.

(** The static fields of [SmartOCRService]. *)
Record ArbiterState := mkArbiter {
  consecutiveFailures : Z;
  isTemporarilyOffline : bool;
  offlineUntil : Z;
}.

Definition MAX_CONSECUTIVE_FAILURES : Z := 2.
Definition OFFLINE_COOLDOWN : Z := 5 * 60 * 1000.

Definition arbiter_init : ArbiterState :=
  {| consecutiveFailures := 0; isTemporarilyOffline := false; offlineUntil := 0 |}.

(** The console lines of [SmartOCRService], of its batch loop and of
    [DocumentProcessingService] that mark a decision or report an error
    that was caught ([console.error]); the other lines only repeat values
    found in the results. *)
Inductive LogLine :=
| LogUsingOfflineCooldown     (* 'Using offline mode due to recent API failures' *)
| LogCooldownExpired          (* 'API cooldown expired, re-enabling online OCR' *)
| LogAttemptOnline            (* 'Attempting online OCR with Mistral...' *)
| LogRateLimited              (* 'Mistral API rate limited, will try fallback' *)
| LogDeviceOnly               (* 'Performing device-only OCR...' *)
| LogOnlineFailedFallback     (* 'Online OCR failed, attempting offline fallback...' *)
| LogEnterCooldown (failures : Z)
| LogBothFailed (e : JsError)
| LogImageFailed (index : Z) (e : JsError)
| LogDocumentError (name : string) (e : JsError)   (* 'Error processing document ...' *)
| LogDocumentFailed (name : string) (e : JsError). (* 'Failed to process ...' *)

(** The whole state: the arbiter's statics, the console, the world. *)
Record Sys (W : Type) := mkSys {
  arb : ArbiterState;
  console : list LogLine;
  world : W;
}.
Arguments mkSys {W}.
Arguments arb {W}.
Arguments console {W}.
Arguments world {W}.

Section Lifting.
Context {W : Type} `{Runtime W}.

Definition now : M (Sys W) Z :=
    fun s => let (t, w) := Date_now (world s) in
             (Ok t, mkSys (arb s) (console s) w).

Definition sleep (ms : Z) : M (Sys W) unit :=
    fun s => (Ok tt, mkSys (arb s) (console s) (wait ms (world s))).

Definition random36 : M (Sys W) string :=
    fun s => let (r, w) := Math_random36 (world s) in
             (Ok r, mkSys (arb s) (console s) w).

Definition log (l : LogLine) : M (Sys W) unit :=
    fun s => (Ok tt, mkSys (arb s) (console s ++ [l])%list (world s)).

  (** Run a computation of the world inside the whole state. *)
Definition lift {A} (c : M W A) : M (Sys W) A :=
    fun s => let (r, w) := c (world s) in
             (r, mkSys (arb s) (console s) w).

Definition set_arb (f : ArbiterState -> ArbiterState) : M (Sys W) unit :=
    fun s => (Ok tt, mkSys (f (arb s)) (console s) (world s)).

End Lifting.

Module SmartOCRService.
Section Arbiter.
Context {W : Type} `{Runtime W} `{OCRProviders W}.

  (** [performOnlineOCR] *)
Definition performOnlineOCR (imageUri : string) (startTime : Z) : M (Sys W) OCRResult :=
    try_catch
      (log LogAttemptOnline ;;
       let* text := lift (Mistral_extractTextFromImage imageUri) in
       let* t := now in
       ret {| text := text; source := SrcMistral; confidence := 9 # 10;
              processingTime := t - startTime; fallbackUsed := false |})
      (fun error =>
         when (includes (message error) "429") (log LogRateLimited) ;;
         throw error).

  (** [performOfflineOCR] *)
Definition performOfflineOCR (imageUri : string) (startTime : Z) (fallback : bool)
    : M (Sys W) OCRResult :=
    log LogDeviceOnly ;;
    let* result := lift (Offline_extractTextFromImage imageUri) in
    let* t := now in
    ret {| text := off_text result; source := SrcOffline;
           confidence := off_confidence result;
           processingTime := t - startTime; fallbackUsed := fallback |}.

  (** The text of the result returned when both providers threw. *)
Definition bothFailedText (error offlineError : JsError) : string :=
    "OCR processing failed for this image." ++ nl ++ nl ++
    "Online Error: " ++ error_toString error ++ nl ++
    "Offline Error: " ++ error_toString offlineError ++ nl ++ nl ++
    "Suggestions:" ++ nl ++
    "1. Check your internet connection and API keys" ++ nl ++
    "2. Ensure the image is clear and contains readable text" ++ nl ++
    "3. Try again in a few minutes".

  (** [this.isTemporarilyOffline && Date.now() < this.offlineUntil]: the
      clock is read only when the flag is set. *)
Definition cooldownRunning : M (Sys W) bool :=
    let* st := gets arb in
    if isTemporarilyOffline st
    then (let* t := now in ret (t <? offlineUntil st))
    else ret false.

  (** [this.isTemporarilyOffline && Date.now() >= this.offlineUntil] *)
Definition cooldownExpired : M (Sys W) bool :=
    let* st := gets arb in
    if isTemporarilyOffline st
    then (let* t := now in ret (t >=? offlineUntil st))
    else ret false.

  (** The [catch (error)] block of auto mode, lines 61-97. *)
Definition autoFallback (imageUri : string) (startTime : Z) (error : JsError)
    : M (Sys W) OCRResult :=
    log LogOnlineFailedFallback ;;
    set_arb (fun st => mkArbiter (consecutiveFailures st + 1)
                                 (isTemporarilyOffline st) (offlineUntil st)) ;;
    let* st := gets arb in
    when (consecutiveFailures st >=? MAX_CONSECUTIVE_FAILURES)
         (log (LogEnterCooldown (consecutiveFailures st)) ;;
          set_arb (fun st => mkArbiter (consecutiveFailures st) true (offlineUntil st)) ;;
          let* t := now in
          set_arb (fun st => mkArbiter (consecutiveFailures st)
                                       (isTemporarilyOffline st)
                                       (t + OFFLINE_COOLDOWN))) ;;
    try_catch
      (performOfflineOCR imageUri startTime true)
      (fun offlineError =>
         log (LogBothFailed offlineError) ;;
         let* t := now in
         ret {| text := bothFailedText error offlineError; source := SrcOffline;
                confidence := 0; processingTime := t - startTime;
                fallbackUsed := true |}).

  (** Auto mode, lines 55-97. *)
Definition autoAttempt (imageUri : string) (startTime : Z) : M (Sys W) OCRResult :=
    try_catch
      (let* result := performOnlineOCR imageUri startTime in
       set_arb (fun st => mkArbiter 0 (isTemporarilyOffline st) (offlineUntil st)) ;;
       ret result)
      (autoFallback imageUri startTime).

  (** [extractTextFromImage] *)
Definition extractTextFromImage (imageUri : string) (preferredMode : Mode)
    : M (Sys W) OCRResult :=
    let* startTime := now in
    let* running := cooldownRunning in
    if running then
      log LogUsingOfflineCooldown ;;
      performOfflineOCR imageUri startTime true
    else
      let* expired := cooldownExpired in
      when expired
           (log LogCooldownExpired ;;
            set_arb (fun st => mkArbiter 0 false (offlineUntil st))) ;;
      match preferredMode with
      | Offline => performOfflineOCR imageUri startTime false
      | Online => performOnlineOCR imageUri startTime
      | Auto => autoAttempt imageUri startTime
      end.

  (** [resetFailureTracking] *)
Definition resetFailureTracking : M (Sys W) unit :=
    set_arb (fun _ => mkArbiter 0 false 0).

  (** [forceOfflineMode(durationMs)] *)
Definition forceOfflineMode (durationMs : Z) : M (Sys W) unit :=
    set_arb (fun st => mkArbiter (consecutiveFailures st) true (offlineUntil st)) ;;
    let* t := now in
    set_arb (fun st => mkArbiter (consecutiveFailures st)
                                 (isTemporarilyOffline st) (t + durationMs)).

End Arbiter.
End SmartOCRService.

(* ================================================================== *)
(** ** Loops with local variables and progress callbacks *)
(* ================================================================== *)

(** A loop body that pushes to an array inside [try] and again inside
    [catch] sees the same array in both: the locals [L] of a method are
    part of the state its body runs on. *)
Section Locals.
Context {L S : Type}.

Definition outer {A} (c : M S A) : M (L * S) A :=
    fun ls => let (r, s1) := c (snd ls) in (r, (fst ls, s1)).

Definition update (f : L -> L) : M (L * S) unit :=
    fun ls => (Ok tt, (f (fst ls), snd ls)).

Definition local {A} (f : L -> A) : M (L * S) A :=
    fun ls => (Ok (f (fst ls)), ls).

  (** Run a method body from the initial locals; the locals it ends with
      are returned when it completes. *)
Definition with_locals {A} (l0 : L) (c : M (L * S) A) : M S (A * L) :=
    fun s => match c (l0, s) with
             | (Ok a, ls) => (Ok (a, fst ls), snd ls)
             | (Throw e, ls) => (Throw e, snd ls)
             end.
End Locals.

(** [for (let i = start; ...; i++) { const x = xs[i]; body }] over the
    elements from index [i] on. *)
Fixpoint for_each {S A} (body : Z -> A -> M S unit) (i : Z) (xs : list A) : M S unit :=
  match xs with
  | [] => ret tt
  | x :: rest => body i x ;; for_each body (i + 1) rest
  end.

(** [for (let i = start; i < start + count; i++) body] *)
Fixpoint for_range {S} (body : Z -> M S unit) (start : Z) (count : nat) : M S unit :=
  match count with
  | O => ret tt
  | S c => body start ;; for_range body (start + 1) c
  end.

(** An optional progress callback [(current, total, info) => void]: what
    the caller's function does is its own business, the loop only sees
    whether it returns or throws. *)
Definition Callback (A : Type) : Type := option (Z -> Z -> A -> Res unit).

(** [if (onProgress) { onProgress(current, total, info); }] *)
Definition notify {S A} (onProgress : Callback A) (current total : Z) (info : A) : M S unit :=
  match onProgress with
  | None => ret tt
  | Some f => fun s => (f current total info, s)
  end.


(** A callback that is absent or never throws. *)
Definition returns_normally {A} (onProgress : Callback A) : Prop :=
  match onProgress with
  | None => True
  | Some f => forall current total info, f current total info = Ok tt
  end.

Module SmartOCRBatch.
Section Batch.
Context {W : Type} `{Runtime W} `{OCRProviders W}.

  (** The result pushed by the [catch] block of the batch loop. *)
Definition errorResult (i : Z) (error : JsError) : OCRResult :=
    {| text := "Failed to process image " ++ string_of_Z (i + 1) ++ ": "
               ++ error_toString error;
       source := SrcOffline; confidence := 0; processingTime := 0;
       fallbackUsed := true |}.

  (** The body of the [for] loop of [extractTextFromImages]; the counters
      [onlineFailures] and [offlineUsed] only feed the console. *)
Definition imageBody (preferredMode : Mode) (onProgress : Callback OCRResult)
             (total i : Z) (imageUri : string) : M (list OCRResult * Sys W) unit :=
    try_catch
      (let* result := outer (SmartOCRService.extractTextFromImage imageUri preferredMode) in
       update (fun results => (results ++ [result])%list) ;;
       notify onProgress (i + 1) total result ;;
       when (i <? total - 1)
            (outer (sleep (match source result with
                           | SrcOffline => 500
                           | _ => 2000
                           end))))
      (fun error =>
         outer (log (LogImageFailed (i + 1) error)) ;;
         update (fun results => (results ++ [errorResult i error])%list)).

  (** [extractTextFromImages] *)
Definition extractTextFromImages (imageUris : list string) (preferredMode : Mode)
             (onProgress : Callback OCRResult) : M (Sys W) (list OCRResult) :=
    let* r := with_locals []
                (for_each (imageBody preferredMode onProgress
                                     (Z.of_nat (List.length imageUris)))
                          0 imageUris) in
    ret (snd r).

End Batch.
End SmartOCRBatch.

(* ================================================================== *)
(** ** The device: clock, network and recogniser *)
(* ================================================================== *)

(** What a run meets from outside, as functions of how often each was
    asked before: the readings of the wall clock, the answers of the
    network to the requests of [MistralOCRService.performOCR], the answers
    of the ML Kit recogniser, the random suffixes. *)
Module Device.

  (** The response to [POST /chat/completions].  [errorText] is [None]
      when [response.text()] rejects; [content] is what
      [(await response.json()).choices[0]?.message?.content] gives: a
      throw, [undefined] or a string. *)
Record HttpResponse := mkResponse {
    status : Z;
    statusText : string;
    retryAfter : option string;
    errorText : option string;
    content : Res (option string);
  }.

  (** One pass through the network part of [performOCR]: loading the image
      or the POST itself rejects, or the API responds. *)
Inductive NetOutcome :=
  | Rejected (e : JsError)
  | Responded (r : HttpResponse).

  (** What ML Kit returns: [result.text] and, for each block of
      [result.blocks], its [confidence] when it has one. *)
Record Recognition := mkRecognition {
    rec_text : option string;
    rec_blocks : option (list (option Q));
  }.

  (** [FileSystem.getInfoAsync(imageUri)]: it rejects, or it tells whether
      the file exists. *)
Inductive InfoOutcome :=
  | InfoFailed (e : JsError)
  | FileInfo (fileExists : bool).

  (** [TextRecognition.recognize(imageUri)]: it rejects, or it returns. *)
Inductive RecognizeOutcome :=
  | RecognizeFailed (e : JsError)
  | Recognized (r : Recognition).

Record Env := mkEnv {
    clock : nat -> Z;
    apiKey : string;
    net : nat -> NetOutcome;
    fileInfo : nat -> InfoOutcome;
    mlkit : nat -> RecognizeOutcome;
    random : nat -> string;
  }.

  (** Counters of what was asked so far, the statics of the two providers
      and the delays waited for, oldest first. *)
Record World := mkWorld {
    ticks : nat;
    requests : nat;
    fileChecks : nat;
    recognitions : nat;
    randoms : nat;
    lastRequestTime : Z;
    isInitialized : bool;
    timers : list Z;
  }.

Definition world_init : World :=
    {| ticks := 0; requests := 0; fileChecks := 0; recognitions := 0;
       randoms := 0;
       lastRequestTime := 0; isInitialized := false; timers := [] |}.

Section WithEnv.
Variable env : Env.

Definition read_clock (w : World) : Z * World :=
      (clock env (ticks w),
       mkWorld (S (ticks w)) (requests w) (fileChecks w) (recognitions w) (randoms w)
               (lastRequestTime w) (isInitialized w) (timers w)).

Definition set_timer (ms : Z) (w : World) : World :=
      mkWorld (ticks w) (requests w) (fileChecks w) (recognitions w) (randoms w)
              (lastRequestTime w) (isInitialized w) (timers w ++ [ms]).

Definition read_random (w : World) : string * World :=
      (random env (randoms w),
       mkWorld (ticks w) (requests w) (fileChecks w) (recognitions w) (S (randoms w))
               (lastRequestTime w) (isInitialized w) (timers w)).

#[export] Instance device_runtime : Runtime World :=
      {| Date_now := read_clock; wait := set_timer; Math_random36 := read_random |}.

Definition dnow : M World Z := fun w => let (t, w1) := read_clock w in (Ok t, w1).
Definition dwait (ms : Z) : M World unit := fun w => (Ok tt, set_timer ms w).

    (** The next answer of the network. *)
Definition request : M World NetOutcome :=
      fun w => (Ok (net env (requests w)),
                mkWorld (ticks w) (S (requests w)) (fileChecks w) (recognitions w) (randoms w)
                        (lastRequestTime w) (isInitialized w) (timers w)).

    (** The next answer of [FileSystem.getInfoAsync]. *)
Definition getInfo : M World InfoOutcome :=
      fun w => (Ok (fileInfo env (fileChecks w)),
                mkWorld (ticks w) (requests w) (S (fileChecks w)) (recognitions w)
                        (randoms w) (lastRequestTime w) (isInitialized w) (timers w)).

    (** The next answer of [TextRecognition.recognize]. *)
Definition recognize : M World RecognizeOutcome :=
      fun w => (Ok (mlkit env (recognitions w)),
                mkWorld (ticks w) (requests w) (fileChecks w) (S (recognitions w))
                        (randoms w) (lastRequestTime w) (isInitialized w) (timers w)).

Definition set_lastRequestTime (t : Z) : M World unit :=
      fun w => (Ok tt, mkWorld (ticks w) (requests w) (fileChecks w) (recognitions w) (randoms w)
                               t (isInitialized w) (timers w)).

Definition set_isInitialized (b : bool) : M World unit :=
      fun w => (Ok tt, mkWorld (ticks w) (requests w) (fileChecks w) (recognitions w) (randoms w)
                               (lastRequestTime w) b (timers w)).

End WithEnv.
End Device.

(* ================================================================== *)
(** ** MistralOCRService: the remote provider *)
(* ================================================================== *)

Module MistralOCRService.
Import Device.

Definition MIN_REQUEST_INTERVAL : Z := 5000.
Definition MAX_RETRIES : Z := 3.
Definition BASE_DELAY : Z := 2000.

  (** The value of a digit in the given radix, when it is one. *)
Definition digit_of (radix : Z) (c : ascii) : option Z :=
    let n := Z.of_nat (nat_of_ascii c) in
    let v := if (48 <=? n) && (n <=? 57) then Some (n - 48)
             else if (97 <=? n) && (n <=? 122) then Some (n - 87)
             else if (65 <=? n) && (n <=? 90) then Some (n - 55)
             else None in
    match v with
    | Some d => if d <? radix then Some d else None
    | None => None
    end.

  (** The value of the longest prefix of digits of the radix; [seen] tells
      whether a digit was read. *)
Fixpoint digits_prefix (radix acc : Z) (seen : bool) (s : string) : option Z :=
    match s with
    | String c rest =>
        match digit_of radix c with
        | Some d => digits_prefix radix (radix * acc + d) true rest
        | None => if seen then Some acc else None
        end
    | EmptyString => if seen then Some acc else None
    end.

  (** The digits after the sign: a [0x] or [0X] prefix selects radix 16. *)
Definition unsigned_prefix (s : string) : option Z :=
    match s with
    | String "0" (String "x" rest) => digits_prefix 16 0 false rest
    | String "0" (String "X" rest) => digits_prefix 16 0 false rest
    | _ => digits_prefix 10 0 false s
    end.

  (** [parseInt(s)] without a radix: leading white space, a sign, a [0x]
      prefix, digits; [None] is [NaN].  The value is the exact integer,
      which is the number JavaScript gives up to [2^53]. *)
Definition parseInt (s : string) : option Z :=
    match trimStart s with
    | String "-" rest => option_map Z.opp (unsigned_prefix rest)
    | String "+" rest => unsigned_prefix rest
    | t => unsigned_prefix t
    end.

  (** [`${n}`] for a number that may be [NaN]. *)
Definition string_of_number (n : option Z) : string :=
    match n with
    | Some z => string_of_Z z
    | None => "NaN"
    end.

  (** [retryAfter ? parseInt(retryAfter) * 1000 : 5000] *)
Definition waitTime (retryAfter : option string) : option Z :=
    match retryAfter with
    | None => Some 5000
    | Some h => if falsy h then Some 5000
                else option_map (fun n => n * 1000) (parseInt h)
    end.

Definition rateLimitError (retryAfter : option string) : JsError :=
    mkError ("Mistral API rate limit: 429. Retry after "
             ++ string_of_number (waitTime retryAfter) ++ "ms").

Definition apiError (r : HttpResponse) : JsError :=
    mkError ("Mistral OCR API error: " ++ string_of_Z (status r) ++ " "
             ++ statusText r ++ ". "
             ++ match errorText r with
                | Some t => t
                | None => "Unable to read error response"
                end).

  (** [response.ok] *)
Definition response_ok (r : HttpResponse) : bool :=
    (200 <=? status r) && (status r <=? 299).

Section WithEnv.
Variable env : Env.

    (** [enforceRateLimit] *)
Definition enforceRateLimit : M World unit :=
      let* now := dnow env in
      let* last := gets lastRequestTime in
      let timeSinceLastRequest := now - last in
      when (timeSinceLastRequest <? MIN_REQUEST_INTERVAL)
           (dwait (MIN_REQUEST_INTERVAL - timeSinceLastRequest)) ;;
      let* t := dnow env in
      set_lastRequestTime t.

    (** [performOCR]; its inner [try]/[catch] logs and rethrows. *)
Definition performOCR (imageUri : string) : M World string :=
      if falsy (apiKey env)
      then throw (mkError "Mistral API key not configured. Please add your API key to the .env file.")
      else
        enforceRateLimit ;;
        let* outcome := request env in
        match outcome with
        | Rejected e => throw e
        | Responded r =>
            if negb (response_ok r) then
              if status r =? 429 then throw (rateLimitError (retryAfter r))
              else throw (apiError r)
            else
              match content r with
              | Throw e => throw e
              | Ok None => ret ""
              | Ok (Some extractedText) => ret extractedText
              end
        end.

    (** The [for] loop of [executeWithRetry], from [attempt] on, with
        [remaining = MAX_RETRIES - attempt] iterations to go. *)
Fixpoint retryLoop {A} (operation : M World A) (remaining : nat) (attempt : Z)
             (lastError : option JsError) : M World A :=
      match remaining with
      | O =>
          throw (match lastError with
                 | Some e => e
                 | None => mkError "OCR failed after all retries"
                 end)
      | S remaining' =>
          fun w =>
            match operation w with
            | (Ok a, w1) => (Ok a, w1)
            | (Throw error, w1) =>
                if includes (message error) "429" && (attempt <? MAX_RETRIES - 1) then
                  let delay := BASE_DELAY * 2 ^ attempt in
                  retryLoop operation remaining' (attempt + 1) (Some error)
                            (set_timer delay w1)
                else if (attempt =? 0) && negb (includes (message error) "429") then
                  (Throw error, w1)
                else
                  retryLoop operation remaining' (attempt + 1) (Some error) w1
            end
      end.

    (** [executeWithRetry] *)
Definition executeWithRetry {A} (operation : M World A) : M World A :=
      retryLoop operation (Z.to_nat MAX_RETRIES) 0 None.

    (** [extractTextFromImage] *)
Definition extractTextFromImage (imageUri : string) : M World string :=
      executeWithRetry (performOCR imageUri).

End WithEnv.
End MistralOCRService.

(* ================================================================== *)
(** ** OfflineOCRService: the device provider *)
(* ================================================================== *)

Module OfflineOCRService.
Import Device.

  (** [(block as any).confidence || 0.5] *)
Definition blockConfidence (c : option Q) : Q :=
    match c with
    | Some q => if Qeq_bool q 0 then 1 # 2 else q
    | None => 1 # 2
    end.

  (** [calculateOverallConfidence] *)
Definition calculateOverallConfidence (blocks : list Q) : Q :=
    match blocks with
    | [] => 1 # 2
    | _ => Qdiv (fold_left Qplus blocks 0%Q) (inject_Z (Z.of_nat (List.length blocks)))
    end.

Section WithEnv.
Variable env : Env.

    (** [initialize]: nothing in its [try] can throw. *)
Definition initialize : M World bool :=
      let* ready := gets isInitialized in
      if ready then ret true
      else set_isInitialized true ;; ret true.

    (** [extractTextFromImage]: every failure inside is caught and turned
        into the empty result. *)
Definition extractTextFromImage (imageUri : string) : M World OfflineOCRResult :=
      let* startTime := dnow env in
      try_catch
        (let* initialized := initialize in
         if negb initialized then throw (mkError "ML Kit initialization failed")
         else
           let* fileInfo := getInfo env in
           match fileInfo with
           | InfoFailed e => throw e
           | FileInfo false => throw (mkError ("Image file not found: " ++ imageUri))
           | FileInfo true =>
               let* outcome := recognize env in
               match outcome with
               | RecognizeFailed e => throw e
               | Recognized result =>
                   let* t := dnow env in
                   let processingTime := t - startTime in
                   let extractedText := match rec_text result with
                                        | Some s => s
                                        | None => ""
                                        end in
                   let blocks := match rec_blocks result with
                                 | Some bs => map blockConfidence bs
                                 | None => []
                                 end in
                   ret {| off_text := extractedText;
                          off_confidence := calculateOverallConfidence blocks;
                          off_processingTime := processingTime |}
               end
           end)
        (fun error =>
           let* t := dnow env in
           ret {| off_text := ""; off_confidence := 0;
                  off_processingTime := t - startTime |}).

End WithEnv.
End OfflineOCRService.

(** The providers of the repository on the device. *)
#[export] Instance device_providers (env : Device.Env) : OCRProviders Device.World :=
  {| Mistral_extractTextFromImage := MistralOCRService.extractTextFromImage env;
     Offline_extractTextFromImage := OfflineOCRService.extractTextFromImage env |}.

(* ================================================================== *)
(** ** Document containers *)
(* ================================================================== *)

(** A loaded PDF ([PDFDocument.load]).  What happens to page [pageNum]
    (0-based) at its attempt number [attempt] is given by the document:
    - [convertPage]: [convertPDFPageToImage(pdfDoc, pageNum)];
    - [basicText]: copying the page and [extractBasicTextFromPage];
    - [settlesAfter]: the time in ms after which [pageProcessing] settles,
      [None] when it never does.
    The clock and the files these helpers touch on their own are not
    followed. *)
Record PdfDoc := mkPdfDoc {
  pageCount : nat;
  convertPage : Z -> Z -> Res string;
  basicText : Z -> Z -> Res string;
  settlesAfter : Z -> Z -> option Z;
}.

(** A loaded PPTX ([JSZip.loadAsync]): the names of its entries and the
    outcome of reading an entry as a string; the second argument counts
    the earlier reads of that entry. *)
Record PptxDoc := mkPptxDoc {
  zipFiles : list string;
  readEntry : string -> Z -> Res string;
}.

(** The file system, the parsers and the collector as the two services
    use them. *)
Class Files (W : Type) : Type := {
  openPDF : string -> M W PdfDoc;
  openPPTX : string -> M W PptxDoc;
  gc_exposed : bool;                                   (* [global.gc] *)
  cleanupTempFiles : W -> W;
  FileSystem_deleteAsync : string -> M W unit;
  FileSystem_readAsStringAsync : string -> M W string;
  XML_slideText : string -> Res string;
  prepareSlideImage : string -> Z -> string -> M W (option string);
}.

(** [Math.round(a / b)] for integers [a] and [b >= 0]; [None] when
    [b = 0] (the quotient is [NaN] or infinite). *)
Definition round_div (a b : Z) : option Z :=
  if b =? 0 then None else Some ((2 * a + b) / (2 * b)).

Definition show_rounded (n : option Z) : string :=
  match n with
  | Some z => string_of_Z z
  | None => "NaN"
  end.

Definition sumZ (l : list Z) : Z := fold_left Z.add l 0.

Definition count_true {A} (p : A -> bool) (l : list A) : Z :=
  Z.of_nat (List.length (filter p l)).

(* ================================================================== *)
(** ** EnhancedPDFService *)
(* ================================================================== *)

Module EnhancedPDFService.

Record PDFPageInfo := mkPage {
    pageNumber : Z;
    page_text : string;
    page_wordCount : Z;
    page_processingTime : Z;
    page_ocrUsed : bool;
  }.

Record EnhancedPDFResult := mkResult {
    pages : list PDFPageInfo;
    combinedText : string;
    totalPages : Z;
    totalWordCount : Z;
    totalProcessingTime : Z;
    summary : string;
  }.

Definition batchSize : Z := 5.
Definition maxRetries : Z := 2.
Definition PAGE_TIMEOUT : Z := 45000.
Definition MIN_TEXT_LENGTH : Z := 20.

  (** The locals [pages] and [combinedText] of [extractTextFromPDF]. *)
Record Locals := mkLocals {
    l_pages : list PDFPageInfo;
    l_combinedText : string;
  }.

  (** [generateProcessingSummary] *)
Definition generateProcessingSummary (pages : list PDFPageInfo) (totalTime : Z)
             (ocrPagesCount : Z) : string :=
    let successfulPages := count_true (fun p => page_wordCount p >? 0) pages in
    let totalWords := sumZ (map page_wordCount pages) in
    let n := Z.of_nat (List.length pages) in
    "Multi-page PDF Processing Summary:" ++ nl ++
    "• " ++ string_of_Z n ++ " pages processed ("
         ++ string_of_Z successfulPages ++ " successful)" ++ nl ++
    "• " ++ string_of_Z totalWords ++ " total words" ++ nl ++
    "• " ++ show_rounded (round_div totalWords n) ++ " average words per page" ++ nl ++
    "• " ++ string_of_Z ocrPagesCount ++ " pages required OCR processing" ++ nl ++
    "• " ++ show_rounded (round_div totalTime 1000) ++ "s total processing time" ++ nl ++
    "• Processing method: "
         ++ (if ocrPagesCount >? 0 then "Hybrid (Text + OCR)" else "Text extraction only").

Section PDF.
Context {W : Type} `{Runtime W} `{OCRProviders W} `{Files W}.

  (** The gate of line 111:
      [(!pageText || pageText.trim().length < 20) && pageImageUri]. *)
Definition needsOCR (pageText pageImageUri : string) : bool :=
    (falsy pageText || (strlen (trim pageText) <? MIN_TEXT_LENGTH))
    && negb (falsy pageImageUri).

(** [pageImageUri] after lines 83-89: the converted page, or the empty
    string when the conversion threw. *)
Definition convertedImage (pdfDoc : PdfDoc) (pageNum attempt : Z) : string :=
    match convertPage pdfDoc pageNum attempt with
    | Ok uri => uri
    | Throw _ => ""
    end.

(** [pageText] after lines 92-108: the text found in the page itself, or
    the empty string when the extraction threw. *)
Definition basicPageText (pdfDoc : PdfDoc) (pageNum attempt : Z) : string :=
    match basicText pdfDoc pageNum attempt with
    | Ok t => t
    | Throw _ => ""
    end.

(** The asynchronous block [pageProcessing], lines 81-131. *)
Definition pageProcessing (pdfDoc : PdfDoc) (useOnlineOCR : bool) (pageNum attempt : Z)
    : M (Sys W) (string * bool) :=
    let pageImageUri := convertedImage pdfDoc pageNum attempt in
    let pageText := basicPageText pdfDoc pageNum attempt in
    let* r :=
      (if needsOCR pageText pageImageUri then
         try_catch
           (let ocrMode := if useOnlineOCR then Auto else Offline in
            let* ocrResult := SmartOCRService.extractTextFromImage pageImageUri ocrMode in
            ret (text ocrResult, true))
           (fun ocrError =>
              ret ("Page " ++ string_of_Z (pageNum + 1) ++ ": Text extraction failed", false))
       else ret (pageText, false)) in
    when (negb (falsy pageImageUri))
         (try_catch (lift (FileSystem_deleteAsync pageImageUri)) (fun _ => ret tt)) ;;
    ret r.

(** Whether the timer of 45 s settles before [pageProcessing] does. *)
Definition timerWins (pdfDoc : PdfDoc) (pageNum attempt : Z) : bool :=
    match settlesAfter pdfDoc pageNum attempt with
    | Some d => negb (d <? PAGE_TIMEOUT)
    | None => true
    end.

(** [Promise.race([pageProcessing, pageTimeout])].  When the timer wins
    the attempt is abandoned and what it still does is not followed. *)
Definition race {A} (pdfDoc : PdfDoc) (pageNum attempt : Z) (processing : M (Sys W) A)
    : M (Sys W) A :=
    if timerWins pdfDoc pageNum attempt
    then throw (mkError "Page processing timeout")
    else processing.

Definition pageHeader (pageNum : Z) (pageText : string) : string :=
    nl ++ "=== Page " ++ string_of_Z (pageNum + 1) ++ " ===" ++ nl ++ pageText ++ nl.

  (** The [try] block of one attempt, lines 75-156. *)
Definition pageAttempt (pdfDoc : PdfDoc) (useOnlineOCR : bool)
             (onProgress : Callback PDFPageInfo)
             (totalPages pageNum pageStartTime attempt : Z) : M (Locals * Sys W) unit :=
    let* r := outer (race pdfDoc pageNum attempt
                          (pageProcessing pdfDoc useOnlineOCR pageNum attempt)) in
    let pageText := fst r in
    let ocrUsed := snd r in
    let* t := outer now in
    let pageInfo := {| pageNumber := pageNum + 1; page_text := pageText;
                       page_wordCount := wordCount pageText;
                       page_processingTime := t - pageStartTime;
                       page_ocrUsed := ocrUsed |} in
    update (fun l => mkLocals (l_pages l ++ [pageInfo])
                              (l_combinedText l ++ pageHeader pageNum pageText)) ;;
    notify onProgress (pageNum + 1) totalPages pageInfo.

Definition errorPageInfo (pageNum : Z) (pageError : JsError) (elapsed : Z) : PDFPageInfo :=
    {| pageNumber := pageNum + 1;
       page_text := "Error processing page " ++ string_of_Z (pageNum + 1) ++ ": "
                    ++ message pageError;
       page_wordCount := 0;
       page_processingTime := elapsed;
       page_ocrUsed := false |}.

  (** The loop [while (!pageProcessed && retryCount <= maxRetries)], entered
      with [pageProcessed = false]; [fuel] bounds its iterations. *)
Fixpoint retryLoop (fuel : nat) (pdfDoc : PdfDoc) (useOnlineOCR : bool)
           (onProgress : Callback PDFPageInfo)
           (totalPages pageNum pageStartTime retryCount : Z) : M (Locals * Sys W) unit :=
    match fuel with
    | O => ret tt
    | S fuel' =>
        if retryCount <=? maxRetries then
          let* pageProcessed :=
            try_catch
              (pageAttempt pdfDoc useOnlineOCR onProgress totalPages pageNum
                           pageStartTime retryCount ;;
               ret true)
              (fun pageError =>
                 if retryCount + 1 >? maxRetries then
                   let* t := outer now in
                   update (fun l => mkLocals
                                      (l_pages l ++ [errorPageInfo pageNum pageError
                                                                   (t - pageStartTime)])
                                      (l_combinedText l)) ;;
                   ret true
                 else
                   outer (sleep 1000) ;;
                   ret false) in
          if pageProcessed then ret tt
          else retryLoop fuel' pdfDoc useOnlineOCR onProgress totalPages pageNum
                         pageStartTime (retryCount + 1)
        else ret tt
    end.

  (** The body of the inner [for] loop over the pages of a batch. *)
Definition pageBody (pdfDoc : PdfDoc) (useOnlineOCR : bool)
             (onProgress : Callback PDFPageInfo) (totalPages pageNum : Z)
    : M (Locals * Sys W) unit :=
    let* pageStartTime := outer now in
    retryLoop (Z.to_nat (maxRetries + 1)) pdfDoc useOnlineOCR onProgress totalPages
              pageNum pageStartTime 0 ;;
    when (pageNum <? totalPages - 1) (outer (sleep 500)).

  (** The outer [for] loop over the batches, from [batchStart] on. *)
Fixpoint batchLoop (fuel : nat) (pdfDoc : PdfDoc) (useOnlineOCR : bool)
           (onProgress : Callback PDFPageInfo) (totalPages batchStart : Z)
    : M (Locals * Sys W) unit :=
    match fuel with
    | O => ret tt
    | S fuel' =>
        if batchStart <? totalPages then
          let batchEnd := Z.min (batchStart + batchSize) totalPages in
          for_range (pageBody pdfDoc useOnlineOCR onProgress totalPages)
                    batchStart (Z.to_nat (batchEnd - batchStart)) ;;
          when (gc_exposed && (batchEnd <? totalPages))
               (outer (lift (fun w => (Ok tt, cleanupTempFiles w))) ;;
                outer (sleep 1000)) ;;
          batchLoop fuel' pdfDoc useOnlineOCR onProgress totalPages
                    (batchStart + batchSize)
        else ret tt
    end.

  (** [extractTextFromPDF] *)
Definition extractTextFromPDF (pdfUri : string) (useOnlineOCR : bool)
             (onProgress : Callback PDFPageInfo) : M (Sys W) EnhancedPDFResult :=
    let* startTime := now in
    try_catch
      (let* pdfDoc := lift (openPDF pdfUri) in
       let totalPages := Z.of_nat (pageCount pdfDoc) in
       let* r := with_locals (mkLocals [] "")
                   (batchLoop (pageCount pdfDoc) pdfDoc useOnlineOCR onProgress
                              totalPages 0) in
       let pages := l_pages (snd r) in
       let* t := now in
       let totalProcessingTime := t - startTime in
       let totalWordCount := sumZ (map page_wordCount pages) in
       let ocrPagesCount := count_true page_ocrUsed pages in
       ret {| pages := pages;
              combinedText := trim (l_combinedText (snd r));
              totalPages := totalPages;
              totalWordCount := totalWordCount;
              totalProcessingTime := totalProcessingTime;
              summary := generateProcessingSummary pages totalProcessingTime
                                                   ocrPagesCount |})
      (fun error =>
         throw (mkError ("Enhanced PDF processing failed: " ++ message error))).

End PDF.
End EnhancedPDFService.

(* ================================================================== *)
(** ** EnhancedPPTXService *)
(* ================================================================== *)

Module EnhancedPPTXService.

Record PPTXSlideInfo := mkSlide {
    slideNumber : Z;
    slide_text : string;
    slide_wordCount : Z;
    slide_processingTime : Z;
    slide_ocrUsed : bool;
  }.

Record EnhancedPPTXResult := mkResult {
    slides : list PPTXSlideInfo;
    combinedText : string;
    totalSlides : Z;
    totalWordCount : Z;
    totalProcessingTime : Z;
    summary : string;
  }.

Definition MIN_TEXT_LENGTH : Z := 20.

Record Locals := mkLocals {
    l_slides : list PPTXSlideInfo;
    l_combinedText : string;
  }.

  (** The filter of lines 335-337. *)
Definition isSlideFile (name : string) : bool :=
    startsWith name "ppt/slides/slide" && endsWith name ".xml".

  (** [generateProcessingSummary] *)
Definition generateProcessingSummary (slides : list PPTXSlideInfo) (totalTime : Z)
             (ocrSlidesCount : Z) : string :=
    let successfulSlides := count_true (fun s => slide_wordCount s >? 0) slides in
    let totalWords := sumZ (map slide_wordCount slides) in
    let n := Z.of_nat (List.length slides) in
    "PPTX Processing Summary:" ++ nl ++
    "• " ++ string_of_Z n ++ " slides processed ("
         ++ string_of_Z successfulSlides ++ " successful)" ++ nl ++
    "• " ++ string_of_Z totalWords ++ " total words" ++ nl ++
    "• " ++ show_rounded (round_div totalWords n) ++ " average words per slide" ++ nl ++
    "• " ++ string_of_Z ocrSlidesCount ++ " slides required OCR processing" ++ nl ++
    "• " ++ show_rounded (round_div totalTime 1000) ++ "s total processing time" ++ nl ++
    "• Processing method: "
         ++ (if ocrSlidesCount >? 0 then "Hybrid (XML + OCR)" else "XML extraction only").

Section PPTX.
Context {W : Type} `{Runtime W} `{OCRProviders W} `{Files W}.

  (** [extractTextFromSlideXML]: a parse error gives the empty text. *)
Definition extractTextFromSlideXML (xmlString : string) : string :=
    match XML_slideText xmlString with
    | Ok t => t
    | Throw _ => ""
    end.

  (** [createSlideImageForOCR]: any error inside gives [null]. *)
Definition createSlideImageForOCR (pptxUri : string) (slideNumber : Z) (slideXml : string)
    : M (Sys W) (option string) :=
    try_catch (lift (prepareSlideImage pptxUri slideNumber slideXml))
              (fun _ => ret None).

  (** The gate of line 360: [!slideText || slideText.trim().length < 20]. *)
Definition insufficient (slideText : string) : bool :=
    falsy slideText || (strlen (trim slideText) <? MIN_TEXT_LENGTH).

  (** Lines 356-377: direct extraction, then OCR when it gave too little
      and an image could be made. *)
Definition slideTextAndOCR (pptxUri : string) (useOnlineOCR : bool) (slideNumber : Z)
             (slideXml : string) : M (Sys W) (string * bool) :=
    let slideText := extractTextFromSlideXML slideXml in
    if insufficient slideText then
      let* slideImageUri := createSlideImageForOCR pptxUri slideNumber slideXml in
      match slideImageUri with
      | Some uri =>
          if falsy uri then ret (slideText, false)
          else
            let ocrMode := if useOnlineOCR then Auto else Offline in
            let* ocrResult := SmartOCRService.extractTextFromImage uri ocrMode in
            lift (FileSystem_deleteAsync uri) ;;
            ret (text ocrResult, true)
      | None => ret (slideText, false)
      end
    else ret (slideText, false).

Definition slideHeader (slideNumber : Z) (slideText : string) : string :=
    nl ++ "=== Slide " ++ string_of_Z slideNumber ++ " ===" ++ nl ++ slideText ++ nl.

  (** The [try] block of the slide loop, lines 351-403.  A slide is read
      once: there is no loop around this block. *)
Definition slideAttempt (pptxDoc : PptxDoc) (pptxUri : string) (useOnlineOCR : bool)
             (onProgress : Callback PPTXSlideInfo)
             (totalSlides i slideStartTime : Z) (slideFile : string)
    : M (Locals * Sys W) unit :=
    let slideNumber := i + 1 in
    let* slideXml := (fun s => (readEntry pptxDoc slideFile 0, s)) in
    let* r := outer (slideTextAndOCR pptxUri useOnlineOCR slideNumber slideXml) in
    let slideText := fst r in
    let ocrUsed := snd r in
    let* t := outer now in
    let slideInfo := {| slideNumber := slideNumber; slide_text := slideText;
                        slide_wordCount := wordCount slideText;
                        slide_processingTime := t - slideStartTime;
                        slide_ocrUsed := ocrUsed |} in
    update (fun l => mkLocals (l_slides l ++ [slideInfo])
                              (l_combinedText l ++ slideHeader slideNumber slideText)) ;;
    notify onProgress slideNumber totalSlides slideInfo ;;
    when ((i <? totalSlides - 1) && ocrUsed) (outer (sleep 1000)).

Definition errorSlideInfo (slideNumber : Z) (slideError : JsError) (elapsed : Z)
    : PPTXSlideInfo :=
    {| slideNumber := slideNumber;
       slide_text := "Error processing slide " ++ string_of_Z slideNumber ++ ": "
                     ++ error_toString slideError;
       slide_wordCount := 0;
       slide_processingTime := elapsed;
       slide_ocrUsed := false |}.

  (** The body of the loop over [slideFiles]. *)
Definition slideBody (pptxDoc : PptxDoc) (pptxUri : string) (useOnlineOCR : bool)
             (onProgress : Callback PPTXSlideInfo) (totalSlides i : Z)
             (slideFile : string) : M (Locals * Sys W) unit :=
    let* slideStartTime := outer now in
    try_catch
      (slideAttempt pptxDoc pptxUri useOnlineOCR onProgress totalSlides i
                    slideStartTime slideFile)
      (fun slideError =>
         let* t := outer now in
         update (fun l => mkLocals
                            (l_slides l ++ [errorSlideInfo (i + 1) slideError
                                                           (t - slideStartTime)])
                            (l_combinedText l))).

  (** [extractTextFromPPTX] *)
Definition extractTextFromPPTX (pptxUri : string) (useOnlineOCR : bool)
             (onProgress : Callback PPTXSlideInfo) : M (Sys W) EnhancedPPTXResult :=
    let* startTime := now in
    try_catch
      (let* zip := lift (openPPTX pptxUri) in
       let slideFiles := filter isSlideFile (zipFiles zip) in
       let totalSlides := Z.of_nat (List.length slideFiles) in
       let* r := with_locals (mkLocals [] "")
                   (for_each (slideBody zip pptxUri useOnlineOCR onProgress totalSlides)
                             0 slideFiles) in
       let slides := l_slides (snd r) in
       let* t := now in
       let totalProcessingTime := t - startTime in
       let totalWordCount := sumZ (map slide_wordCount slides) in
       let ocrSlidesCount := count_true slide_ocrUsed slides in
       ret {| slides := slides;
              combinedText := trim (l_combinedText (snd r));
              totalSlides := totalSlides;
              totalWordCount := totalWordCount;
              totalProcessingTime := totalProcessingTime;
              summary := generateProcessingSummary slides totalProcessingTime
                                                   ocrSlidesCount |})
      (fun error =>
         throw (mkError ("Enhanced PPTX processing failed: " ++ message error))).

End PPTX.
End EnhancedPPTXService.

(* ================================================================== *)
(** ** DocumentProcessingService *)
(* ================================================================== *)

(** [DOCXProcessingResult], with the descriptions of its [images]. *)
Record DOCXProcessingResult := mkDocx {
  docx_text : string;
  docx_wordCount : Z;
  docx_processingTime : Z;
  docx_isMammoth : bool;                   (* [method === 'mammoth'] *)
  docx_images : list string;
  docx_warnings : list string;
}.

(** The services [DocumentProcessingService] calls that lie outside the
    extraction core: the basic PDF reader and the DOCX service.  Both may
    run OCR, hence they act on the whole state. *)
Class Collaborators (W : Type) : Type := {
  PDFService_extractTextFromPDF : string -> M (Sys W) string;
  EnhancedDOCXService_extractTextFromDOCX : string -> bool -> M (Sys W) DOCXProcessingResult;
  EnhancedDOCXService_cleanDOCXText : string -> string;
}.

Module DocumentProcessingService.

Record ProcessedDocument := mkProcessed {
    id : string;
    name : string;
    type : string;
    extractedText : string;
    imageDescriptions : list string;
    pageCount : option Z;
    doc_processingTime : Z;
    doc_wordCount : Z;
    processingMethod : string;
    warnings : list string;
  }.

Record BatchProcessingResult := mkBatch {
    documents : list ProcessedDocument;
    combinedText : string;
    totalWordCount : Z;
    totalProcessingTime : Z;
    summary : string;
  }.

  (** An element of the array given to [processBatch]. *)
Record DocumentRef := mkRef {
    ref_uri : string;
    ref_name : string;
    ref_type : string;
  }.

  (** What the private [process...] methods return. *)
Record Extraction := mkExtraction {
    ex_text : string;
    ex_imageDescriptions : list string;
    ex_pageCount : option Z;
    ex_processingMethod : option string;
    ex_warnings : option (list string);
  }.

  (** [combineDocumentContent] *)
Definition combineDocumentContent (documents : list ProcessedDocument) : string :=
    join (nl ++ nl)
         (map (fun doc =>
                 let content := "=== " ++ name doc ++ " ===" ++ nl ++ extractedText doc in
                 if (0 <? Z.of_nat (List.length (imageDescriptions doc)))
                 then content ++ nl ++ nl ++ "Image Descriptions:" ++ nl
                              ++ join nl (imageDescriptions doc)
                 else content)
              documents).

Definition typeLabel (t : string) : string :=
    if includes t "pdf" then "PDF"
    else if includes t "word" then "DOCX"
    else if includes t "powerpoint" then "PPTX"
    else if includes t "image" then "Image"
    else "Other".

  (** [acc[type] = (acc[type] || 0) + 1] on an object whose keys keep the
      order in which they were first set. *)
Fixpoint bump (key : string) (acc : list (string * Z)) : list (string * Z) :=
    match acc with
    | [] => [(key, 1)]
    | (k, n) :: rest => if String.eqb k key then (k, n + 1) :: rest
                        else (k, n) :: bump key rest
    end.

  (** [generateBatchSummary] *)
Definition generateBatchSummary (documents : list ProcessedDocument) : string :=
    let totalDocs := Z.of_nat (List.length documents) in
    let totalWords := sumZ (map doc_wordCount documents) in
    let totalImages :=
      sumZ (map (fun doc => Z.of_nat (List.length (imageDescriptions doc))) documents) in
    let typeBreakdown :=
      fold_left (fun acc doc => bump (typeLabel (type doc)) acc) documents [] in
    "Batch Processing Summary:" ++ nl ++
    "• " ++ string_of_Z totalDocs ++ " documents processed" ++ nl ++
    "• " ++ string_of_Z totalWords ++ " total words (avg: "
         ++ show_rounded (round_div totalWords totalDocs) ++ " per doc)" ++ nl ++
    "• " ++ string_of_Z totalImages ++ " images processed" ++ nl ++
    "• Document types: "
         ++ join ", " (map (fun kv => string_of_Z (snd kv) ++ " " ++ fst kv) typeBreakdown)
         ++ nl.

Section Pipeline.
Context {W : Type} `{Runtime W} `{OCRProviders W} `{Files W} `{Collaborators W}.

  (** [processPDF]; the progress callback it passes only logs. *)
Definition processPDF (uri : string) (useOnlineOCR : bool) : M (Sys W) Extraction :=
    try_catch
      (let* pdfResult :=
         EnhancedPDFService.extractTextFromPDF uri useOnlineOCR
           (Some (fun _ _ _ => Ok tt)) in
       let ocrPages := filter EnhancedPDFService.page_ocrUsed
                              (EnhancedPDFService.pages pdfResult) in
       ret {| ex_text := EnhancedPDFService.combinedText pdfResult;
              ex_imageDescriptions :=
                map (fun page =>
                       "Page " ++ string_of_Z (EnhancedPDFService.pageNumber page)
                       ++ ": Processed with OCR ("
                       ++ string_of_Z (EnhancedPDFService.page_wordCount page)
                       ++ " words)")
                    ocrPages;
              ex_pageCount := Some (EnhancedPDFService.totalPages pdfResult);
              ex_processingMethod :=
                Some ("Enhanced multi-page ("
                      ++ string_of_Z (Z.of_nat (List.length ocrPages))
                      ++ " pages used OCR)");
              ex_warnings := Some [EnhancedPDFService.summary pdfResult] |})
      (fun error =>
         let* text := PDFService_extractTextFromPDF uri in
         ret {| ex_text := text;
                ex_imageDescriptions := [];
                ex_pageCount := Some 1;
                ex_processingMethod := Some "Basic fallback (enhanced processing failed)";
                ex_warnings := Some ["Enhanced processing failed: " ++ message error] |}).

  (** [processDOCX] *)
Definition processDOCX (uri : string) (useOnlineOCR : bool) : M (Sys W) Extraction :=
    let* docxResult := EnhancedDOCXService_extractTextFromDOCX uri useOnlineOCR in
    ret {| ex_text := EnhancedDOCXService_cleanDOCXText (docx_text docxResult);
           ex_imageDescriptions := docx_images docxResult;
           ex_pageCount := None;
           ex_processingMethod :=
             Some (if docx_isMammoth docxResult then "Mammoth.js parsing"
                   else "OCR fallback");
           ex_warnings := Some (docx_warnings docxResult) |}.

Definition pptxFallbackText (uri : string) : string :=
    "PowerPoint file detected: " ++ lastSegment "" uri ++ nl ++
    "      " ++ nl ++
    "To process PowerPoint files:" ++ nl ++
    "1. Export slides as images (PNG/JPG) from PowerPoint" ++ nl ++
    "2. Upload the individual slide images for OCR processing" ++ nl ++
    "3. Or convert the PowerPoint to PDF format first" ++ nl ++ nl ++
    "Current file cannot be processed directly as it contains structured presentation data, not image data.".

  (** [processPPTX]: it never throws; of what it returns [processDocument]
      reads the text and the image descriptions only. *)
Definition processPPTX (uri : string) (useOnlineOCR : bool) : M (Sys W) Extraction :=
    try_catch
      (let* pptxResult := EnhancedPPTXService.extractTextFromPPTX uri useOnlineOCR None in
       ret {| ex_text := EnhancedPPTXService.combinedText pptxResult;
              ex_imageDescriptions := [];
              ex_pageCount := None;
              ex_processingMethod := None;
              ex_warnings := None |})
      (fun error =>
         ret {| ex_text := pptxFallbackText uri;
                ex_imageDescriptions := [];
                ex_pageCount := None;
                ex_processingMethod := None;
                ex_warnings := None |}).

Definition noTextDetected (result : OCRResult) : string :=
    "Image processed but no text was detected." ++ nl ++ nl ++
    "OCR Source: " ++ match source result with
                      | SrcMistral => "mistral"
                      | SrcOnline => "online"
                      | SrcOffline => "offline"
                      end ++ nl ++
    "Processing Time: " ++ string_of_Z (processingTime result) ++ "ms" ++ nl ++
    "Fallback Used: " ++ (if fallbackUsed result then "Yes" else "No") ++ nl ++ nl ++
    "Possible reasons:" ++ nl ++
    "1. Image quality is too low or blurry" ++ nl ++
    "2. Text is too small or at an angle  " ++ nl ++
    "3. Image contains handwriting (harder to recognize)" ++ nl ++
    "4. No text present in the image" ++ nl ++ nl ++
    match source result with
    | SrcOffline => "Try online mode for better accuracy."
    | _ => "Image may not contain readable text."
    end.

  (** [processImage] *)
Definition processImage (uri : string) (useOnlineOCR : bool) : M (Sys W) string :=
    let ocrMode := if useOnlineOCR then Auto else Offline in
    let* result := SmartOCRService.extractTextFromImage uri ocrMode in
    if falsy (text result) || (strlen (trim (text result)) =? 0)
    then ret (noTextDetected result)
    else ret (text result).

  (** [processTextFile] *)
Definition processTextFile (uri : string) : M (Sys W) string :=
    lift (FileSystem_readAsStringAsync uri).

Definition textOnly (t : string) : Extraction :=
    {| ex_text := t; ex_imageDescriptions := []; ex_pageCount := None;
       ex_processingMethod := None; ex_warnings := None |}.

  (** The dispatch of [processDocument] on the declared type. *)
Definition dispatch (documentUri documentType : string) (useOnlineOCR : bool)
    : M (Sys W) Extraction :=
    if includes documentType "pdf" then
      processPDF documentUri useOnlineOCR
    else if includes documentType "word"
            || includes documentType "officedocument.wordprocessingml" then
      processDOCX documentUri useOnlineOCR
    else if includes documentType "powerpoint"
            || includes documentType "presentationml" then
      processPPTX documentUri useOnlineOCR
    else if includes documentType "image" then
      let* t := processImage documentUri useOnlineOCR in ret (textOnly t)
    else if includes documentType "text" then
      let* t := processTextFile documentUri in ret (textOnly t)
    else throw (mkError ("Unsupported document type: " ++ documentType)).

  (** [processDocument]; its [catch] writes the error to the console and
      rethrows it. *)
Definition processDocument (documentUri documentName documentType : string)
             (useOnlineOCR : bool) : M (Sys W) ProcessedDocument :=
    let* startTime := now in
    try_catch
      (let* ex := dispatch documentUri documentType useOnlineOCR in
       let* t := now in
       let processingTime := t - startTime in
       let* stamp := now in
       let* suffix := random36 in
       ret {| id := string_of_Z stamp ++ suffix;
              name := documentName;
              type := documentType;
              extractedText := ex_text ex;
              imageDescriptions := ex_imageDescriptions ex;
              pageCount := ex_pageCount ex;
              doc_processingTime := processingTime;
              doc_wordCount := wordCount (ex_text ex);
              processingMethod := match ex_processingMethod ex with
                                  | Some m => m
                                  | None => "Unknown"
                                  end;
              warnings := match ex_warnings ex with
                          | Some ws => ws
                          | None => []
                          end |})
      (fun error =>
         log (LogDocumentError documentName error) ;;
         throw error).

  (** The body of the loop of [processBatch]. *)
Definition batchBody (useOnlineOCR : bool) (doc : DocumentRef)
    : M (list ProcessedDocument * Sys W) unit :=
    try_catch
      (let* processed := outer (processDocument (ref_uri doc) (ref_name doc)
                                                (ref_type doc) useOnlineOCR) in
       update (fun processedDocuments => (processedDocuments ++ [processed])%list))
      (fun error => outer (log (LogDocumentFailed (ref_name doc) error))).

  (** [processBatch] *)
Definition processBatch (documents : list DocumentRef) (useOnlineOCR : bool)
    : M (Sys W) BatchProcessingResult :=
    let* startTime := now in
    let* r := with_locals []
                (for_each (fun _ doc => batchBody useOnlineOCR doc) 0 documents) in
    let processedDocuments := snd r in
    let combinedText := combineDocumentContent processedDocuments in
    let totalWordCount := sumZ (map doc_wordCount processedDocuments) in
    let* t := now in
    let totalProcessingTime := t - startTime in
    ret {| documents := processedDocuments;
           combinedText := combinedText;
           totalWordCount := totalWordCount;
           totalProcessingTime := totalProcessingTime;
           summary := generateBatchSummary processedDocuments |}.

End Pipeline.
End DocumentProcessingService.

(* ================================================================== *)
(** ** Status and recommendations of the arbiter *)
(* ================================================================== *)

(** [Math.ceil(a / b)] for integers [a] and [b > 0]. *)
Definition ceil_div (a b : Z) : Z := - ((- a) / b).

(** [getStatus] and [getRecommendations] of [SmartOCRService]. *)
Module SmartOCRStatus.

Record Status := mkStatus {
    st_isTemporarilyOffline : bool;
    st_consecutiveFailures : Z;
    st_offlineUntil : Z;
    timeUntilOnline : Z;
    canUseOnline : bool;
  }.

Record Recommendation := mkRecommendation {
    recommendedMode : Mode;
    reason : string;
    estimatedDelay : Z;
  }.

Section Status.
Context {W : Type} `{Runtime W}.

  (** [getStatus] *)
Definition getStatus : M (Sys W) Status :=
    let* t := now in
    let* st := gets arb in
    ret {| st_isTemporarilyOffline := isTemporarilyOffline st;
           st_consecutiveFailures := consecutiveFailures st;
           st_offlineUntil := offlineUntil st;
           timeUntilOnline := if isTemporarilyOffline st
                              then Z.max 0 (offlineUntil st - t)
                              else 0;
           canUseOnline := negb (isTemporarilyOffline st) || (t >=? offlineUntil st) |}.

  (** [getRecommendations] *)
Definition getRecommendations : M (Sys W) Recommendation :=
    let* status := getStatus in
    if st_isTemporarilyOffline status then
      ret {| recommendedMode := Offline;
             reason := "API temporarily disabled due to "
                       ++ string_of_Z (st_consecutiveFailures status)
                       ++ " consecutive failures. Will retry in "
                       ++ string_of_Z (ceil_div (timeUntilOnline status) 60000)
                       ++ " minutes.";
             estimatedDelay := 1000 |}
    else if st_consecutiveFailures status >? 0 then
      ret {| recommendedMode := Auto;
             reason := "Recent API issues detected. Auto mode will try online first, then fallback to offline.";
             estimatedDelay := 3000 |}
    else
      ret {| recommendedMode := Auto;
             reason := "All systems operational. Auto mode recommended for best results.";
             estimatedDelay := 2000 |}.

End Status.
End SmartOCRStatus.

(* ================================================================== *)
(** ** The batch loops and the status of the two providers *)
(* ================================================================== *)

(** [extractTextFromImages] and [getRateLimitStatus] of
    [MistralOCRService]. *)
Module MistralOCRQueue.
Import Device.

Record RateLimitStatus := mkRateLimitStatus {
    canMakeRequest : bool;
    waitTimeMs : Z;
    status_lastRequestTime : Z;
  }.

Section WithEnv.
Variable env : Env.

    (** The body of the [for] loop: the callback runs before the [try]. *)
Definition imageBody (onProgress : Callback string) (total i : Z) (imageUri : string)
    : M (list string * World) unit :=
      notify onProgress (i + 1) total imageUri ;;
      try_catch
        (let* result := outer (MistralOCRService.extractTextFromImage env imageUri) in
         update (fun results => (results ++ [result])%list) ;;
         when (i <? total - 1) (outer (dwait 3000)))
        (fun error => update (fun results => (results ++ [""])%list)).

    (** [extractTextFromImages] *)
Definition extractTextFromImages (imageUris : list string) (onProgress : Callback string)
    : M World (list string) :=
      let* r := with_locals []
                  (for_each (imageBody onProgress (Z.of_nat (List.length imageUris)))
                            0 imageUris) in
      ret (snd r).

    (** [getRateLimitStatus] *)
Definition getRateLimitStatus : M World RateLimitStatus :=
      let* now := dnow env in
      let* last := gets lastRequestTime in
      let timeSinceLastRequest := now - last in
      let canMakeRequest := timeSinceLastRequest >=? MistralOCRService.MIN_REQUEST_INTERVAL in
      ret {| canMakeRequest := canMakeRequest;
             waitTimeMs := if canMakeRequest then 0
                           else MistralOCRService.MIN_REQUEST_INTERVAL - timeSinceLastRequest;
             status_lastRequestTime := last |}.

End WithEnv.
End MistralOCRQueue.

(** [extractTextFromImages] of [OfflineOCRService]. *)
Module OfflineOCRBatch.
Import Device.

  (** The result pushed by the [catch] block. *)
Definition emptyResult : OfflineOCRResult :=
    {| off_text := ""; off_confidence := 0; off_processingTime := 0 |}.

Section WithEnv.
Variable env : Env.

Definition imageBody (onProgress : Callback string) (total i : Z) (imageUri : string)
    : M (list OfflineOCRResult * World) unit :=
      notify onProgress (i + 1) total imageUri ;;
      try_catch
        (let* result := outer (OfflineOCRService.extractTextFromImage env imageUri) in
         update (fun results => (results ++ [result])%list) ;;
         when (i <? total - 1) (outer (dwait 100)))
        (fun error => update (fun results => (results ++ [emptyResult])%list)).

    (** [extractTextFromImages] *)
Definition extractTextFromImages (imageUris : list string) (onProgress : Callback string)
    : M World (list OfflineOCRResult) :=
      let* r := with_locals []
                  (for_each (imageBody onProgress (Z.of_nat (List.length imageUris)))
                            0 imageUris) in
      ret (snd r).

End WithEnv.
End OfflineOCRBatch.

(* ================================================================== *)
(** ** Chunking of extracted text *)
(* ================================================================== *)

(** [chunkPDFText] and [chunkPPTXText] are the same loop over pages,
    respectively slides; it is written once, over units that have a
    number, a text and a title ('Page' or 'Slide'). *)
Module Chunking.

  (** An element of [chunkInfo]; [range] is [pageRange] or [slideRange],
      [members] is [pages] or [slides]. *)
Record ChunkInfo := mkChunkInfo {
    chunkIndex : Z;
    range : string;
    chunk_wordCount : Z;
    members : list Z;
  }.

Record Chunked := mkChunked {
    chunks : list string;
    chunkInfo : list ChunkInfo;
  }.

  (** The variables of the loop. *)
Record Loop := mkLoop {
    l_chunks : list string;
    l_chunkInfo : list ChunkInfo;
    currentChunk : string;
    currentMembers : list Z;
    l_chunkIndex : Z;
  }.

  (** [`${xs[0]}`] and [`${xs[xs.length - 1]}`] *)
Definition show_first (xs : list Z) : string :=
    match xs with
    | [] => "undefined"
    | x :: _ => string_of_Z x
    end.

Definition show_last (xs : list Z) : string :=
    match rev xs with
    | [] => "undefined"
    | x :: _ => string_of_Z x
    end.

Section Units.
Context {U : Type}.
Variable number : U -> Z.
Variable text : U -> string.
Variable title : string.

Definition unitText (u : U) : string :=
    nl ++ "=== " ++ title ++ " " ++ string_of_Z (number u) ++ " ===" ++ nl
       ++ text u ++ nl.

  (** The body of the [for ... of] loop. *)
Definition step (maxChunkSize : Z) (st : Loop) (u : U) : Loop :=
    let t := unitText u in
    if (strlen (currentChunk st) + strlen t >? maxChunkSize)
       && (strlen (currentChunk st) >? 0)
    then
      mkLoop (l_chunks st ++ [trim (currentChunk st)])
             (l_chunkInfo st
              ++ [mkChunkInfo (l_chunkIndex st)
                              (show_first (currentMembers st) ++ "-"
                               ++ show_last (currentMembers st))
                              (wordCount (currentChunk st))
                              (currentMembers st)])
             t [number u] (l_chunkIndex st + 1)
    else
      mkLoop (l_chunks st) (l_chunkInfo st)
             (currentChunk st ++ t) (currentMembers st ++ [number u])
             (l_chunkIndex st).

  (** What follows the loop: the final chunk. *)
Definition finish (st : Loop) : Chunked :=
    if falsy (trim (currentChunk st)) then mkChunked (l_chunks st) (l_chunkInfo st)
    else
      mkChunked (l_chunks st ++ [trim (currentChunk st)])
                (l_chunkInfo st
                 ++ [mkChunkInfo (l_chunkIndex st)
                                 (if (Z.of_nat (List.length (currentMembers st)) =? 1)
                                  then show_first (currentMembers st)
                                  else show_first (currentMembers st) ++ "-"
                                       ++ show_last (currentMembers st))
                                 (wordCount (currentChunk st))
                                 (currentMembers st)]).

Definition chunkUnits (units : list U) (maxChunkSize : Z) : Chunked :=
    finish (fold_left (step maxChunkSize) units (mkLoop [] [] "" [] 0)).

End Units.
End Chunking.

(** [EnhancedPDFService.chunkPDFText] *)
Definition chunkPDFText (pdfResult : EnhancedPDFService.EnhancedPDFResult)
           (maxChunkSize : Z) : Chunking.Chunked :=
  Chunking.chunkUnits EnhancedPDFService.pageNumber EnhancedPDFService.page_text "Page"
                      (EnhancedPDFService.pages pdfResult) maxChunkSize.

(** [EnhancedPPTXService.chunkPPTXText] *)
Definition chunkPPTXText (pptxResult : EnhancedPPTXService.EnhancedPPTXResult)
           (maxChunkSize : Z) : Chunking.Chunked :=
  Chunking.chunkUnits EnhancedPPTXService.slideNumber EnhancedPPTXService.slide_text "Slide"
                      (EnhancedPPTXService.slides pptxResult) maxChunkSize.

(* ================================================================== *)
(** ** DocumentProcessingService: chunks, sizes and supported types *)
(* ================================================================== *)

(** Numbers as JavaScript has them, as far as [chunkTextForAPI] needs:
    a double is written as an integer count of units of [2^-52].  The
    integers below [2^53] and their products with [0.7] are in range of
    the normal doubles, so rounding is to 53 significant bits, to nearest,
    ties to even. *)
Module Double.

Definition one : Z := 2 ^ 52.

  (** The double nearest to [n] units. *)
Definition round53 (n : Z) : Z :=
    let a := Z.abs n in
    let bits := Z.log2 a + 1 in
    if bits <=? 53 then n
    else
      let shift := bits - 53 in
      let q := Z.shiftr a shift in
      let rem := a - Z.shiftl q shift in
      let half := Z.shiftl 1 (shift - 1) in
      let q' := if (rem >? half) || ((rem =? half) && Z.odd q) then q + 1 else q in
      Z.sgn n * Z.shiftl q' shift.

  (** The literal [0.7]: the double [3152519739159347 / 2^52]. *)
Definition point7 : Z := 3152519739159347.

  (** [m * 0.7] for an integer [m]. *)
Definition times07 (m : Z) : Z := round53 (m * point7).

  (** [i + m * 0.7] for integers [i] and [m]. *)
Definition plus_times07 (i m : Z) : Z := round53 (i * one + times07 m).

  (** [k > x] for an integer [k] and a double [x]. *)
Definition gt (k x : Z) : bool := k * one >? x.

End Double.

Module DocumentText.

  (** [text.lastIndexOf(c, fromIndex)] for a one-character [c]: the
      greatest index at most [fromIndex] that holds [c], or -1.  [i] is
      the index of the first character of [s]; [found] the best so far. *)
Fixpoint lastIndexFrom (s : string) (c : ascii) (fromIndex i found : Z) : Z :=
    match s with
    | EmptyString => found
    | String x rest =>
        lastIndexFrom rest c fromIndex (i + 1)
                      (if Ascii.eqb x c && (i <=? Z.max 0 fromIndex) then i else found)
    end.

Definition lastIndexOf (s : string) (c : ascii) (fromIndex : Z) : Z :=
    lastIndexFrom s c fromIndex 0 (-1).

  (** An index argument of [slice]: negative ones count from the end. *)
Definition sliceIndex (len k : Z) : Z :=
    if k <? 0 then Z.max (len + k) 0 else Z.min k len.

  (** [text.slice(start, end)] *)
Definition slice (s : string) (start stop : Z) : string :=
    let from := sliceIndex (strlen s) start in
    let to := sliceIndex (strlen s) stop in
    substring (Z.to_nat from) (Z.to_nat (to - from)) s.

Definition period : ascii := "."%char.
Definition newline : ascii := ascii_of_nat 10.

  (** [chunkEnd] after the search for a sentence boundary.  The test
      [breakPoint > currentIndex + maxChunkSize * 0.7] is computed in
      doubles: the product is rounded, then the sum. *)
Definition chunkEndFrom (text : string) (maxChunkSize currentIndex : Z) : Z :=
    let chunkEnd := currentIndex + maxChunkSize in
    if chunkEnd <? strlen text then
      let lastPeriod := lastIndexOf text period chunkEnd in
      let lastNewline := lastIndexOf text newline chunkEnd in
      let breakPoint := Z.max lastPeriod lastNewline in
      if Double.gt breakPoint (Double.plus_times07 currentIndex maxChunkSize)
      then breakPoint + 1
      else chunkEnd
    else chunkEnd.

  (** The [while] loop of [chunkTextForAPI], run for at most [fuel]
      iterations: [None] when they do not suffice. *)
Fixpoint chunkLoop (fuel : nat) (text : string) (maxChunkSize currentIndex : Z)
           (chunks : list string) : option (list string) :=
    if currentIndex <? strlen text then
      match fuel with
      | O => None
      | S fuel' =>
          let chunkEnd := chunkEndFrom text maxChunkSize currentIndex in
          chunkLoop fuel' text maxChunkSize chunkEnd
                    (chunks ++ [trim (slice text currentIndex chunkEnd)])
      end
    else Some chunks.

  (** [chunkTextForAPI] *)
Definition chunkTextForAPI (fuel : nat) (text : string) (maxChunkSize : Z)
    : option (list string) :=
    if strlen text <=? maxChunkSize then Some [text]
    else chunkLoop fuel text maxChunkSize 0 [].

Record SizeRecommendation := mkSizeRecommendation {
    shouldChunk : bool;
    estimatedTokens : Z;
    recommendation : string;
  }.

  (** [getProcessingRecommendation] *)
Definition getProcessingRecommendation (textLength : Z) : SizeRecommendation :=
    let estimatedTokens := ceil_div textLength 4 in
    if estimatedTokens >? 400000 then
      {| shouldChunk := true; estimatedTokens := estimatedTokens;
         recommendation := "Document is very large. Consider using offline mode or chunking for online processing." |}
    else if estimatedTokens >? 100000 then
      {| shouldChunk := true; estimatedTokens := estimatedTokens;
         recommendation := "Document is large. Will be chunked for online processing." |}
    else
      {| shouldChunk := false; estimatedTokens := estimatedTokens;
         recommendation := "Document size is optimal for processing." |}.

  (** [s.split('/')]; [acc] is the segment read so far. *)
Fixpoint split_slash (acc : string) (s : string) : list string :=
    match s with
    | EmptyString => [acc]
    | String c rest =>
        if Ascii.eqb c "/"%char then acc :: split_slash "" rest
        else split_slash (acc ++ String c EmptyString) rest
    end.

Definition supportedTypes : list string :=
    [ "application/pdf";
      "application/vnd.openxmlformats-officedocument.wordprocessingml.document";
      "application/vnd.openxmlformats-officedocument.presentationml.presentation";
      "text/plain";
      "image/jpeg";
      "image/png";
      "image/jpg";
      "image/webp" ].

  (** [isSupportedDocument]; [includes(undefined)] looks for 'undefined'. *)
Definition isSupportedDocument (mimeType : string) : bool :=
    existsb (fun type => includes mimeType (nth 1 (split_slash "" type) "undefined"))
            supportedTypes.

End DocumentText.

(* ================================================================== *)
(** ** Vocabulary of the properties *)
(* ================================================================== *)

Section Observations.
Context {W : Type} `{Runtime W} `{OCRProviders W}.

  (** The world after [n] readings of the clock, and the reading that
      comes next. *)
Fixpoint after_reads (n : nat) (w : W) : W :=
    match n with
    | O => w
    | S k => snd (Date_now (after_reads k w))
    end.

Definition reading (n : nat) (w : W) : Z := fst (Date_now (after_reads n w)).

Definition isAttemptOnline (l : LogLine) : bool :=
    match l with LogAttemptOnline => true | _ => false end.

Definition isDeviceOnly (l : LogLine) : bool :=
    match l with LogDeviceOnly => true | _ => false end.

  (** How often the remote, respectively the local, provider was started,
      as the console tells. *)
Definition remoteAttempts (s : Sys W) : nat :=
    List.length (filter isAttemptOnline (console s)).

Definition localCalls (s : Sys W) : nat :=
    List.length (filter isDeviceOnly (console s)).

  (** The remote provider throws when called for [uri] in world [w]. *)
Definition remoteFails (uri : string) (w : W) : bool :=
    match fst (Mistral_extractTextFromImage uri w) with
    | Throw _ => true
    | Ok _ => false
    end.

  (** The three ways on after the cooldown checks, lines 45-97. *)
Definition byMode (preferredMode : Mode) (imageUri : string) (startTime : Z)
    : M (Sys W) OCRResult :=
    match preferredMode with
    | Offline => SmartOCRService.performOfflineOCR imageUri startTime false
    | Online => SmartOCRService.performOnlineOCR imageUri startTime
    | Auto => SmartOCRService.autoAttempt imageUri startTime
    end.

  (** A call made while the cooldown runs: the flag is set and the clock,
      read for the test of line 33, is before [offlineUntil]. *)
Definition cooling (s : Sys W) : Prop :=
    isTemporarilyOffline (arb s) = true /\ reading 1 (world s) < offlineUntil (arb s).

  (** A call that finds the cooldown over: the flag is set and the clock,
      read for the tests of lines 33 and 39, is at or after [offlineUntil]. *)
Definition expired (s : Sys W) : Prop :=
    isTemporarilyOffline (arb s) = true
    /\ offlineUntil (arb s) <= reading 1 (world s)
    /\ offlineUntil (arb s) <= reading 2 (world s).

  (** No cooldown is running at the call: the flag is clear, or the call
      finds the cooldown over. *)
Definition notCooling (s : Sys W) : Prop :=
    isTemporarilyOffline (arb s) = false \/ expired s.

  (** The world in which the provider chosen outside a cooldown is called:
      after the reading for [startTime] and, when the flag was set, the two
      readings of the cooldown tests. *)
Definition worldAtProvider (s : Sys W) : W :=
    if isTemporarilyOffline (arb s)
    then after_reads 3 (world s)
    else after_reads 1 (world s).

  (** The world in which auto mode calls the local provider after the
      remote one threw and left the world [w1]: entering the cooldown
      takes one more reading of the clock. *)
Definition worldAtFallback (s : Sys W) (w1 : W) : W :=
    let failures := if isTemporarilyOffline (arb s) then 0
                    else consecutiveFailures (arb s) in
    if failures + 1 >=? MAX_CONSECUTIVE_FAILURES then after_reads 1 w1 else w1.

  (** An outcome that came from the local provider as a fallback. *)
Definition servedLocally (r : Res OCRResult) : Prop :=
    match r with
    | Ok r => source r = SrcOffline /\ fallbackUsed r = true
    | Throw _ => True
    end.

  (** [s'] is reached from [s] by auto-mode calls that were all made while
      the cooldown ran; [outcomes] lists what they returned, oldest first. *)
Inductive cooldownCalls : Sys W -> list (Res OCRResult) -> Sys W -> Prop :=
  | cooldown_none : forall s, cooldownCalls s [] s
  | cooldown_more : forall s outcomes s1 uri,
      cooldownCalls s outcomes s1 ->
      cooling s1 ->
      cooldownCalls s
        (outcomes ++ [fst (SmartOCRService.extractTextFromImage uri Auto s1)])
        (snd (SmartOCRService.extractTextFromImage uri Auto s1)).



End Observations.

(** The arbiter's statics after a failed remote attempt in auto mode that
    was followed by a reading [t] of the clock (lines 65-72). *)
Definition afterFailure (st : ArbiterState) (t : Z) : ArbiterState :=
  let failures := consecutiveFailures st + 1 in
  if failures >=? MAX_CONSECUTIVE_FAILURES
  then mkArbiter failures true (t + OFFLINE_COOLDOWN)
  else mkArbiter failures (isTemporarilyOffline st) (offlineUntil st).

(** What an entry of [pages] is for page [pageNum] (0-based) of a document
    whose progress callback returns normally: the outcome of the first
    attempt that settled before the timer, or the error entry when the
    timer won all [maxRetries + 1] attempts. *)
Inductive pageEntry (pdfDoc : PdfDoc) (pageNum : Z) : EnhancedPDFService.PDFPageInfo -> Prop :=
| entry_processed : forall attempt info,
    0 <= attempt <= EnhancedPDFService.maxRetries ->
    (forall a, 0 <= a < attempt -> EnhancedPDFService.timerWins pdfDoc pageNum a = true) ->
    EnhancedPDFService.timerWins pdfDoc pageNum attempt = false ->
    EnhancedPDFService.pageNumber info = pageNum + 1 ->
    EnhancedPDFService.page_wordCount info = wordCount (EnhancedPDFService.page_text info) ->
    (EnhancedPDFService.page_ocrUsed info = true ->
     EnhancedPDFService.needsOCR
       (EnhancedPDFService.basicPageText pdfDoc pageNum attempt)
       (EnhancedPDFService.convertedImage pdfDoc pageNum attempt) = true) ->
    (EnhancedPDFService.needsOCR
       (EnhancedPDFService.basicPageText pdfDoc pageNum attempt)
       (EnhancedPDFService.convertedImage pdfDoc pageNum attempt) = false ->
     EnhancedPDFService.page_text info
     = EnhancedPDFService.basicPageText pdfDoc pageNum attempt
     /\ EnhancedPDFService.page_ocrUsed info = false) ->
    pageEntry pdfDoc pageNum info
| entry_error : forall elapsed,
    (forall a, 0 <= a <= EnhancedPDFService.maxRetries ->
               EnhancedPDFService.timerWins pdfDoc pageNum a = true) ->
    pageEntry pdfDoc pageNum
      (EnhancedPDFService.errorPageInfo pageNum (mkError "Page processing timeout") elapsed).

(** A list of entries for the pages from [pageNum] on, one each. *)
Inductive pageEntries (pdfDoc : PdfDoc) : Z -> list EnhancedPDFService.PDFPageInfo -> Prop :=
| pages_nil : forall pageNum, pageEntries pdfDoc pageNum []
| pages_cons : forall pageNum info rest,
    pageEntry pdfDoc pageNum info ->
    pageEntries pdfDoc (pageNum + 1) rest ->
    pageEntries pdfDoc pageNum (info :: rest).

Section SlideVocabulary.
Context {W : Type} `{Files W}.

(** What an entry of [slides] is for the slide at index [i] read from the
    entry [slideFile], when the progress callback returns normally: the
    outcome of its single attempt, or the error entry for what that attempt
    threw.  After a successful read only the OCR path can throw. *)
Inductive slideEntry (zip : PptxDoc) (i : Z) (slideFile : string)
  : EnhancedPPTXService.PPTXSlideInfo -> Prop :=
| slide_processed : forall slideXml info,
    readEntry zip slideFile 0 = Ok slideXml ->
    EnhancedPPTXService.slideNumber info = i + 1 ->
    EnhancedPPTXService.slide_wordCount info
    = wordCount (EnhancedPPTXService.slide_text info) ->
    (EnhancedPPTXService.slide_ocrUsed info = true ->
     EnhancedPPTXService.insufficient
       (EnhancedPPTXService.extractTextFromSlideXML slideXml) = true) ->
    (EnhancedPPTXService.insufficient
       (EnhancedPPTXService.extractTextFromSlideXML slideXml) = false ->
     EnhancedPPTXService.slide_text info
     = EnhancedPPTXService.extractTextFromSlideXML slideXml
     /\ EnhancedPPTXService.slide_ocrUsed info = false) ->
    slideEntry zip i slideFile info
| slide_failed : forall e elapsed,
    (forall slideXml,
        readEntry zip slideFile 0 = Ok slideXml ->
        EnhancedPPTXService.insufficient
          (EnhancedPPTXService.extractTextFromSlideXML slideXml) = true) ->
    (forall e0, readEntry zip slideFile 0 = Throw e0 -> e = e0) ->
    slideEntry zip i slideFile (EnhancedPPTXService.errorSlideInfo (i + 1) e elapsed).

(** A list of entries for the slide files from index [i] on, one each. *)
Inductive slideEntries (zip : PptxDoc)
  : Z -> list string -> list EnhancedPPTXService.PPTXSlideInfo -> Prop :=
| slides_nil : forall i, slideEntries zip i [] []
| slides_cons : forall i slideFile files info rest,
    slideEntry zip i slideFile info ->
    slideEntries zip (i + 1) files rest ->
    slideEntries zip i (slideFile :: files) (info :: rest).

End SlideVocabulary.

Section UnitVocabulary.
Context {W : Type} `{Runtime W} `{OCRProviders W} `{Files W}.







End UnitVocabulary.

(** A declared type that one of the branches of [processDocument] takes. *)
Definition dispatched (documentType : string) : bool :=
  includes documentType "pdf"
  || includes documentType "word"
  || includes documentType "officedocument.wordprocessingml"
  || includes documentType "powerpoint"
  || includes documentType "presentationml"
  || includes documentType "image"
  || includes documentType "text".

Section BatchVocabulary.
Context {W : Type} `{Runtime W} `{OCRProviders W} `{Files W} `{Collaborators W}.

(** What a batch yields, document by document: the processed documents,
    in input order, and the names and errors of those for which
    [processDocument] threw. *)
Inductive batchOutcome (useOnlineOCR : bool)
  : list DocumentProcessingService.DocumentRef ->
    list DocumentProcessingService.ProcessedDocument ->
    list (string * JsError) -> Prop :=
| batch_nil : batchOutcome useOnlineOCR [] [] []
| batch_processed : forall doc docs p ps fs s0 s1,
    DocumentProcessingService.processDocument
      (DocumentProcessingService.ref_uri doc) (DocumentProcessingService.ref_name doc)
      (DocumentProcessingService.ref_type doc) useOnlineOCR s0 = (Ok p, s1) ->
    batchOutcome useOnlineOCR docs ps fs ->
    batchOutcome useOnlineOCR (doc :: docs) (p :: ps) fs
| batch_failed : forall doc docs e ps fs s0 s1,
    DocumentProcessingService.processDocument
      (DocumentProcessingService.ref_uri doc) (DocumentProcessingService.ref_name doc)
      (DocumentProcessingService.ref_type doc) useOnlineOCR s0 = (Throw e, s1) ->
    batchOutcome useOnlineOCR docs ps fs ->
    batchOutcome useOnlineOCR (doc :: docs) ps
      ((DocumentProcessingService.ref_name doc, e) :: fs).

End BatchVocabulary.

(* ================================================================== *)
(** ** The arbiter on the device, and concrete runs *)
(* ================================================================== *)

(** [SmartOCRService] with the providers of the repository. *)
Module OnDevice.
Import Device.

Definition extractTextFromImage (env : Env) : string -> Mode -> M (Sys World) OCRResult :=
    @SmartOCRService.extractTextFromImage World (device_runtime env) (device_providers env).

Definition extractTextFromImages (env : Env)
    : list string -> Mode -> Callback OCRResult -> M (Sys World) (list OCRResult) :=
    @SmartOCRBatch.extractTextFromImages World (device_runtime env) (device_providers env).

Definition forceOfflineMode (env : Env) : Z -> M (Sys World) unit :=
    @SmartOCRService.forceOfflineMode World (device_runtime env).

Definition start : Sys World := mkSys arbiter_init [] world_init.

End OnDevice.

Module Scenario.
Import Device.

Definition serverError : HttpResponse :=
    mkResponse 500 "Internal Server Error" None (Some "oops") (Ok None).

Definition tooManyRequests : HttpResponse :=
    mkResponse 429 "Too Many Requests" None (Some "slow down") (Ok None).

Definition answer (t : string) : HttpResponse :=
    mkResponse 200 "OK" None None (Ok (Some t)).

Definition recognized (t : string) : RecognizeOutcome :=
    Recognized (mkRecognition (Some t) None).

(** The API is down, the recogniser works; the clock advances by one
    second per reading and jumps beyond ten minutes at its 19th. *)
Definition remoteDown : Env :=
    {| clock := fun n => if (n <? 18)%nat then 1000 * Z.of_nat n
                         else 600000 + Z.of_nat n;
       apiKey := "key";
       net := fun _ => Responded serverError;
       fileInfo := fun _ => FileInfo true;
       mlkit := fun _ => recognized "device text";
       random := fun _ => "r4nd0m" |}.

(** The API fails its first request and answers from then on. *)
Definition failsOnce : Env :=
    {| clock := fun n => 1000 * Z.of_nat n;
       apiKey := "key";
       net := fun n => match n with
                       | O => Responded serverError
                       | _ => Responded (answer "remote text")
                       end;
       fileInfo := fun _ => FileInfo true;
       mlkit := fun _ => recognized "device text";
       random := fun _ => "r4nd0m" |}.

(** Readings ten seconds apart: the throttle of the remote provider
    never has to wait. *)
Definition slowClock (n : nat) : Z := 10000 * Z.of_nat (S n).

(** The API answers 429, then 500, then the text. *)
Definition rateLimitedThenError : Env :=
    {| clock := slowClock;
       apiKey := "key";
       net := fun n => match n with
                       | O => Responded tooManyRequests
                       | S O => Responded serverError
                       | _ => Responded (answer "remote text")
                       end;
       fileInfo := fun _ => FileInfo true;
       mlkit := fun _ => recognized "device text";
       random := fun _ => "r4nd0m" |}.

(** The API answers 429 twice, then the text. *)
Definition rateLimitedTwice : Env :=
    {| clock := slowClock;
       apiKey := "key";
       net := fun n => match n with
                       | O | S O => Responded tooManyRequests
                       | _ => Responded (answer "remote text")
                       end;
       fileInfo := fun _ => FileInfo true;
       mlkit := fun _ => recognized "device text";
       random := fun _ => "r4nd0m" |}.

Definition image : string := "file:///cache/page.jpg".

(** Providers for a device whose recogniser module cannot be called at
    all: the remote provider is the repository's, the local one throws. *)
Definition noRecogniser (env : Env) : OCRProviders World :=
    {| Mistral_extractTextFromImage := MistralOCRService.extractTextFromImage env;
       Offline_extractTextFromImage :=
         fun _ => throw (mkError "TextRecognition is not linked") |}.

(** A file system that opens the given documents; the slide parser takes
    the XML for its text, slide images are always made, deleting works. *)
Definition files (pdf : Res PdfDoc) (pptx : Res PptxDoc) : Files World :=
    {| openPDF := fun _ w => (pdf, w);
       openPPTX := fun _ w => (pptx, w);
       gc_exposed := false;
       cleanupTempFiles := fun w => w;
       FileSystem_deleteAsync := fun _ => ret tt;
       FileSystem_readAsStringAsync := fun _ => ret "plain text";
       XML_slideText := fun xml => Ok xml;
       prepareSlideImage := fun _ _ _ => ret (Some "file:///cache/slide_enhanced.txt") |}.

(** Three pages: text, a scan without extractable text, and a page whose
    processing never settles. *)
Definition scannedPdf : PdfDoc :=
    {| pageCount := 3;
       convertPage := fun _ _ => Ok "file:///cache/page.png";
       basicText := fun pageNum _ =>
                      if pageNum =? 1 then Ok ""
                      else Ok "A page with enough text on it.";
       settlesAfter := fun pageNum _ => if pageNum =? 2 then None else Some 1200 |}.

(** Two slides; the entry of the second cannot be read the first time it
    is asked for. *)
Definition flakyDeck : PptxDoc :=
    {| zipFiles := ["ppt/slides/slide1.xml"; "ppt/slides/_rels/slide1.xml.rels";
                    "ppt/slides/slide2.xml"];
       readEntry := fun name nth =>
                      if String.eqb name "ppt/slides/slide2.xml" && (nth =? 0)
                      then Throw (mkError "corrupt entry")
                      else Ok "A slide with enough text on it." |}.

(** One page with text of its own. *)
Definition leaflet : PdfDoc :=
    {| pageCount := 1;
       convertPage := fun _ _ => Ok "file:///cache/page.png";
       basicText := fun _ _ => Ok "A page with enough text on it.";
       settlesAfter := fun _ _ => Some 1200 |}.

(** One slide with too little text of its own. *)
Definition sparseDeck : PptxDoc :=
    {| zipFiles := ["ppt/slides/slide1.xml"];
       readEntry := fun _ _ => Ok "Title" |}.

(** A file system on which nothing can be deleted. *)
Definition stickyFiles (pdf : Res PdfDoc) (pptx : Res PptxDoc) : Files World :=
    {| openPDF := fun _ w => (pdf, w);
       openPPTX := fun _ w => (pptx, w);
       gc_exposed := false;
       cleanupTempFiles := fun w => w;
       FileSystem_deleteAsync := fun _ => throw (mkError "file is locked");
       FileSystem_readAsStringAsync := fun _ => ret "plain text";
       XML_slideText := fun xml => Ok xml;
       prepareSlideImage := fun _ _ _ => ret (Some "file:///cache/slide_enhanced.txt") |}.


Definition deck : string := "file:///docs/deck.pptx".
Definition paper : string := "file:///docs/paper.pdf".

(** The services outside the extraction core: the basic PDF reader
    fails, the DOCX service returns a short parsed text. *)
Definition collaborators : Collaborators World :=
    {| PDFService_extractTextFromPDF :=
         fun _ => throw (mkError "PDF text extraction failed: unreadable");
       EnhancedDOCXService_extractTextFromDOCX :=
         fun _ _ => ret {| docx_text := "Parsed paragraph."; docx_wordCount := 2;
                           docx_processingTime := 5; docx_isMammoth := true;
                           docx_images := []; docx_warnings := [] |};
       EnhancedDOCXService_cleanDOCXText := fun t => t |}.

Definition notes : DocumentProcessingService.DocumentRef :=
    DocumentProcessingService.mkRef "file:///docs/notes.txt" "notes.txt" "text/plain".

Definition archive : DocumentProcessingService.DocumentRef :=
    DocumentProcessingService.mkRef "file:///docs/old.zip" "old.zip" "application/zip".

Definition movie : DocumentProcessingService.DocumentRef :=
    DocumentProcessingService.mkRef "file:///docs/clip.mp4" "clip.mp4" "video/mp4".

End Scenario.

(* ================================================================== *)
(** ** Vocabulary and runs for the further properties *)
(* ================================================================== *)

(** The texts of a batch of the remote provider, position by position:
    what [extractTextFromImage] returned for the image, or the empty
    string when it threw. *)
Inductive textsOf (env : Device.Env) : list string -> list string -> Prop :=
| texts_nil : textsOf env [] []
| texts_returned : forall uri uris t ts w0 w1,
    MistralOCRService.extractTextFromImage env uri w0 = (Ok t, w1) ->
    textsOf env uris ts ->
    textsOf env (uri :: uris) (t :: ts)
| texts_thrown : forall uri uris e ts w0 w1,
    MistralOCRService.extractTextFromImage env uri w0 = (Throw e, w1) ->
    textsOf env uris ts ->
    textsOf env (uri :: uris) ("" :: ts).

(** The results of a batch of the device provider, position by position:
    each is what [extractTextFromImage] returned for the image. *)
Inductive recognitionsOf (env : Device.Env)
  : list string -> list OfflineOCRResult -> Prop :=
| recognitions_nil : recognitionsOf env [] []
| recognitions_more : forall uri uris r rs w0 w1,
    OfflineOCRService.extractTextFromImage env uri w0 = (Ok r, w1) ->
    recognitionsOf env uris rs ->
    recognitionsOf env (uri :: uris) (r :: rs).

(** The file check numbered [k] finds its file. *)
Definition fileFound (env : Device.Env) (k : nat) : bool :=
  match Device.fileInfo env k with
  | Device.FileInfo true => true
  | _ => false
  end.

(** How many of the [n] file checks from number [from] on find their
    file. *)
Definition filesFound (env : Device.Env) (from n : nat) : nat :=
  List.length (filter (fileFound env) (seq from n)).

(** The arbiter's statics are well formed: the counter is not negative,
    and it is below the threshold whenever the cooldown flag is clear. *)
Definition wellFormed (st : ArbiterState) : Prop :=
  0 <= consecutiveFailures st
  /\ (isTemporarilyOffline st = false ->
      consecutiveFailures st < MAX_CONSECUTIVE_FAILURES).

Module Cases.
Import Device.

(** The API answers every request with 429. *)
Definition alwaysLimited : Env :=
    {| clock := Scenario.slowClock;
       apiKey := "key";
       net := fun _ => Responded Scenario.tooManyRequests;
       fileInfo := fun _ => FileInfo true;
       mlkit := fun _ => Scenario.recognized "device text";
       random := fun _ => "r4nd0m" |}.

(** No API key is configured. *)
Definition noKey : Env :=
    {| clock := Scenario.slowClock;
       apiKey := "";
       net := fun _ => Responded (Scenario.answer "remote text");
       fileInfo := fun _ => FileInfo true;
       mlkit := fun _ => Scenario.recognized "device text";
       random := fun _ => "r4nd0m" |}.

(** The recogniser rejects every image. *)
Definition blindDevice : Env :=
    {| clock := Scenario.slowClock;
       apiKey := "key";
       net := fun _ => Responded Scenario.serverError;
       fileInfo := fun _ => FileInfo true;
       mlkit := fun _ => RecognizeFailed (mkError "recogniser crashed");
       random := fun _ => "r4nd0m" |}.

(** The file of the second image asked for is gone. *)
Definition lostFile : Env :=
    {| clock := Scenario.slowClock;
       apiKey := "key";
       net := fun _ => Responded Scenario.serverError;
       fileInfo := fun k => FileInfo (negb (k =? 1)%nat);
       mlkit := fun _ => Scenario.recognized "device text";
       random := fun _ => "r4nd0m" |}.

End Cases.

Module Library.
Import Device.

(** The services outside the extraction core when the basic PDF reader
    works. *)
Definition basicReader : Collaborators World :=
    {| PDFService_extractTextFromPDF := fun _ => ret "Text of the first page.";
       EnhancedDOCXService_extractTextFromDOCX :=
         fun _ _ => ret {| docx_text := "Parsed paragraph."; docx_wordCount := 2;
                           docx_processingTime := 5; docx_isMammoth := true;
                           docx_images := []; docx_warnings := [] |};
       EnhancedDOCXService_cleanDOCXText := fun t => t |}.

(** No document can be opened. *)
Definition locked : Files World :=
    Scenario.files (Throw (mkError "Invalid PDF structure"))
                   (Throw (mkError "End of central directory not found")).

Definition pptxMime : string :=
    "application/vnd.openxmlformats-officedocument.presentationml.presentation".

Definition slidesRef : DocumentProcessingService.DocumentRef :=
    DocumentProcessingService.mkRef Scenario.deck "deck.pptx" pptxMime.

End Library.

(** The two lines that a document of a type no branch takes leaves on the
    console: the one of the [catch] of [processDocument], then the one of
    the [catch] of [processBatch]. *)
Definition unsupportedLines (docs : list DocumentProcessingService.DocumentRef)
  : list LogLine :=
  flat_map (fun d =>
              let e := mkError ("Unsupported document type: "
                                ++ DocumentProcessingService.ref_type d) in
              [LogDocumentError (DocumentProcessingService.ref_name d) e;
               LogDocumentFailed (DocumentProcessingService.ref_name d) e])
           docs.

(** A text is blank when all its characters are white space. *)
Fixpoint blank (s : string) : bool :=
  match s with
  | EmptyString => true
  | String c rest => is_space c && blank rest
  end.


(** What holds of the loop variables after any number of units: [done]
    lists the numbers of the units seen so far. *)
Record chunkInv (maxChunkSize : Z) (done : list Z) (st : Chunking.Loop) : Prop := {
  inv_partition :
    (List.concat (map Chunking.members (Chunking.l_chunkInfo st))
     ++ Chunking.currentMembers st)%list = done;
  inv_index :
    map Chunking.chunkIndex (Chunking.l_chunkInfo st)
    = map Z.of_nat (seq 0 (List.length (Chunking.l_chunkInfo st)))
    /\ Chunking.l_chunkIndex st = Z.of_nat (List.length (Chunking.l_chunkInfo st));
  inv_pairs :
    Forall2 (fun c i => Chunking.members i <> []
                        /\ ((2 <= List.length (Chunking.members i))%nat ->
                            strlen c <= maxChunkSize))
            (Chunking.l_chunks st) (Chunking.l_chunkInfo st);
  inv_empty : Chunking.currentMembers st = [] -> Chunking.currentChunk st = "";
  inv_ink : Chunking.currentMembers st <> [] -> blank (Chunking.currentChunk st) = false;
  inv_fits : (2 <= List.length (Chunking.currentMembers st))%nat ->
             strlen (Chunking.currentChunk st) <= maxChunkSize;
}.


(* ================================================================== *)
(** * Properties *)
(* ================================================================== *)

(** ** Running the monad *)

Ltac run :=
  unfold SmartOCRService.extractTextFromImage, SmartOCRService.autoAttempt,
    SmartOCRService.autoFallback, SmartOCRService.performOnlineOCR,
    SmartOCRService.performOfflineOCR, SmartOCRService.cooldownRunning,
    SmartOCRService.cooldownExpired, SmartOCRService.forceOfflineMode,
    byMode, bind, ret, throw, try_catch, gets, modify, when, now, sleep, log,
    lift, set_arb in *;
  cbn [arb console world fst snd] in *.

#[global] Arguments after_reads {W _} n w : simpl never.
#[global] Arguments reading {W _} n w : simpl never.

(** Counting console lines of one kind. *)
Ltac count_lines :=
  unfold remoteAttempts, localCalls; cbn;
  repeat (rewrite ?filter_app, ?length_app; cbn);
  try lia.

Section ArbiterFacts.
Context {W : Type} `{Runtime W} `{OCRProviders W}.

Lemma reading_0 (w : W) : Date_now w = (reading 0 w, after_reads 1 w).
Proof. unfold reading, after_reads. now destruct (Date_now w). Qed.

Lemma reading_S (n : nat) (w : W) :
    Date_now (after_reads n w) = (reading n w, after_reads (S n) w).
Proof.
    unfold reading. change (after_reads (S n) w) with (snd (Date_now (after_reads n w))).
    now destruct (Date_now (after_reads n w)).
Qed.

  (** In a state without cooldown the call reads the clock once and goes
      on by mode. *)
Lemma extract_normal (uri : string) (m : Mode) (s : Sys W) :
    isTemporarilyOffline (arb s) = false ->
    SmartOCRService.extractTextFromImage uri m s
    = byMode m uri (reading 0 (world s))
             (mkSys (arb s) (console s) (after_reads 1 (world s))).
Proof.
    intros Hflag. run. rewrite (reading_0 (world s)). cbn.
    rewrite Hflag. cbn. rewrite Hflag. cbn. destruct m; reflexivity.
Qed.

  (** While the cooldown runs every call, whatever its mode, is handed to
      the local provider. *)
Lemma extract_cooling (uri : string) (m : Mode) (s : Sys W) :
    cooling s ->
    SmartOCRService.extractTextFromImage uri m s
    = SmartOCRService.performOfflineOCR uri (reading 0 (world s)) true
        (mkSys (arb s) (console s ++ [LogUsingOfflineCooldown])
               (after_reads 2 (world s))).
Proof.
    intros [Hflag Hlt]. run. rewrite (reading_0 (world s)). cbn.
    rewrite Hflag. cbn. rewrite (reading_S 1 (world s)). cbn.
    apply Z.ltb_lt in Hlt. rewrite Hlt. reflexivity.
Qed.

  (** A call that finds the cooldown over clears the flag and the counter
      and goes on by mode. *)
Lemma extract_expired (uri : string) (m : Mode) (s : Sys W) :
    expired s ->
    SmartOCRService.extractTextFromImage uri m s
    = byMode m uri (reading 0 (world s))
             (mkSys (mkArbiter 0 false (offlineUntil (arb s)))
                    (console s ++ [LogCooldownExpired])
                    (after_reads 3 (world s))).
Proof.
    intros (Hflag & H1 & H2). run. rewrite (reading_0 (world s)). cbn.
    rewrite Hflag. cbn. rewrite (reading_S 1 (world s)). cbn.
    assert (E1 : (reading 1 (world s) <? offlineUntil (arb s)) = false)
      by (apply Z.ltb_ge; exact H1).
    rewrite E1. cbn. rewrite Hflag. cbn. rewrite (reading_S 2 (world s)). cbn.
    assert (E2 : (reading 2 (world s) >=? offlineUntil (arb s)) = true)
      by (apply Z.geb_le; lia).
    rewrite E2. cbn. destruct m; reflexivity.
Qed.

Lemma remoteAttempts_log (a : ArbiterState) (c : list LogLine) (l : LogLine) (w : W) :
    remoteAttempts (mkSys a (c ++ [l]) w)
    = (remoteAttempts (mkSys a c w) + (if isAttemptOnline l then 1 else 0))%nat.
Proof.
    unfold remoteAttempts; cbn. rewrite filter_app, length_app. cbn.
    destruct (isAttemptOnline l); reflexivity.
Qed.

Lemma localCalls_log (a : ArbiterState) (c : list LogLine) (l : LogLine) (w : W) :
    localCalls (mkSys a (c ++ [l]) w)
    = (localCalls (mkSys a c w) + (if isDeviceOnly l then 1 else 0))%nat.
Proof.
    unfold localCalls; cbn. rewrite filter_app, length_app. cbn.
    destruct (isDeviceOnly l); reflexivity.
Qed.

Lemma counts_irrelevant (a a' : ArbiterState) (c : list LogLine) (w w' : W) :
    remoteAttempts (mkSys a c w) = remoteAttempts (mkSys a' c w')
    /\ localCalls (mkSys a c w) = localCalls (mkSys a' c w').
Proof. split; reflexivity. Qed.

  (** [performOfflineOCR] calls the local provider and nothing else. *)
Lemma performOfflineOCR_run (uri : string) (t0 : Z) (fb : bool) (s : Sys W) :
    SmartOCRService.performOfflineOCR uri t0 fb s
    = match Offline_extractTextFromImage uri (world s) with
      | (Ok result, w1) =>
          (Ok {| text := off_text result; source := SrcOffline;
                 confidence := off_confidence result;
                 processingTime := reading 0 w1 - t0; fallbackUsed := fb |},
           mkSys (arb s) (console s ++ [LogDeviceOnly]) (after_reads 1 w1))
      | (Throw e, w1) =>
          (Throw e, mkSys (arb s) (console s ++ [LogDeviceOnly]) w1)
      end.
Proof.
    run. destruct (Offline_extractTextFromImage uri (world s)) as [[result | e] w1]; cbn.
    - rewrite (reading_0 w1). reflexivity.
    - reflexivity.
Qed.

  (** [performOnlineOCR] calls the remote provider and nothing else; what
      the provider throws is thrown on. *)
Lemma performOnlineOCR_run (uri : string) (t0 : Z) (s : Sys W) :
    SmartOCRService.performOnlineOCR uri t0 s
    = match Mistral_extractTextFromImage uri (world s) with
      | (Ok t, w1) =>
          (Ok {| text := t; source := SrcMistral; confidence := 9 # 10;
                 processingTime := reading 0 w1 - t0; fallbackUsed := false |},
           mkSys (arb s) (console s ++ [LogAttemptOnline]) (after_reads 1 w1))
      | (Throw e, w1) =>
          (Throw e,
           mkSys (arb s)
                 (if includes (message e) "429"
                  then (console s ++ [LogAttemptOnline]) ++ [LogRateLimited]
                  else console s ++ [LogAttemptOnline])
                 w1)
      end.
Proof.
    run. destruct (Mistral_extractTextFromImage uri (world s)) as [[t | e] w1]; cbn.
    - rewrite (reading_0 w1). reflexivity.
    - destruct (includes (message e) "429"); reflexivity.
Qed.

  (** Auto mode when the remote provider answers. *)
Lemma autoAttempt_success (uri : string) (t0 : Z) (s : Sys W) (t : string) (w1 : W) :
    Mistral_extractTextFromImage uri (world s) = (Ok t, w1) ->
    SmartOCRService.autoAttempt uri t0 s
    = (Ok {| text := t; source := SrcMistral; confidence := 9 # 10;
             processingTime := reading 0 w1 - t0; fallbackUsed := false |},
       mkSys (mkArbiter 0 (isTemporarilyOffline (arb s)) (offlineUntil (arb s)))
             (console s ++ [LogAttemptOnline]) (after_reads 1 w1)).
Proof.
    intros E. unfold SmartOCRService.autoAttempt, try_catch, bind at 1.
    rewrite performOnlineOCR_run, E. reflexivity.
Qed.

  (** Auto mode when the remote provider throws: the failure is counted,
      the cooldown is entered at the threshold, the local provider is
      called, and a result is returned whatever the local provider does. *)
Lemma autoAttempt_failure (uri : string) (t0 : Z) (s : Sys W) (e : JsError) (w1 : W) :
    Mistral_extractTextFromImage uri (world s) = (Throw e, w1) ->
    exists r s',
      SmartOCRService.autoAttempt uri t0 s = (Ok r, s')
      /\ arb s' = afterFailure (arb s) (reading 0 w1)
      /\ source r = SrcOffline /\ fallbackUsed r = true
      /\ remoteAttempts s' = S (remoteAttempts s)
      /\ localCalls s' = S (localCalls s)
      /\ let w2 := if consecutiveFailures (arb s) + 1 >=? MAX_CONSECUTIVE_FAILURES
                   then after_reads 1 w1 else w1 in
         match Offline_extractTextFromImage uri w2 with
         | (Ok result, _) =>
             text r = off_text result /\ confidence r = off_confidence result
         | (Throw offlineError, _) =>
             text r = SmartOCRService.bothFailedText e offlineError
             /\ confidence r = 0%Q
         end.
Proof.
    intros E. unfold SmartOCRService.autoAttempt, try_catch, bind at 1.
    rewrite performOnlineOCR_run, E.
    unfold SmartOCRService.autoFallback, afterFailure.
    unfold bind at 1. unfold log at 1. cbn [arb console world].
    unfold bind at 1. unfold set_arb at 1. cbn [arb console world].
    unfold bind at 1. unfold gets at 1. cbn [arb console world consecutiveFailures].
    destruct (consecutiveFailures (arb s) + 1 >=? MAX_CONSECUTIVE_FAILURES) eqn:Hc.
    - unfold bind at 1. unfold when. run. rewrite (reading_0 w1). cbn.
      destruct (Offline_extractTextFromImage uri (after_reads 1 w1))
        as [[result | oe] w3]; cbn.
      + rewrite (reading_0 w3). eexists; eexists. split; [reflexivity|]. cbn.
        repeat split; destruct (includes (message e) "429"); count_lines.
      + rewrite (reading_0 w3). eexists; eexists. split; [reflexivity|]. cbn.
        repeat split; destruct (includes (message e) "429"); count_lines.
    - unfold bind at 1. unfold when. run.
      destruct (Offline_extractTextFromImage uri w1) as [[result | oe] w3]; cbn.
      + rewrite (reading_0 w3). eexists; eexists. split; [reflexivity|]. cbn.
        repeat split; destruct (includes (message e) "429"); count_lines.
      + rewrite (reading_0 w3). eexists; eexists. split; [reflexivity|]. cbn.
        repeat split; destruct (includes (message e) "429"); count_lines.
Qed.

  (** One call made while the cooldown runs, in any mode. *)
Lemma cooling_call (uri : string) (m : Mode) (s : Sys W) :
    cooling s ->
    arb (snd (SmartOCRService.extractTextFromImage uri m s)) = arb s
    /\ remoteAttempts (snd (SmartOCRService.extractTextFromImage uri m s))
       = remoteAttempts s
    /\ localCalls (snd (SmartOCRService.extractTextFromImage uri m s))
       = S (localCalls s)
    /\ servedLocally (fst (SmartOCRService.extractTextFromImage uri m s)).
Proof.
    intros Hc. rewrite (extract_cooling uri m s Hc), performOfflineOCR_run. cbn.
    destruct (Offline_extractTextFromImage uri (after_reads 2 (world s)))
      as [[result | e] w1]; cbn;
      repeat split; count_lines.
Qed.

  (** What a call made while the cooldown runs returns and leaves: the
      outcome of the local provider, called after the two readings of the
      clock, and nothing of the remote one. *)
Lemma cooling_call_run (uri : string) (m : Mode) (s : Sys W) :
    cooling s ->
    SmartOCRService.extractTextFromImage uri m s
    = match Offline_extractTextFromImage uri (after_reads 2 (world s)) with
      | (Ok result, w1) =>
          (Ok {| text := off_text result; source := SrcOffline;
                 confidence := off_confidence result;
                 processingTime := reading 0 w1 - reading 0 (world s);
                 fallbackUsed := true |},
           mkSys (arb s) (console s ++ [LogUsingOfflineCooldown; LogDeviceOnly])
                 (after_reads 1 w1))
      | (Throw e, w1) =>
          (Throw e,
           mkSys (arb s) (console s ++ [LogUsingOfflineCooldown; LogDeviceOnly]) w1)
      end.
Proof.
    intros Hc. rewrite (extract_cooling uri m s Hc), performOfflineOCR_run.
    cbn [arb console world].
    destruct (Offline_extractTextFromImage uri (after_reads 2 (world s)))
      as [[result | e] w1]; rewrite <- app_assoc; reflexivity.
Qed.

Lemma cooldownCalls_frame (s s' : Sys W) (outcomes : list (Res OCRResult)) :
    cooldownCalls s outcomes s' ->
    arb s' = arb s
    /\ remoteAttempts s' = remoteAttempts s
    /\ localCalls s' = (localCalls s + List.length outcomes)%nat
    /\ Forall servedLocally outcomes.
Proof.
    induction 1 as [s | s outcomes s1 uri Hrun IH Hcool].
    - repeat split; [cbn; lia | constructor].
    - destruct IH as (Ha & Hr & Hn & Hf).
      destruct (cooling_call uri Auto s1 Hcool) as (Ha1 & Hr1 & Hn1 & Hl1).
      repeat split.
      + now rewrite Ha1.
      + now rewrite Hr1.
      + rewrite Hn1, Hn, length_app. cbn [List.length]. lia.
      + apply Forall_app. split; [exact Hf | constructor; [exact Hl1 | constructor]].
Qed.

Lemma remoteFails_throws (uri : string) (w : W) :
    remoteFails uri w = true ->
    exists e w1, Mistral_extractTextFromImage uri w = (Throw e, w1).
Proof.
    unfold remoteFails.
    destruct (Mistral_extractTextFromImage uri w) as [[t | e] w1]; cbn.
    - discriminate.
    - intros _. now exists e, w1.
Qed.

Lemma remoteFails_returns (uri : string) (w : W) :
    remoteFails uri w = false ->
    exists t w1, Mistral_extractTextFromImage uri w = (Ok t, w1).
Proof.
    unfold remoteFails.
    destruct (Mistral_extractTextFromImage uri w) as [[t | e] w1]; cbn.
    - intros _. now exists t, w1.
    - discriminate.
Qed.

  (** An auto-mode call in a state without cooldown whose remote attempt
      fails. *)
Lemma auto_failure_normal (uri : string) (s : Sys W) :
    isTemporarilyOffline (arb s) = false ->
    remoteFails uri (after_reads 1 (world s)) = true ->
    arb (snd (SmartOCRService.extractTextFromImage uri Auto s))
    = afterFailure (arb s)
        (reading 0 (snd (Mistral_extractTextFromImage uri (after_reads 1 (world s))))).
Proof.
    intros Hflag Hfail. rewrite (extract_normal uri Auto s Hflag). cbn [byMode].
    destruct (remoteFails_throws _ _ Hfail) as (e & w1 & E).
    destruct (autoAttempt_failure uri (reading 0 (world s))
                (mkSys (arb s) (console s) (after_reads 1 (world s))) e w1 E)
      as (r & s' & Hrun & Harb & _).
    rewrite Hrun, E. cbn. exact Harb.
Qed.





End ArbiterFacts.

(** C1.  Cooldown state machine of the arbiter.  From a state without
    cooldown and with no failure counted, two auto-mode calls in a row
    whose remote attempts fail set the cooldown flag, with the counter at
    2 and the expiry 5 minutes after the clock reading taken at the second
    failure.  Every later auto-mode call made while the clock is before
    the expiry goes to the local provider: it calls
    [Offline_extractTextFromImage] once, after its two readings of the
    clock, returns what that returned (as source 'offline', with
    [fallbackUsed = true]) or throws what it threw, makes no remote
    attempt, and leaves the arbiter's statics as they are; the world after
    the call is the one the local provider left.  The first call that
    finds the clock at or after the expiry clears the flag, resets the
    counter (it ends at 0 when the remote provider answers, at 1 when it
    fails again) and makes one remote attempt: it returns the remote
    provider's text as source 'mistral' when that answers, and falls back
    to the local provider when it throws. *)
Theorem cooldown_state_machine
    (W : Type) (R : Runtime W) (P : OCRProviders W)
    (s0 s3 : Sys W) (u1 u2 u : string) (outcomes : list (Res OCRResult)) :
  isTemporarilyOffline (arb s0) = false ->
  consecutiveFailures (arb s0) = 0 ->
  remoteFails u1 (after_reads 1 (world s0)) = true ->
  let s1 := snd (SmartOCRService.extractTextFromImage u1 Auto s0) in
  remoteFails u2 (after_reads 1 (world s1)) = true ->
  let s2 := snd (SmartOCRService.extractTextFromImage u2 Auto s1) in
  cooldownCalls s2 outcomes s3 ->
  let s4 := snd (SmartOCRService.extractTextFromImage u Auto s3) in
  (isTemporarilyOffline (arb s2) = true
   /\ consecutiveFailures (arb s2) = 2
   /\ offlineUntil (arb s2)
      = reading 0 (snd (Mistral_extractTextFromImage u2 (after_reads 1 (world s1))))
        + OFFLINE_COOLDOWN)
  /\ (arb s3 = arb s2
      /\ remoteAttempts s3 = remoteAttempts s2
      /\ localCalls s3 = (localCalls s2 + List.length outcomes)%nat
      /\ Forall servedLocally outcomes)
  /\ (cooling s3 ->
      SmartOCRService.extractTextFromImage u Auto s3
      = match Offline_extractTextFromImage u (after_reads 2 (world s3)) with
        | (Ok result, w1) =>
            (Ok {| text := off_text result; source := SrcOffline;
                   confidence := off_confidence result;
                   processingTime := reading 0 w1 - reading 0 (world s3);
                   fallbackUsed := true |},
             mkSys (arb s3) (console s3 ++ [LogUsingOfflineCooldown; LogDeviceOnly])
                   (after_reads 1 w1))
        | (Throw e, w1) =>
            (Throw e,
             mkSys (arb s3) (console s3 ++ [LogUsingOfflineCooldown; LogDeviceOnly]) w1)
        end
      /\ localCalls s4 = S (localCalls s3)
      /\ remoteAttempts s4 = remoteAttempts s3
      /\ arb s4 = arb s3)
  /\ (expired s3 ->
      remoteAttempts s4 = S (remoteAttempts s3)
      /\ isTemporarilyOffline (arb s4) = false
      /\ consecutiveFailures (arb s4)
         = (if remoteFails u (after_reads 3 (world s3)) then 1 else 0)
      /\ match Mistral_extractTextFromImage u (after_reads 3 (world s3)) with
         | (Ok t, w1) =>
             fst (SmartOCRService.extractTextFromImage u Auto s3)
             = Ok {| text := t; source := SrcMistral; confidence := 9 # 10;
                     processingTime := reading 0 w1 - reading 0 (world s3);
                     fallbackUsed := false |}
         | (Throw _, _) =>
             servedLocally (fst (SmartOCRService.extractTextFromImage u Auto s3))
         end).
Proof.
  intros Hflag0 Hzero Hfail1 s1 Hfail2 s2 Hrun s4.
  assert (A1 : arb s1 = mkArbiter 1 false (offlineUntil (arb s0))).
  { unfold s1. rewrite (auto_failure_normal u1 s0 Hflag0 Hfail1).
    unfold afterFailure. rewrite Hzero, Hflag0. reflexivity. }
  assert (A2 : arb s2
               = mkArbiter 2 true
                   (reading 0 (snd (Mistral_extractTextFromImage u2
                                      (after_reads 1 (world s1))))
                    + OFFLINE_COOLDOWN)).
  { unfold s2. rewrite (auto_failure_normal u2 s1); [|now rewrite A1|exact Hfail2].
    unfold afterFailure. rewrite A1. reflexivity. }
  split; [rewrite A2; repeat split|].
  split; [exact (cooldownCalls_frame s2 s3 outcomes Hrun)|].
  split.
  - intros Hcool. split; [exact (cooling_call_run u Auto s3 Hcool)|].
    destruct (cooling_call u Auto s3 Hcool) as (Ha & Hr & Hl & _). now repeat split.
  - intros Hexp. unfold s4. rewrite (extract_expired u Auto s3 Hexp). cbn [byMode].
    destruct (remoteFails u (after_reads 3 (world s3))) eqn:Hf.
    + destruct (remoteFails_throws _ _ Hf) as (e & w1 & E).
      destruct (autoAttempt_failure u (reading 0 (world s3))
                  (mkSys (mkArbiter 0 false (offlineUntil (arb s3)))
                         (console s3 ++ [LogCooldownExpired])
                         (after_reads 3 (world s3))) e w1 E)
        as (r & s' & Hauto & Harb & Hsrc & Hfb & Hrem & _).
      rewrite Hauto, E. cbn [fst snd]. rewrite Hrem, Harb.
      split; [count_lines|]. split; [reflexivity|]. split; [reflexivity|].
      split; [exact Hsrc | exact Hfb].
    + destruct (remoteFails_returns _ _ Hf) as (t & w1 & E).
      rewrite (autoAttempt_success u (reading 0 (world s3))
                 (mkSys (mkArbiter 0 false (offlineUntil (arb s3)))
                        (console s3 ++ [LogCooldownExpired])
                        (after_reads 3 (world s3))) t w1 E), E. cbn [fst snd arb].
      split; [count_lines|]. split; [reflexivity|]. split; reflexivity.
Qed.

(** Abbreviations for the runs on the device used as witnesses. *)
Abbreviation Rdown := (Device.device_runtime Scenario.remoteDown).
Abbreviation Pdown := (device_providers Scenario.remoteDown).
Abbreviation callDown :=
  (@SmartOCRService.extractTextFromImage Device.World
     (Device.device_runtime Scenario.remoteDown)
     (device_providers Scenario.remoteDown) Scenario.image).
Abbreviation down1 := (snd (callDown Auto OnDevice.start)).
Abbreviation down2 := (snd (callDown Auto down1)).
Abbreviation down3 := (snd (callDown Auto down2)).
Abbreviation down4 := (snd (callDown Auto down3)).

Lemma cooldown_state_machine_witness :
  (isTemporarilyOffline (arb down2) = true
   /\ consecutiveFailures (arb down2) = 2
   /\ offlineUntil (arb down2) = 9000 + OFFLINE_COOLDOWN)
  /\ (exists r,
         callDown Auto down2 = (Ok r, down3)
         /\ text r = "device text" /\ source r = SrcOffline /\ fallbackUsed r = true
         /\ arb down3 = arb down2
         /\ @remoteAttempts Device.World down3 = 2%nat
         /\ @localCalls Device.World down3 = 3%nat
         /\ Device.requests (world down3) = 2%nat
         /\ Device.recognitions (world down3) = 3%nat)
  /\ (@remoteAttempts Device.World down4 = 3%nat
      /\ isTemporarilyOffline (arb down4) = false
      /\ consecutiveFailures (arb down4) = 1).
Proof.
  assert (H0 : isTemporarilyOffline (arb OnDevice.start) = false) by reflexivity.
  assert (H1 : consecutiveFailures (arb OnDevice.start) = 0) by reflexivity.
  assert (H2 : @remoteFails _ Pdown Scenario.image
                 (@after_reads _ Rdown 1 (world OnDevice.start)) = true)
    by (vm_compute; reflexivity).
  assert (H3 : @remoteFails _ Pdown Scenario.image
                 (@after_reads _ Rdown 1 (world down1)) = true)
    by (vm_compute; reflexivity).
  assert (Hcool : @cooling _ Rdown down2) by (split; vm_compute; reflexivity).
  assert (Hexp : @expired _ Rdown down3) by (repeat split; vm_compute; discriminate).
  pose proof (@cooldown_more _ Rdown Pdown _ [] _ Scenario.image
                (cooldown_none down2) Hcool) as Hrun.
  (* the third call is made while the cooldown runs *)
  destruct (@cooldown_state_machine _ Rdown Pdown OnDevice.start down2
              Scenario.image Scenario.image Scenario.image []
              H0 H1 H2 H3 (cooldown_none _))
    as (Henter & _ & Hstay & _).
  (* the fourth call finds the cooldown over *)
  destruct (@cooldown_state_machine _ Rdown Pdown OnDevice.start down3
              Scenario.image Scenario.image Scenario.image _
              H0 H1 H2 H3 Hrun)
    as (_ & (_ & Hquiet & _) & _ & Hexit).
  destruct (Hstay Hcool) as (Hcall & Hlocal & Hsame & Hkeep).
  destruct (Hexit Hexp) as (Hr & Hf & Hc & _).
  split; [|split].
  - destruct Henter as (E1 & E2 & E3). split; [exact E1|]. split; [exact E2|].
    rewrite E3. vm_compute. reflexivity.
  - eexists. split; [vm_compute; reflexivity|].
    split; [reflexivity|]. split; [reflexivity|]. split; [reflexivity|].
    split; [exact Hkeep|]. split; [rewrite Hsame; vm_compute; reflexivity|].
    split; [rewrite Hlocal; vm_compute; reflexivity|].
    split; vm_compute; reflexivity.
  - split; [rewrite Hr, Hquiet; vm_compute; reflexivity|].
    split; [exact Hf|]. rewrite Hc. vm_compute. reflexivity.
Defined.




Section CounterAndFlag.
Context {W : Type} `{Runtime W} `{OCRProviders W}.

(** Where a call goes: to the local provider while the cooldown runs, else
    on by mode, from the arbiter's statics as they were or as the expiry
    test has reset them. *)
Lemma extract_dispatch (uri : string) (m : Mode) (s : Sys W) :
  cooling s
  \/ exists a c n,
       (a = arb s \/ a = mkArbiter 0 false (offlineUntil (arb s)))
       /\ SmartOCRService.extractTextFromImage uri m s
          = byMode m uri (reading 0 (world s)) (mkSys a c (after_reads n (world s))).
Proof.
  destruct (isTemporarilyOffline (arb s)) eqn:Hflag.
  - destruct (Z.ltb_spec (reading 1 (world s)) (offlineUntil (arb s))) as [Hlt | Hge].
    + left. now split.
    + right.
      destruct (Z.leb_spec (offlineUntil (arb s)) (reading 2 (world s))) as [Hle | Hgt].
      * exists (mkArbiter 0 false (offlineUntil (arb s))),
               (console s ++ [LogCooldownExpired])%list, 3%nat.
        split; [now right|]. apply extract_expired. now repeat split.
      * exists (arb s), (console s), 3%nat. split; [now left|].
        run. rewrite (reading_0 (world s)). cbn.
        rewrite Hflag. cbn. rewrite (reading_S 1 (world s)). cbn.
        assert (E1 : (reading 1 (world s) <? offlineUntil (arb s)) = false)
          by (apply Z.ltb_ge; exact Hge).
        rewrite E1. cbn. rewrite Hflag. cbn. rewrite (reading_S 2 (world s)). cbn.
        assert (E2 : (reading 2 (world s) >=? offlineUntil (arb s)) = false)
          by (rewrite Z.geb_leb; apply Z.leb_gt; exact Hgt).
        rewrite E2. cbn. destruct m; reflexivity.
  - right. exists (arb s), (console s), 1%nat. split; [now left|].
    now apply extract_normal.
Qed.

(** What auto mode leaves in the arbiter's statics. *)
Lemma autoAttempt_arb (uri : string) (t0 : Z) (s : Sys W) :
  match fst (SmartOCRService.autoAttempt uri t0 s) with
  | Ok r =>
      (source r = SrcMistral
       /\ arb (snd (SmartOCRService.autoAttempt uri t0 s))
          = mkArbiter 0 (isTemporarilyOffline (arb s)) (offlineUntil (arb s)))
      \/ (source r = SrcOffline
          /\ arb (snd (SmartOCRService.autoAttempt uri t0 s))
             = afterFailure (arb s)
                 (reading 0 (snd (Mistral_extractTextFromImage uri (world s)))))
  | Throw _ => False
  end.
Proof.
  destruct (Mistral_extractTextFromImage uri (world s)) as [[t | e] w1] eqn:E.
  - rewrite (autoAttempt_success uri t0 s t w1 E). cbn. left. now split.
  - destruct (autoAttempt_failure uri t0 s e w1 E) as (r & s' & Hrun & Harb & Hsrc & _).
    rewrite Hrun. cbn. right. now split.
Qed.

Lemma performOnlineOCR_arb (uri : string) (t0 : Z) (s : Sys W) :
  arb (snd (SmartOCRService.performOnlineOCR uri t0 s)) = arb s.
Proof.
  rewrite performOnlineOCR_run.
  now destruct (Mistral_extractTextFromImage uri (world s)) as [[t | e] w1].
Qed.

Lemma performOfflineOCR_arb (uri : string) (t0 : Z) (fb : bool) (s : Sys W) :
  arb (snd (SmartOCRService.performOfflineOCR uri t0 fb s)) = arb s.
Proof.
  rewrite performOfflineOCR_run.
  now destruct (Offline_extractTextFromImage uri (world s)) as [[r | e] w1].
Qed.

End CounterAndFlag.




(** ** Strings *)

Lemma append_assoc (a b c : string) : (a ++ b) ++ c = a ++ (b ++ c).
Proof. induction a as [|x a IH]; cbn; [reflexivity | now rewrite IH]. Qed.

Lemma append_nil_r (a : string) : a ++ "" = a.
Proof. induction a as [|x a IH]; cbn; [reflexivity | now rewrite IH]. Qed.

Lemma prefix_append (b c : string) : prefix b (b ++ c) = true.
Proof.
  induction b as [|x b IH]; cbn.
  - now destruct c.
  - destruct (ascii_dec x x) as [_ | Hne]; [exact IH | now elim Hne].
Qed.

Lemma includes_unfold (hay needle : string) :
  includes hay needle
  = if prefix needle hay then true
    else match hay with
         | EmptyString => false
         | String _ rest => includes rest needle
         end.
Proof. destruct hay; reflexivity. Qed.

Lemma includes_prefix (hay needle : string) :
  prefix needle hay = true -> includes hay needle = true.
Proof. intros Hp. rewrite includes_unfold, Hp. reflexivity. Qed.

Lemma includes_tail (x : ascii) (hay needle : string) :
  includes hay needle = true -> includes (String x hay) needle = true.
Proof.
  intros Hin. rewrite includes_unfold. rewrite Hin.
  now destruct (prefix needle (String x hay)).
Qed.

(** A string includes whatever is spliced into it. *)
Lemma includes_middle (a b c : string) : includes (a ++ b ++ c) b = true.
Proof.
  induction a as [|x a IH]; cbn [append].
  - apply includes_prefix, prefix_append.
  - now apply includes_tail.
Qed.

Lemma includes_append_right (a b needle : string) :
  includes b needle = true -> includes (a ++ b) needle = true.
Proof.
  intros Hin. induction a as [|x a IH]; cbn [append]; [exact Hin|].
  now apply includes_tail.
Qed.

(** Splicing into a text that starts with literal characters. *)
Ltac spliced :=
  cbn [append];
  repeat apply includes_tail;
  first [ apply (includes_middle "")
        | apply includes_append_right; spliced ].

(** An error prints as its message, after its name when it has one. *)
Lemma error_toString_message (e : JsError) :
  exists a, error_toString e = a ++ message e.
Proof.
  unfold error_toString. destruct (errorName e) as [|c name].
  - now exists "".
  - destruct (message e) as [|d msg].
    + exists (String c name). now rewrite append_nil_r.
    + exists (String c name ++ ": "). now rewrite append_assoc.
Qed.

Lemma includes_error_toString (p q : string) (e : JsError) :
  includes (p ++ error_toString e ++ q) (message e) = true.
Proof.
  destruct (error_toString_message e) as [a ->].
  rewrite append_assoc, <- (append_assoc p a). apply includes_middle.
Qed.

(** The diagnostic text carries the messages of both errors. *)
Lemma bothFailedText_embeds (error offlineError : JsError) :
  includes (SmartOCRService.bothFailedText error offlineError) (message error) = true
  /\ includes (SmartOCRService.bothFailedText error offlineError) (message offlineError)
     = true.
Proof.
  unfold SmartOCRService.bothFailedText. split.
  - do 4 apply includes_append_right. apply (includes_error_toString "").
  - do 7 apply includes_append_right. apply (includes_error_toString "").
Qed.

(** ** The local provider of the repository *)

(** [OfflineOCRService.extractTextFromImage] returns whatever happens
    inside.  It asks for the file once, and calls the recogniser only when
    the file exists; when anything fails it returns the empty text with
    confidence 0. *)
Lemma offline_provider_never_throws (env : Device.Env) (uri : string) (w : Device.World) :
  exists r w1,
    OfflineOCRService.extractTextFromImage env uri w = (Ok r, w1)
    /\ Device.fileChecks w1 = S (Device.fileChecks w)
    /\ match Device.fileInfo env (Device.fileChecks w) with
       | Device.FileInfo true =>
           Device.recognitions w1 = S (Device.recognitions w)
           /\ match Device.mlkit env (Device.recognitions w) with
              | Device.Recognized _ => True
              | Device.RecognizeFailed _ => off_text r = "" /\ off_confidence r = 0%Q
              end
       | _ =>
           Device.recognitions w1 = Device.recognitions w
           /\ off_text r = "" /\ off_confidence r = 0%Q
       end.
Proof.
  unfold OfflineOCRService.extractTextFromImage, OfflineOCRService.initialize,
    Device.dnow, Device.getInfo, Device.recognize, Device.set_isInitialized,
    bind, try_catch, ret, throw, gets.
  cbn. destruct (Device.isInitialized w); cbn;
    (destruct (Device.fileInfo env (Device.fileChecks w)) as [e | []]; cbn;
     [ | destruct (Device.mlkit env (Device.recognitions w)); cbn | ]);
    eexists; eexists; (split; [reflexivity|]); cbn; auto.
Qed.

(** What the local provider of the repository returns. *)
Lemma offline_result (env : Device.Env) (uri : string) (w : Device.World) :
  exists r w1,
    OfflineOCRService.extractTextFromImage env uri w = (Ok r, w1)
    /\ match Device.fileInfo env (Device.fileChecks w) with
       | Device.FileInfo true =>
           match Device.mlkit env (Device.recognitions w) with
           | Device.Recognized rec =>
               off_text r = match Device.rec_text rec with Some t => t | None => "" end
           | Device.RecognizeFailed _ => off_text r = "" /\ off_confidence r = 0%Q
           end
       | _ => off_text r = "" /\ off_confidence r = 0%Q
       end.
Proof.
  unfold OfflineOCRService.extractTextFromImage, OfflineOCRService.initialize,
    Device.dnow, Device.getInfo, Device.recognize, Device.set_isInitialized,
    bind, try_catch, ret, throw, gets.
  cbn. destruct (Device.isInitialized w); cbn;
    (destruct (Device.fileInfo env (Device.fileChecks w)) as [e | []]; cbn;
     [ | destruct (Device.mlkit env (Device.recognitions w)); cbn | ]);
    eexists; eexists; (split; [reflexivity|]); cbn; auto.
Qed.

Section AutoFacts.
Context {W : Type} `{Runtime W} `{OCRProviders W}.

(** An auto-mode call made while no cooldown runs is the auto attempt,
    started at the provider's world with the counter as the cooldown
    checks left it; so far no provider was called. *)
Lemma auto_shape (uri : string) (s : Sys W) :
  notCooling s ->
  exists a c,
    SmartOCRService.extractTextFromImage uri Auto s
    = SmartOCRService.autoAttempt uri (reading 0 (world s))
        (mkSys a c (worldAtProvider s))
    /\ consecutiveFailures a
       = (if isTemporarilyOffline (arb s) then 0 else consecutiveFailures (arb s))
    /\ remoteAttempts (mkSys a c (worldAtProvider s)) = remoteAttempts s
       /\ localCalls (mkSys a c (worldAtProvider s)) = localCalls s.
Proof.
  intros Hnc. unfold worldAtProvider. destruct Hnc as [Hflag | Hexp].
  - rewrite (extract_normal uri Auto s Hflag), Hflag.
    exists (arb s), (console s). now repeat split.
  - rewrite (extract_expired uri Auto s Hexp).
    destruct Hexp as (Hflag & _). rewrite Hflag.
    exists (mkArbiter 0 false (offlineUntil (arb s))),
           (console s ++ [LogCooldownExpired])%list.
    split; [reflexivity|]. split; [reflexivity|]. split; count_lines.
Qed.

End AutoFacts.

(** The [catch] block of lines 77-97.  In auto mode, outside a running
    cooldown, when the remote provider throws [error] and the local
    provider, called as fallback, throws [offlineError],
    [extractTextFromImage] does not throw: it returns a result with
    confidence 0, source 'offline', [fallbackUsed = true], whose text is
    the diagnostic text and carries the messages of both errors. *)
Lemma diagnostic_when_local_provider_throws
    (W : Type) (R : Runtime W) (P : OCRProviders W) (s : Sys W) (uri : string)
    (error offlineError : JsError) (w1 w2 : W) :
  notCooling s ->
  Mistral_extractTextFromImage uri (worldAtProvider s) = (Throw error, w1) ->
  Offline_extractTextFromImage uri (worldAtFallback s w1) = (Throw offlineError, w2) ->
  exists r s',
    SmartOCRService.extractTextFromImage uri Auto s = (Ok r, s')
    /\ confidence r = 0%Q
    /\ text r = SmartOCRService.bothFailedText error offlineError
    /\ includes (text r) (message error) = true
    /\ includes (text r) (message offlineError) = true
    /\ source r = SrcOffline
    /\ fallbackUsed r = true.
Proof.
  intros Hnc Hremote Hlocal.
  destruct (auto_shape uri s Hnc) as (a & c & Hgo & Hfail & _).
  destruct (autoAttempt_failure uri (reading 0 (world s))
              (mkSys a c (worldAtProvider s)) error w1 Hremote)
    as (r & s' & Hrun & _ & Hsrc & Hfb & _ & _ & Hloc).
  cbn [arb] in Hloc. rewrite Hfail in Hloc.
  unfold worldAtFallback in Hlocal. rewrite Hlocal in Hloc.
  destruct Hloc as [Htext Hconf].
  exists r, s'. rewrite Hgo. split; [exact Hrun|].
  split; [exact Hconf|]. split; [exact Htext|].
  rewrite Htext.
  destruct (bothFailedText_embeds error offlineError) as [He Ho].
  now repeat split.
Qed.

(** A local provider that throws, as a device whose recogniser module is
    not linked would, makes the arbiter return the diagnostic text. *)
Lemma diagnostic_when_local_provider_throws_example :
  exists r s',
    @SmartOCRService.extractTextFromImage Device.World
      (Device.device_runtime Scenario.remoteDown)
      (Scenario.noRecogniser Scenario.remoteDown)
      Scenario.image Auto OnDevice.start = (Ok r, s')
    /\ confidence r = 0%Q
    /\ includes (text r) "Mistral OCR API error: 500" = true
    /\ includes (text r) "TextRecognition is not linked" = true.
Proof.
  eexists; eexists. split; [vm_compute; reflexivity|].
  split; [reflexivity|]. split; vm_compute; reflexivity.
Qed.

(** C5, as stated, fails with the providers of the repository.  The API
    answers 500 and the recogniser rejects the image: the remote attempt
    fails and the local recognition fails too.  The local provider turns
    its failure into an empty result, so the arbiter returns the empty
    text with confidence 0: neither error message is in it. *)
Lemma both_providers_fail_counterexample :
  fst (MistralOCRService.extractTextFromImage Cases.blindDevice Scenario.image
         (snd (Device.read_clock Cases.blindDevice Device.world_init)))
  = Throw (MistralOCRService.apiError Scenario.serverError)
  /\ Device.mlkit Cases.blindDevice 0 = Device.RecognizeFailed (mkError "recogniser crashed")
  /\ exists r s',
       OnDevice.extractTextFromImage Cases.blindDevice Scenario.image Auto OnDevice.start
       = (Ok r, s')
       /\ text r = "" /\ confidence r = 0%Q
       /\ source r = SrcOffline /\ fallbackUsed r = true
       /\ includes (text r) (message (MistralOCRService.apiError Scenario.serverError))
          = false
       /\ includes (text r) "recogniser crashed" = false.
Proof.
  split; [vm_compute; reflexivity|]. split; [reflexivity|].
  eexists; eexists. split; [vm_compute; reflexivity|].
  repeat split.
Qed.

(** C5, amended.  With the providers of the repository, an auto-mode
    request made outside a running cooldown whose remote attempt fails
    never throws: after one remote attempt and one call of the local
    provider it returns a result with source 'offline' and
    [fallbackUsed = true].  When the local recognition fails too (the file
    check rejects or finds no file, or the recogniser rejects) the result
    has the empty text and confidence 0, and it is not the diagnostic
    text: [OfflineOCRService.extractTextFromImage] catches its own errors.
    Otherwise the result has the recognised text.  The arbiter returns the
    diagnostic result (confidence 0, a text that carries both error
    messages) when the call of the local provider itself throws: so it
    does with any local provider that throws in place of the
    repository's. *)
Theorem both_providers_fail_diagnostic
    (env : Device.Env) (s : Sys Device.World) (uri : string)
    (error : JsError) (w1 : Device.World) :
  @notCooling Device.World (Device.device_runtime env) s ->
  MistralOCRService.extractTextFromImage env uri
    (@worldAtProvider Device.World (Device.device_runtime env) s) = (Throw error, w1) ->
  (exists r s',
      OnDevice.extractTextFromImage env uri Auto s = (Ok r, s')
      /\ source r = SrcOffline
      /\ fallbackUsed r = true
      /\ remoteAttempts s' = S (remoteAttempts s)
      /\ localCalls s' = S (localCalls s)
      /\ let w := @worldAtFallback Device.World (Device.device_runtime env) s w1 in
         match Device.fileInfo env (Device.fileChecks w) with
         | Device.FileInfo true =>
             match Device.mlkit env (Device.recognitions w) with
             | Device.Recognized rec =>
                 text r = match Device.rec_text rec with Some t => t | None => "" end
             | Device.RecognizeFailed _ =>
                 text r = "" /\ confidence r = 0%Q
                 /\ forall offlineError,
                      text r <> SmartOCRService.bothFailedText error offlineError
             end
         | _ =>
             text r = "" /\ confidence r = 0%Q
             /\ forall offlineError,
                  text r <> SmartOCRService.bothFailedText error offlineError
         end)
  /\ (forall (local : string -> M Device.World OfflineOCRResult)
             (offlineError : JsError) (w2 : Device.World),
         local uri (@worldAtFallback Device.World (Device.device_runtime env) s w1)
         = (Throw offlineError, w2) ->
         exists r s',
           @SmartOCRService.extractTextFromImage Device.World (Device.device_runtime env)
             {| Mistral_extractTextFromImage := MistralOCRService.extractTextFromImage env;
                Offline_extractTextFromImage := local |}
             uri Auto s = (Ok r, s')
           /\ confidence r = 0%Q
           /\ text r = SmartOCRService.bothFailedText error offlineError
           /\ includes (text r) (message error) = true
           /\ includes (text r) (message offlineError) = true
           /\ source r = SrcOffline
           /\ fallbackUsed r = true).
Proof.
  intros Hnc Hremote. split.
  - destruct (@auto_shape Device.World (Device.device_runtime env) (device_providers env)
                uri s Hnc) as (a & c & Hgo & Hfail & Hcount).
    destruct (@autoAttempt_failure Device.World (Device.device_runtime env)
                (device_providers env) uri
                (@reading Device.World (Device.device_runtime env) 0 (world s))
                (mkSys a c (@worldAtProvider Device.World (Device.device_runtime env) s))
                error w1 Hremote)
      as (r & s' & Hrun & _ & Hsrc & Hfb & Hrem & Hlocal & Hloc).
    cbn [arb] in Hloc. rewrite Hfail in Hloc.
    exists r, s'. unfold OnDevice.extractTextFromImage. rewrite Hgo.
    split; [exact Hrun|]. split; [exact Hsrc|]. split; [exact Hfb|].
    destruct Hcount as [Hr0 Hl0].
    split; [rewrite Hrem, Hr0; reflexivity|].
    split; [rewrite Hlocal, Hl0; reflexivity|].
    cbv zeta. unfold worldAtFallback.
    cbn [Offline_extractTextFromImage device_providers] in Hloc.
    set (w := if (if isTemporarilyOffline (arb s) then 0
                  else consecutiveFailures (arb s))
                 + 1 >=? MAX_CONSECUTIVE_FAILURES
              then @after_reads Device.World (Device.device_runtime env) 1 w1
              else w1) in *.
    destruct (offline_result env uri w) as (r0 & w2 & E & Hout).
    rewrite E in Hloc. destruct Hloc as [Htext Hconf].
    assert (Hempty : off_text r0 = "" /\ off_confidence r0 = 0%Q ->
                     text r = "" /\ confidence r = 0%Q
                     /\ forall offlineError,
                          text r <> SmartOCRService.bothFailedText error offlineError).
    { intros [Ht Hc]. rewrite Htext, Hconf, Ht, Hc.
      split; [reflexivity|]. split; [reflexivity|]. intros offlineError. discriminate. }
    destruct (Device.fileInfo env (Device.fileChecks w)) as [e | []].
    + exact (Hempty Hout).
    + destruct (Device.mlkit env (Device.recognitions w)) as [e | rec].
      * exact (Hempty Hout).
      * now rewrite Htext.
    + exact (Hempty Hout).
  - intros local offlineError w2 Hlocal.
    exact (diagnostic_when_local_provider_throws Device.World (Device.device_runtime env)
             {| Mistral_extractTextFromImage := MistralOCRService.extractTextFromImage env;
                Offline_extractTextFromImage := local |}
             s uri error offlineError w1 w2 Hnc Hremote Hlocal).
Qed.

Lemma both_providers_fail_diagnostic_witness :
  (exists r s',
      OnDevice.extractTextFromImage Cases.blindDevice Scenario.image Auto OnDevice.start
      = (Ok r, s')
      /\ source r = SrcOffline
      /\ fallbackUsed r = true
      /\ text r = "" /\ confidence r = 0%Q)
  /\ (exists r s',
         @SmartOCRService.extractTextFromImage Device.World
           (Device.device_runtime Cases.blindDevice)
           (Scenario.noRecogniser Cases.blindDevice)
           Scenario.image Auto OnDevice.start = (Ok r, s')
         /\ confidence r = 0%Q
         /\ includes (text r) "Mistral OCR API error: 500" = true
         /\ includes (text r) "TextRecognition is not linked" = true).
Proof.
  assert (Hnc : @notCooling Device.World (Device.device_runtime Cases.blindDevice)
                  OnDevice.start) by (left; reflexivity).
  assert (Hremote : MistralOCRService.extractTextFromImage Cases.blindDevice
                      Scenario.image
                      (@worldAtProvider Device.World
                         (Device.device_runtime Cases.blindDevice) OnDevice.start)
                    = (Throw (MistralOCRService.apiError Scenario.serverError),
                       snd (MistralOCRService.extractTextFromImage Cases.blindDevice
                              Scenario.image
                              (@worldAtProvider Device.World
                                 (Device.device_runtime Cases.blindDevice)
                                 OnDevice.start))))
    by (vm_compute; reflexivity).
  destruct (both_providers_fail_diagnostic Cases.blindDevice OnDevice.start
              Scenario.image _ _ Hnc Hremote)
    as ((r & s' & Hrun & Hsrc & Hfb & _ & _ & Hout) & Hdiag).
  split.
  - exists r, s'. split; [exact Hrun|]. split; [exact Hsrc|]. split; [exact Hfb|].
    cbv zeta in Hout. vm_compute in Hout. destruct Hout as (Ht & Hc & _).
    split; [exact Ht | exact Hc].
  - destruct (Hdiag (fun _ => throw (mkError "TextRecognition is not linked"))
                (mkError "TextRecognition is not linked") _ eq_refl)
      as (r2 & s2 & Hrun2 & Hconf2 & Htext2 & _).
    exists r2, s2. split; [exact Hrun2|]. split; [exact Hconf2|].
    rewrite Htext2. split; vm_compute; reflexivity.
Defined.

(** How errors print in a template literal. *)
Lemma error_toString_examples :
  error_toString (mkJsError "TypeError" "x is not a function")
  = "TypeError: x is not a function"
  /\ error_toString (mkError "boom") = "Error: boom"
  /\ error_toString (mkError "") = "Error"
  /\ error_toString (mkJsError "" "plain") = "plain".
Proof. repeat split. Qed.
(** ** The batch entry point of the arbiter *)



Section BatchFacts.
Context {W : Type} `{Runtime W} `{OCRProviders W}.






End BatchFacts.




(** On the device with the API down, mode 'online' throws for every image
    and the batch returns the two placeholders. *)
Lemma batch_of_two_failures :
  fst (OnDevice.extractTextFromImages Scenario.remoteDown
         [Scenario.image; Scenario.image] Online None OnDevice.start)
  = Ok [SmartOCRBatch.errorResult 0 (MistralOCRService.apiError Scenario.serverError);
        SmartOCRBatch.errorResult 1 (MistralOCRService.apiError Scenario.serverError)].
Proof. vm_compute. reflexivity. Qed.

(** ** MistralOCRService: the retry policy *)

(** C4, the failing input.  The API answers 429, then 500, then the text:
    the 500 of the second attempt is not thrown but retried at once (the
    only delay is the 2000 ms after the 429), a third request is made and
    its text is returned.  The guard [attempt === 0] of line 59 lets every
    error of a later attempt through to the next turn of the loop. *)
Lemma other_error_after_429_is_retried :
  fst (MistralOCRService.extractTextFromImage Scenario.rateLimitedThenError
         Scenario.image Device.world_init)
  = Ok "remote text"
  /\ Device.requests
       (snd (MistralOCRService.extractTextFromImage Scenario.rateLimitedThenError
               Scenario.image Device.world_init)) = 3%nat
  /\ Device.timers
       (snd (MistralOCRService.extractTextFromImage Scenario.rateLimitedThenError
               Scenario.image Device.world_init)) = [2000].
Proof. repeat split; vm_compute; reflexivity. Qed.

(** Scenario D: 429 twice, then the text.  The provider waits 2000 ms and
    4000 ms, makes three requests, and auto mode returns the remote text
    with source 'mistral' and no fallback. *)
Lemma rate_limited_twice_then_text :
  Device.timers
    (snd (MistralOCRService.extractTextFromImage Scenario.rateLimitedTwice
            Scenario.image Device.world_init)) = [2000; 4000]
  /\ match fst (OnDevice.extractTextFromImage Scenario.rateLimitedTwice
                  Scenario.image Auto OnDevice.start) with
     | Ok r => text r = "remote text" /\ source r = SrcMistral
               /\ fallbackUsed r = false
     | Throw _ => False
     end.
Proof. split; vm_compute; repeat split. Qed.

(** ** EnhancedPDFService: pages, retries and the OCR gate *)

Lemma trim_empty : trim "" = "".
Proof. reflexivity. Qed.

(** The gate lets OCR run only on a page whose own text, trimmed, is
    shorter than 20 characters. *)
Lemma needsOCR_short (pageText pageImageUri : string) :
  EnhancedPDFService.needsOCR pageText pageImageUri = true ->
  strlen (trim pageText) < EnhancedPDFService.MIN_TEXT_LENGTH
  /\ pageImageUri <> "".
Proof.
  unfold EnhancedPDFService.needsOCR. intros Hg.
  apply andb_true_iff in Hg. destruct Hg as [Hshort Himg]. split.
  - apply orb_true_iff in Hshort. destruct Hshort as [Hf | Hlt].
    + destruct pageText; [reflexivity | discriminate].
    + now apply Z.ltb_lt.
  - destruct pageImageUri; [discriminate | congruence].
Qed.

Lemma needsOCR_enough (pageText pageImageUri : string) :
  EnhancedPDFService.MIN_TEXT_LENGTH <= strlen (trim pageText) ->
  EnhancedPDFService.needsOCR pageText pageImageUri = false.
Proof.
  intros Hlen. unfold EnhancedPDFService.needsOCR.
  destruct pageText as [|c rest]; [cbn in Hlen; unfold EnhancedPDFService.MIN_TEXT_LENGTH in Hlen; lia|].
  cbn [falsy orb]. apply Z.ltb_ge in Hlen. rewrite Hlen. reflexivity.
Qed.

Lemma pageEntries_app (pdfDoc : PdfDoc) (a b : list EnhancedPDFService.PDFPageInfo) :
  forall i,
    pageEntries pdfDoc i a ->
    pageEntries pdfDoc (i + Z.of_nat (List.length a)) b ->
    pageEntries pdfDoc i (a ++ b).
Proof.
  induction a as [|x a IH]; intros i Ha Hb; cbn in *.
  - now rewrite Z.add_0_r in Hb.
  - inversion Ha; subst. constructor; [assumption|].
    apply IH; [assumption|].
    replace (i + 1 + Z.of_nat (List.length a))
      with (i + Z.pos (Pos.of_succ_nat (List.length a))) by lia.
    exact Hb.
Qed.

Lemma pageEntries_nth (pdfDoc : PdfDoc) (l : list EnhancedPDFService.PDFPageInfo) :
  forall i n info,
    pageEntries pdfDoc i l ->
    nth_error l n = Some info ->
    pageEntry pdfDoc (i + Z.of_nat n) info.
Proof.
  induction l as [|x l IH]; intros i n info Hl Hn.
  - destruct n; discriminate.
  - inversion Hl; subst. destruct n as [|n]; cbn in Hn.
    + inversion Hn; subst. now rewrite Z.add_0_r.
    + replace (i + Z.of_nat (S n)) with (i + 1 + Z.of_nat n) by lia.
      now apply IH.
Qed.

Section PDFFacts.
Context {W : Type} `{Runtime W} `{OCRProviders W} `{Files W}.

(** [pageProcessing] never throws; it runs OCR only through the gate, and
    a page that does not pass the gate leaves the arbiter and the console
    as they were. *)
Lemma pageProcessing_run (pdfDoc : PdfDoc) (useOnlineOCR : bool) (pageNum attempt : Z)
      (s : Sys W) :
  exists pageText ocrUsed s1,
    EnhancedPDFService.pageProcessing pdfDoc useOnlineOCR pageNum attempt s
    = (Ok (pageText, ocrUsed), s1)
    /\ (ocrUsed = true ->
        EnhancedPDFService.needsOCR
          (EnhancedPDFService.basicPageText pdfDoc pageNum attempt)
          (EnhancedPDFService.convertedImage pdfDoc pageNum attempt) = true)
    /\ (EnhancedPDFService.needsOCR
          (EnhancedPDFService.basicPageText pdfDoc pageNum attempt)
          (EnhancedPDFService.convertedImage pdfDoc pageNum attempt) = false ->
        pageText = EnhancedPDFService.basicPageText pdfDoc pageNum attempt
        /\ ocrUsed = false /\ arb s1 = arb s /\ console s1 = console s).
Proof.
  unfold EnhancedPDFService.pageProcessing.
  set (img := EnhancedPDFService.convertedImage pdfDoc pageNum attempt).
  set (txt := EnhancedPDFService.basicPageText pdfDoc pageNum attempt).
  assert (Hdel : forall (r : string * bool) (s0 : Sys W),
             exists s1,
               (when (negb (falsy img))
                     (try_catch (lift (FileSystem_deleteAsync img)) (fun _ => ret tt)) ;;
                ret r) s0 = (Ok r, s1)
               /\ arb s1 = arb s0 /\ console s1 = console s0).
  { intros r s0. unfold bind, when, try_catch, lift, ret.
    destruct (negb (falsy img)); cbn.
    - destruct (FileSystem_deleteAsync img (world s0)) as [[u | e] w1]; cbn;
        eexists; repeat split.
    - eexists; repeat split. }
  destruct (EnhancedPDFService.needsOCR txt img) eqn:Hgate.
  - unfold bind at 1. unfold try_catch at 1. unfold bind at 1.
    destruct (SmartOCRService.extractTextFromImage img
                (if useOnlineOCR then Auto else Offline) s) as [[ocrResult | e] s0];
      cbn [fst snd].
    + destruct (Hdel (text ocrResult, true) s0) as (s1 & Hrun & _).
      unfold ret at 1. fold (@ret (Sys W) (string * bool)).
      exists (text ocrResult), true, s1. split; [exact Hrun|].
      split; [reflexivity | discriminate].
    + destruct (Hdel ("Page " ++ string_of_Z (pageNum + 1) ++ ": Text extraction failed",
                      false) s0) as (s1 & Hrun & _).
      eexists; exists false, s1. split; [exact Hrun|].
      split; discriminate.
  - unfold bind at 1. unfold ret at 1.
    destruct (Hdel (txt, false) s) as (s1 & Hrun & Ha & Hc).
    exists txt, false, s1. split; [exact Hrun|].
    split; [discriminate|]. intros _. now repeat split.
Qed.

(** An attempt that settles before the timer pushes one entry. *)
Lemma pageAttempt_settled (pdfDoc : PdfDoc) (useOnlineOCR : bool)
      (onProgress : Callback EnhancedPDFService.PDFPageInfo)
      (totalPages pageNum pageStartTime attempt : Z)
      (l : EnhancedPDFService.Locals) (s : Sys W) :
  returns_normally onProgress ->
  0 <= attempt <= EnhancedPDFService.maxRetries ->
  (forall a, 0 <= a < attempt -> EnhancedPDFService.timerWins pdfDoc pageNum a = true) ->
  EnhancedPDFService.timerWins pdfDoc pageNum attempt = false ->
  exists info c s1,
    EnhancedPDFService.pageAttempt pdfDoc useOnlineOCR onProgress totalPages pageNum
      pageStartTime attempt (l, s)
    = (Ok tt, (EnhancedPDFService.mkLocals
                 (EnhancedPDFService.l_pages l ++ [info]) c, s1))
    /\ pageEntry pdfDoc pageNum info.
Proof.
  intros Hcb Hrange Hbefore Hsettles.
  unfold EnhancedPDFService.pageAttempt, EnhancedPDFService.race.
  rewrite Hsettles.
  destruct (pageProcessing_run pdfDoc useOnlineOCR pageNum attempt s)
    as (pageText & ocrUsed & s1 & Hrun & Hocr & Hplain).
  unfold bind at 1. unfold outer at 1. cbn [fst snd]. rewrite Hrun. cbn [fst snd].
  unfold bind at 1. unfold outer at 1, now at 1. cbn [fst snd world arb console].
  destruct (Date_now (world s1)) as [t w2]. cbn [fst snd].
  unfold bind at 1. unfold update at 1. cbn [fst snd].
  set (info := EnhancedPDFService.mkPage (pageNum + 1) pageText (wordCount pageText)
                 (t - pageStartTime) ocrUsed).
  assert (Hnotify : forall (st : EnhancedPDFService.Locals * Sys W),
             @notify (EnhancedPDFService.Locals * Sys W) _ onProgress
               (pageNum + 1) totalPages info st = (Ok tt, st)).
  { intros st. unfold notify. destruct onProgress as [f|]; [|reflexivity].
    now rewrite (Hcb (pageNum + 1) totalPages info). }
  rewrite Hnotify. eexists; eexists; eexists. split; [reflexivity|].
  apply (entry_processed pdfDoc pageNum attempt info); try assumption; try reflexivity.
  intros Hgate. destruct (Hplain Hgate) as (Ht & Ho & _). now split.
Qed.

(** An attempt that loses against the timer throws and changes nothing. *)
Lemma pageAttempt_timeout (pdfDoc : PdfDoc) (useOnlineOCR : bool)
      (onProgress : Callback EnhancedPDFService.PDFPageInfo)
      (totalPages pageNum pageStartTime attempt : Z)
      (l : EnhancedPDFService.Locals) (s : Sys W) :
  EnhancedPDFService.timerWins pdfDoc pageNum attempt = true ->
  EnhancedPDFService.pageAttempt pdfDoc useOnlineOCR onProgress totalPages pageNum
    pageStartTime attempt (l, s)
  = (Throw (mkError "Page processing timeout"), (l, s)).
Proof.
  intros Hwins. unfold EnhancedPDFService.pageAttempt, EnhancedPDFService.race.
  rewrite Hwins. unfold bind, outer, throw. cbn. now destruct l.
Qed.

(** The retry loop pushes exactly one entry: that of the first attempt
    that settles, or the error entry after the last attempt timed out. *)
Lemma retryLoop_run (pdfDoc : PdfDoc) (useOnlineOCR : bool)
      (onProgress : Callback EnhancedPDFService.PDFPageInfo)
      (totalPages pageNum pageStartTime : Z) :
  returns_normally onProgress ->
  forall (fuel : nat) (retryCount : Z) (l : EnhancedPDFService.Locals) (s : Sys W),
    (1 <= fuel)%nat ->
    retryCount = EnhancedPDFService.maxRetries + 1 - Z.of_nat fuel ->
    0 <= retryCount ->
    (forall a, 0 <= a < retryCount ->
               EnhancedPDFService.timerWins pdfDoc pageNum a = true) ->
    exists info c s1,
      EnhancedPDFService.retryLoop fuel pdfDoc useOnlineOCR onProgress totalPages
        pageNum pageStartTime retryCount (l, s)
      = (Ok tt, (EnhancedPDFService.mkLocals
                   (EnhancedPDFService.l_pages l ++ [info]) c, s1))
      /\ pageEntry pdfDoc pageNum info.
Proof.
  intros Hcb. induction fuel as [|fuel IH]; intros retryCount l s Hfuel Hrc Hpos Hbefore.
  - lia.
  - cbn [EnhancedPDFService.retryLoop].
    assert (Hle : (retryCount <=? EnhancedPDFService.maxRetries) = true)
      by (apply Z.leb_le; lia).
    rewrite Hle. unfold bind at 1. unfold try_catch at 1. unfold bind at 1.
    destruct (EnhancedPDFService.timerWins pdfDoc pageNum retryCount) eqn:Hwins.
    + rewrite (pageAttempt_timeout _ _ _ _ _ _ _ l s Hwins).
      destruct (retryCount + 1 >? EnhancedPDFService.maxRetries) eqn:Hlast.
      * unfold bind at 1. unfold outer at 1, now at 1. cbn [fst snd world arb console].
        destruct (Date_now (world s)) as [t w1]. cbn [fst snd].
        unfold bind, update, ret. cbn [fst snd].
        eexists; eexists; eexists. split; [reflexivity|].
        apply entry_error. intros a Ha.
        apply Z.gtb_lt in Hlast.
        destruct (Z.eq_dec a retryCount) as [-> | Hne]; [exact Hwins|].
        apply Hbefore. unfold EnhancedPDFService.maxRetries in *. lia.
      * unfold bind at 1. unfold outer at 1, sleep at 1. cbn [fst snd].
        unfold ret at 1. cbn [fst snd].
        assert (Hgt : retryCount + 1 <= EnhancedPDFService.maxRetries).
        { rewrite Z.gtb_ltb in Hlast. apply Z.ltb_ge in Hlast. exact Hlast. }
        unfold EnhancedPDFService.maxRetries in Hgt, Hrc.
        apply (IH (retryCount + 1));
          [lia | unfold EnhancedPDFService.maxRetries; lia | lia |].
        intros a Ha. destruct (Z.eq_dec a retryCount) as [-> | Hne]; [exact Hwins|].
        apply Hbefore. lia.
    + destruct (pageAttempt_settled pdfDoc useOnlineOCR onProgress totalPages pageNum
                  pageStartTime retryCount l s Hcb) as (info & c & s1 & Hrun & Hentry);
        [unfold EnhancedPDFService.maxRetries in *; lia | exact Hbefore | exact Hwins |].
      rewrite Hrun. unfold ret. cbn [fst snd].
      exists info, c, s1. now split.
Qed.

Lemma pageBody_run (pdfDoc : PdfDoc) (useOnlineOCR : bool)
      (onProgress : Callback EnhancedPDFService.PDFPageInfo)
      (totalPages pageNum : Z) (l : EnhancedPDFService.Locals) (s : Sys W) :
  returns_normally onProgress ->
  exists info c s1,
    EnhancedPDFService.pageBody pdfDoc useOnlineOCR onProgress totalPages pageNum (l, s)
    = (Ok tt, (EnhancedPDFService.mkLocals
                 (EnhancedPDFService.l_pages l ++ [info]) c, s1))
    /\ pageEntry pdfDoc pageNum info.
Proof.
  intros Hcb. unfold EnhancedPDFService.pageBody.
  unfold bind at 1. unfold outer at 1, now at 1. cbn [fst snd world arb console].
  destruct (Date_now (world s)) as [t w1]. cbn [fst snd].
  destruct (retryLoop_run pdfDoc useOnlineOCR onProgress totalPages pageNum t Hcb
              (Z.to_nat (EnhancedPDFService.maxRetries + 1)) 0 l
              (mkSys (arb s) (console s) w1))
    as (info & c & s1 & Hrun & Hentry);
    [cbn; lia | reflexivity | lia | intros a Ha; lia |].
  unfold bind at 1. rewrite Hrun.
  unfold when, outer, sleep, ret. destruct (pageNum <? totalPages - 1); cbn [fst snd];
    eexists; eexists; eexists; (split; [reflexivity | exact Hentry]).
Qed.

Lemma pages_range_run (pdfDoc : PdfDoc) (useOnlineOCR : bool)
      (onProgress : Callback EnhancedPDFService.PDFPageInfo) (totalPages : Z) :
  returns_normally onProgress ->
  forall (count : nat) (start : Z) (l : EnhancedPDFService.Locals) (s : Sys W),
  exists es c s1,
    for_range (EnhancedPDFService.pageBody pdfDoc useOnlineOCR onProgress totalPages)
              start count (l, s)
    = (Ok tt, (EnhancedPDFService.mkLocals (EnhancedPDFService.l_pages l ++ es) c, s1))
    /\ List.length es = count
    /\ pageEntries pdfDoc start es.
Proof.
  intros Hcb. induction count as [|count IH]; intros start l s; cbn [for_range].
  - exists [], (EnhancedPDFService.l_combinedText l), s. rewrite app_nil_r.
    destruct l. repeat split. constructor.
  - destruct (pageBody_run pdfDoc useOnlineOCR onProgress totalPages start l s Hcb)
      as (info & c & s1 & Hrun & Hentry).
    destruct (IH (start + 1)
                (EnhancedPDFService.mkLocals (EnhancedPDFService.l_pages l ++ [info]) c) s1)
      as (es & c2 & s2 & Hrest & Hlen & Hentries).
    unfold bind at 1. rewrite Hrun, Hrest. cbn [EnhancedPDFService.l_pages].
    exists (info :: es), c2, s2. rewrite <- app_assoc. cbn.
    repeat split; [now rewrite Hlen | now constructor].
Qed.

(** The batches cover every page from [batchStart] on once. *)
Lemma batchLoop_run (pdfDoc : PdfDoc) (useOnlineOCR : bool)
      (onProgress : Callback EnhancedPDFService.PDFPageInfo) (totalPages : Z) :
  returns_normally onProgress ->
  forall (fuel : nat) (batchStart : Z) (l : EnhancedPDFService.Locals) (s : Sys W),
    (Z.to_nat (totalPages - batchStart) <= fuel)%nat ->
    exists es c s1,
      EnhancedPDFService.batchLoop fuel pdfDoc useOnlineOCR onProgress totalPages
        batchStart (l, s)
      = (Ok tt, (EnhancedPDFService.mkLocals (EnhancedPDFService.l_pages l ++ es) c, s1))
      /\ List.length es = Z.to_nat (totalPages - batchStart)
      /\ pageEntries pdfDoc batchStart es.
Proof.
  intros Hcb. induction fuel as [|fuel IH]; intros batchStart l s Hfuel.
  - cbn [EnhancedPDFService.batchLoop]. unfold ret.
    exists [], (EnhancedPDFService.l_combinedText l), s. rewrite app_nil_r.
    destruct l. split; [reflexivity|]. split; [cbn [List.length]; lia | constructor].
  - cbn [EnhancedPDFService.batchLoop].
    destruct (batchStart <? totalPages) eqn:Hlt.
    + apply Z.ltb_lt in Hlt.
      set (batchEnd := Z.min (batchStart + EnhancedPDFService.batchSize) totalPages).
      destruct (pages_range_run pdfDoc useOnlineOCR onProgress totalPages Hcb
                  (Z.to_nat (batchEnd - batchStart)) batchStart l s)
        as (es1 & c1 & s1 & Hrange & Hlen1 & Hent1).
      unfold bind at 1. rewrite Hrange.
      assert (Hclean : exists s2,
                 (when (gc_exposed && (batchEnd <? totalPages))
                       (outer (lift (fun w => (Ok tt, cleanupTempFiles w))) ;;
                        outer (sleep 1000)))
                   (EnhancedPDFService.mkLocals (EnhancedPDFService.l_pages l ++ es1) c1, s1)
                 = (Ok tt, (EnhancedPDFService.mkLocals
                              (EnhancedPDFService.l_pages l ++ es1) c1, s2))).
      { unfold when, bind, outer, lift, sleep, ret.
        destruct (gc_exposed && (batchEnd <? totalPages)); cbn; eexists; reflexivity. }
      destruct Hclean as (s2 & Hclean).
      unfold bind at 1. rewrite Hclean.
      destruct (IH (batchStart + EnhancedPDFService.batchSize)
                  (EnhancedPDFService.mkLocals (EnhancedPDFService.l_pages l ++ es1) c1) s2)
        as (es2 & c2 & s3 & Hrest & Hlen2 & Hent2);
        [unfold EnhancedPDFService.batchSize; lia|].
      rewrite Hrest. cbn [EnhancedPDFService.l_pages].
      exists (es1 ++ es2)%list, c2, s3. rewrite <- app_assoc.
      split; [reflexivity|]. split.
      * rewrite length_app, Hlen1, Hlen2.
        unfold batchEnd, EnhancedPDFService.batchSize. lia.
      * apply pageEntries_app; [exact Hent1|].
        destruct (Z.le_gt_cases totalPages (batchStart + EnhancedPDFService.batchSize))
          as [Hlast | Hmore].
        -- assert (es2 = []) as ->.
           { destruct es2; [reflexivity|]. cbn in Hlen2. lia. }
           constructor.
        -- rewrite Hlen1. unfold batchEnd.
           replace (batchStart
                    + Z.of_nat (Z.to_nat (Z.min (batchStart + EnhancedPDFService.batchSize)
                                                totalPages - batchStart)))
             with (batchStart + EnhancedPDFService.batchSize)
             by (unfold EnhancedPDFService.batchSize in *; lia).
           exact Hent2.
    + apply Z.ltb_ge in Hlt. exists [], (EnhancedPDFService.l_combinedText l), s.
      rewrite app_nil_r. destruct l. unfold ret.
      split; [reflexivity|]. split; [cbn [List.length]; lia | constructor].
Qed.

(** A PDF that opens is always processed to the end: one entry per page,
    in page order. *)
Lemma extractTextFromPDF_run (pdfUri : string) (useOnlineOCR : bool)
      (onProgress : Callback EnhancedPDFService.PDFPageInfo)
      (s : Sys W) (pdfDoc : PdfDoc) (w1 : W) :
  returns_normally onProgress ->
  openPDF pdfUri (after_reads 1 (world s)) = (Ok pdfDoc, w1) ->
  exists r s',
    EnhancedPDFService.extractTextFromPDF pdfUri useOnlineOCR onProgress s = (Ok r, s')
    /\ List.length (EnhancedPDFService.pages r) = pageCount pdfDoc
    /\ EnhancedPDFService.totalPages r = Z.of_nat (pageCount pdfDoc)
    /\ pageEntries pdfDoc 0 (EnhancedPDFService.pages r).
Proof.
  intros Hcb Hopen. unfold EnhancedPDFService.extractTextFromPDF.
  unfold bind at 1. unfold now at 1. rewrite (reading_0 (world s)). cbn [fst snd].
  unfold try_catch. unfold bind at 1. unfold lift at 1. cbn [world arb console].
  rewrite Hopen. cbn [fst snd].
  destruct (batchLoop_run pdfDoc useOnlineOCR onProgress (Z.of_nat (pageCount pdfDoc)) Hcb
              (pageCount pdfDoc) 0 (EnhancedPDFService.mkLocals [] "")
              (mkSys (arb s) (console s) w1))
    as (es & c & s1 & Hloop & Hlen & Hent); [lia|].
  unfold bind at 1. unfold with_locals at 1. rewrite Hloop. cbn [fst snd].
  unfold bind at 1. unfold now at 1. destruct (Date_now (world s1)) as [t w2].
  cbn [fst snd]. unfold ret.
  eexists; eexists. split; [reflexivity|]. cbn.
  split; [rewrite Hlen; lia|]. split; [reflexivity | exact Hent].
Qed.

End PDFFacts.

Section PDFAny.
Context {W : Type} `{Runtime W} `{OCRProviders W} `{Files W}.




End PDFAny.

Section PDFAny2.
Context {W : Type} `{Runtime W} `{OCRProviders W} `{Files W}.






End PDFAny2.

(** ** EnhancedPPTXService: slides and the OCR gate *)

Lemma insufficient_short (slideText : string) :
  EnhancedPPTXService.insufficient slideText = true ->
  strlen (trim slideText) < EnhancedPPTXService.MIN_TEXT_LENGTH.
Proof.
  unfold EnhancedPPTXService.insufficient. intros Hg.
  apply orb_true_iff in Hg. destruct Hg as [Hf | Hlt].
  - destruct slideText; [reflexivity | discriminate].
  - now apply Z.ltb_lt.
Qed.

Lemma insufficient_enough (slideText : string) :
  EnhancedPPTXService.MIN_TEXT_LENGTH <= strlen (trim slideText) ->
  EnhancedPPTXService.insufficient slideText = false.
Proof.
  intros Hlen. unfold EnhancedPPTXService.insufficient.
  destruct slideText as [|c rest];
    [cbn in Hlen; unfold EnhancedPPTXService.MIN_TEXT_LENGTH in Hlen; lia|].
  cbn [falsy orb]. apply Z.ltb_ge in Hlen. rewrite Hlen. reflexivity.
Qed.

Section PPTXFacts.
Context {W : Type} `{Runtime W} `{OCRProviders W} `{Files W}.


Lemma slideEntries_nth (zip : PptxDoc) (files : list string)
      (es : list EnhancedPPTXService.PPTXSlideInfo) :
  forall i n info,
    slideEntries zip i files es ->
    nth_error es n = Some info ->
    exists slideFile,
      nth_error files n = Some slideFile
      /\ slideEntry zip (i + Z.of_nat n) slideFile info.
Proof.
  revert files. induction es as [|x es IH]; intros files i n info Hes Hn.
  - destruct n; discriminate.
  - inversion Hes; subst. destruct n as [|n]; cbn in Hn.
    + inversion Hn; subst. exists slideFile. rewrite Z.add_0_r. now split.
    + replace (i + Z.of_nat (S n)) with (i + 1 + Z.of_nat n) by lia.
      now apply (IH files0).
Qed.

(** Direct extraction and OCR of one slide: OCR runs only through the
    gate, and nothing but the OCR path can throw; a slide that does not
    pass the gate leaves the whole state as it was. *)
Lemma slideTextAndOCR_run (pptxUri : string) (useOnlineOCR : bool) (slideNumber : Z)
      (slideXml : string) (s : Sys W) :
  match EnhancedPPTXService.slideTextAndOCR pptxUri useOnlineOCR slideNumber slideXml s with
  | (Ok (slideText, ocrUsed), s1) =>
      (ocrUsed = true ->
       EnhancedPPTXService.insufficient
         (EnhancedPPTXService.extractTextFromSlideXML slideXml) = true)
      /\ (EnhancedPPTXService.insufficient
            (EnhancedPPTXService.extractTextFromSlideXML slideXml) = false ->
          slideText = EnhancedPPTXService.extractTextFromSlideXML slideXml
          /\ ocrUsed = false /\ s1 = s)
  | (Throw _, _) =>
      EnhancedPPTXService.insufficient
        (EnhancedPPTXService.extractTextFromSlideXML slideXml) = true
  end.
Proof.
  unfold EnhancedPPTXService.slideTextAndOCR.
  destruct (EnhancedPPTXService.insufficient
              (EnhancedPPTXService.extractTextFromSlideXML slideXml)) eqn:Hgate.
  - unfold EnhancedPPTXService.createSlideImageForOCR, bind, try_catch, lift, ret.
    destruct (prepareSlideImage pptxUri slideNumber slideXml (world s))
      as [[[uri|] | e] w1]; cbn [fst snd].
    + destruct (falsy uri); [split; [reflexivity | discriminate]|].
      destruct (SmartOCRService.extractTextFromImage uri
                  (if useOnlineOCR then Auto else Offline)
                  (mkSys (arb s) (console s) w1)) as [[ocrResult | e] s1];
        [|reflexivity].
      destruct (FileSystem_deleteAsync uri (world s1)) as [[u | e] w2]; cbn [fst snd];
        [|reflexivity].
      split; [reflexivity | discriminate].
    + split; [reflexivity | discriminate].
    + split; [reflexivity | discriminate].
  - unfold ret. split; [discriminate|]. intros _. now repeat split.
Qed.

(** One turn of the slide loop pushes exactly one entry. *)
Lemma slideBody_run (zip : PptxDoc) (pptxUri : string) (useOnlineOCR : bool)
      (onProgress : Callback EnhancedPPTXService.PPTXSlideInfo)
      (totalSlides i : Z) (slideFile : string)
      (l : EnhancedPPTXService.Locals) (s : Sys W) :
  returns_normally onProgress ->
  exists info c s1,
    EnhancedPPTXService.slideBody zip pptxUri useOnlineOCR onProgress totalSlides i
      slideFile (l, s)
    = (Ok tt, (EnhancedPPTXService.mkLocals
                 (EnhancedPPTXService.l_slides l ++ [info]) c, s1))
    /\ slideEntry zip i slideFile info.
Proof.
  intros Hcb. unfold EnhancedPPTXService.slideBody.
  unfold bind at 1. unfold outer at 1, now at 1. cbn [fst snd world arb console].
  destruct (Date_now (world s)) as [t0 w1]. cbn [fst snd].
  unfold try_catch, EnhancedPPTXService.slideAttempt.
  unfold bind at 1.
  destruct (readEntry zip slideFile 0) as [slideXml | e] eqn:Hread.
  - unfold bind at 1. unfold outer at 1. cbn [fst snd].
    pose proof (slideTextAndOCR_run pptxUri useOnlineOCR (i + 1) slideXml
                  (mkSys (arb s) (console s) w1)) as Hslide.
    destruct (EnhancedPPTXService.slideTextAndOCR pptxUri useOnlineOCR (i + 1) slideXml
                (mkSys (arb s) (console s) w1)) as [[[slideText ocrUsed] | e] s1];
      cbn [fst snd].
    + destruct Hslide as [Hocr Hplain].
      unfold bind at 1. unfold outer at 1, now at 1. cbn [fst snd world arb console].
      destruct (Date_now (world s1)) as [t w2]. cbn [fst snd].
      unfold bind at 1. unfold update at 1. cbn [fst snd].
      set (info := EnhancedPPTXService.mkSlide (i + 1) slideText (wordCount slideText)
                     (t - t0) ocrUsed).
      assert (Hnotify : forall (st : EnhancedPPTXService.Locals * Sys W),
                 @notify (EnhancedPPTXService.Locals * Sys W) _ onProgress
                   (i + 1) totalSlides info st = (Ok tt, st)).
      { intros st. unfold notify. destruct onProgress as [f|]; [|reflexivity].
        now rewrite (Hcb (i + 1) totalSlides info). }
      unfold bind at 1. rewrite Hnotify.
      assert (Hentry : slideEntry zip i slideFile info).
      { apply (slide_processed zip i slideFile slideXml info);
          try assumption; try reflexivity.
        intros Hgate. destruct (Hplain Hgate) as (Ht & Ho & _). now split. }
      unfold when, outer, sleep, ret.
      destruct ((i <? totalSlides - 1) && ocrUsed); cbn [fst snd];
        eexists; eexists; eexists; (split; [reflexivity | exact Hentry]).
    + unfold bind at 1. unfold outer at 1, now at 1. cbn [fst snd world arb console].
      destruct (Date_now (world s1)) as [t w2]. cbn [fst snd].
      unfold update. cbn [fst snd].
      eexists; eexists; eexists. split; [reflexivity|].
      apply slide_failed.
      * intros xml Hx. rewrite Hread in Hx. inversion Hx; subst. exact Hslide.
      * intros e0 Hx. rewrite Hread in Hx. discriminate.
  - unfold bind at 1. unfold outer at 1, now at 1. cbn [fst snd world arb console].
    destruct (Date_now w1) as [t w2]. cbn [fst snd].
    unfold update. cbn [fst snd].
    eexists; eexists; eexists. split; [reflexivity|].
    apply slide_failed.
    + intros xml Hx. rewrite Hread in Hx. discriminate.
    + intros e0 Hx. rewrite Hread in Hx. now inversion Hx.
Qed.

Lemma slides_loop_run (zip : PptxDoc) (pptxUri : string) (useOnlineOCR : bool)
      (onProgress : Callback EnhancedPPTXService.PPTXSlideInfo) (totalSlides : Z) :
  returns_normally onProgress ->
  forall (files : list string) (i : Z) (l : EnhancedPPTXService.Locals) (s : Sys W),
  exists es c s1,
    for_each (EnhancedPPTXService.slideBody zip pptxUri useOnlineOCR onProgress totalSlides)
             i files (l, s)
    = (Ok tt, (EnhancedPPTXService.mkLocals (EnhancedPPTXService.l_slides l ++ es) c, s1))
    /\ slideEntries zip i files es.
Proof.
  intros Hcb. induction files as [|f files IH]; intros i l s; cbn [for_each].
  - exists [], (EnhancedPPTXService.l_combinedText l), s. rewrite app_nil_r.
    destruct l. unfold ret. split; [reflexivity | constructor].
  - destruct (slideBody_run zip pptxUri useOnlineOCR onProgress totalSlides i f l s Hcb)
      as (info & c & s1 & Hrun & Hentry).
    destruct (IH (i + 1)
                (EnhancedPPTXService.mkLocals (EnhancedPPTXService.l_slides l ++ [info]) c)
                s1) as (es & c2 & s2 & Hrest & Hentries).
    unfold bind at 1. rewrite Hrun, Hrest. cbn [EnhancedPPTXService.l_slides].
    exists (info :: es), c2, s2. rewrite <- app_assoc. cbn.
    split; [reflexivity | now constructor].
Qed.

(** A PPTX that opens is always processed to the end: one entry per slide
    file, in the order of the files. *)
Lemma extractTextFromPPTX_run (pptxUri : string) (useOnlineOCR : bool)
      (onProgress : Callback EnhancedPPTXService.PPTXSlideInfo)
      (s : Sys W) (zip : PptxDoc) (w1 : W) :
  returns_normally onProgress ->
  openPPTX pptxUri (after_reads 1 (world s)) = (Ok zip, w1) ->
  exists r s',
    EnhancedPPTXService.extractTextFromPPTX pptxUri useOnlineOCR onProgress s = (Ok r, s')
    /\ EnhancedPPTXService.totalSlides r
       = Z.of_nat (List.length (filter EnhancedPPTXService.isSlideFile (zipFiles zip)))
    /\ slideEntries zip 0 (filter EnhancedPPTXService.isSlideFile (zipFiles zip))
         (EnhancedPPTXService.slides r).
Proof.
  intros Hcb Hopen. unfold EnhancedPPTXService.extractTextFromPPTX.
  unfold bind at 1. unfold now at 1. rewrite (reading_0 (world s)). cbn [fst snd].
  unfold try_catch. unfold bind at 1. unfold lift at 1. cbn [world arb console].
  rewrite Hopen. cbn [fst snd].
  destruct (slides_loop_run zip pptxUri useOnlineOCR onProgress
              (Z.of_nat (List.length (filter EnhancedPPTXService.isSlideFile (zipFiles zip))))
              Hcb (filter EnhancedPPTXService.isSlideFile (zipFiles zip)) 0
              (EnhancedPPTXService.mkLocals [] "") (mkSys (arb s) (console s) w1))
    as (es & c & s1 & Hloop & Hent).
  unfold bind at 1. unfold with_locals at 1. rewrite Hloop. cbn [fst snd].
  unfold bind at 1. unfold now at 1. destruct (Date_now (world s1)) as [t w2].
  cbn [fst snd]. unfold ret.
  eexists; eexists. split; [reflexivity|]. cbn.
  split; [reflexivity | exact Hent].
Qed.

End PPTXFacts.



Section PPTXAny.
Context {W : Type} `{Runtime W} `{OCRProviders W} `{Files W}.








End PPTXAny.

(** ** Per-unit results of PDF and PPTX documents *)

(** Abbreviations for the runs of the two document services on the
    device, with the API down. *)
Abbreviation Fdocs := (Scenario.files (Ok Scenario.scannedPdf) (Ok Scenario.flakyDeck)).
Abbreviation runPdf :=
  (@EnhancedPDFService.extractTextFromPDF Device.World Rdown Pdown Fdocs
     Scenario.paper true None OnDevice.start).
Abbreviation runPptx :=
  (@EnhancedPPTXService.extractTextFromPPTX Device.World Rdown Pdown Fdocs
     Scenario.deck true None OnDevice.start).

(** C6.  The OCR gate.  In the result of a PDF or PPTX document (progress
    callback absent or returning normally) every entry with
    [ocrUsed = true] belongs to a unit whose structural text, trimmed, was
    shorter than 20 characters in the attempt that invoked OCR.  A page or
    slide whose structural text has 20 characters or more after trimming
    returns that text with [ocrUsed = false] and leaves the arbiter and
    the console untouched: OCR is not invoked. *)
Theorem ocr_gate
    (W : Type) (R : Runtime W) (P : OCRProviders W) (F : Files W)
    (pdfUri pptxUri : string) (useOnlineOCR : bool)
    (onPage : Callback EnhancedPDFService.PDFPageInfo)
    (onSlide : Callback EnhancedPPTXService.PPTXSlideInfo)
    (s : Sys W) (pdfDoc : PdfDoc) (zip : PptxDoc) (w1 w2 : W) :
  returns_normally onPage ->
  returns_normally onSlide ->
  openPDF pdfUri (after_reads 1 (world s)) = (Ok pdfDoc, w1) ->
  openPPTX pptxUri (after_reads 1 (world s)) = (Ok zip, w2) ->
  (exists r s',
      EnhancedPDFService.extractTextFromPDF pdfUri useOnlineOCR onPage s = (Ok r, s')
      /\ forall n info,
           nth_error (EnhancedPDFService.pages r) n = Some info ->
           EnhancedPDFService.page_ocrUsed info = true ->
           exists attempt,
             0 <= attempt <= EnhancedPDFService.maxRetries
             /\ strlen (trim (EnhancedPDFService.basicPageText pdfDoc (Z.of_nat n) attempt))
                < 20)
  /\ (exists r s',
         EnhancedPPTXService.extractTextFromPPTX pptxUri useOnlineOCR onSlide s = (Ok r, s')
         /\ forall n info,
              nth_error (EnhancedPPTXService.slides r) n = Some info ->
              EnhancedPPTXService.slide_ocrUsed info = true ->
              exists slideFile slideXml,
                nth_error (filter EnhancedPPTXService.isSlideFile (zipFiles zip)) n
                = Some slideFile
                /\ readEntry zip slideFile 0 = Ok slideXml
                /\ strlen (trim (EnhancedPPTXService.extractTextFromSlideXML slideXml))
                   < 20)
  /\ (forall pageNum attempt s0,
         20 <= strlen (trim (EnhancedPDFService.basicPageText pdfDoc pageNum attempt)) ->
         exists s1,
           EnhancedPDFService.pageProcessing pdfDoc useOnlineOCR pageNum attempt s0
           = (Ok (EnhancedPDFService.basicPageText pdfDoc pageNum attempt, false), s1)
           /\ arb s1 = arb s0 /\ console s1 = console s0)
  /\ (forall slideNumber slideXml s0,
         20 <= strlen (trim (EnhancedPPTXService.extractTextFromSlideXML slideXml)) ->
         EnhancedPPTXService.slideTextAndOCR pptxUri useOnlineOCR slideNumber slideXml s0
         = (Ok (EnhancedPPTXService.extractTextFromSlideXML slideXml, false), s0)).
Proof.
  intros HcbP HcbS HopenP HopenS. split; [|split; [|split]].
  - destruct (extractTextFromPDF_run pdfUri useOnlineOCR onPage s pdfDoc w1 HcbP HopenP)
      as (r & s' & Hrun & _ & _ & Hent).
    exists r, s'. split; [exact Hrun|]. intros n info Hn Hocr.
    pose proof (pageEntries_nth pdfDoc _ 0 n info Hent Hn) as Hentry.
    cbn [Z.add] in Hentry. inversion Hentry as [attempt info' Hr Hb Hs Hnum Hwc Hgate Hplain |
                                                 elapsed Hall]; subst.
    + exists attempt. split; [exact Hr|].
      now apply (needsOCR_short _ _ (Hgate Hocr)).
    + discriminate.
  - destruct (extractTextFromPPTX_run pptxUri useOnlineOCR onSlide s zip w2 HcbS HopenS)
      as (r & s' & Hrun & _ & Hent).
    exists r, s'. split; [exact Hrun|]. intros n info Hn Hocr.
    destruct (slideEntries_nth zip _ _ 0 n info Hent Hn) as (slideFile & Hfile & Hentry).
    inversion Hentry as [slideXml info' Hread Hnum Hwc Hgate Hplain |
                         e elapsed Hafter Hsame]; subst.
    + exists slideFile, slideXml. split; [exact Hfile|]. split; [exact Hread|].
      exact (insufficient_short _ (Hgate Hocr)).
    + discriminate.
  - intros pageNum attempt s0 Hlen.
    destruct (pageProcessing_run pdfDoc useOnlineOCR pageNum attempt s0)
      as (pageText & ocrUsed & s1 & Hrun & _ & Hplain).
    destruct (Hplain (needsOCR_enough _ _ Hlen)) as (-> & -> & Ha & Hc).
    exists s1. now repeat split.
  - intros slideNumber slideXml s0 Hlen.
    pose proof (slideTextAndOCR_run pptxUri useOnlineOCR slideNumber slideXml s0) as Hslide.
    pose proof (insufficient_enough _ Hlen) as Hgate.
    destruct (EnhancedPPTXService.slideTextAndOCR pptxUri useOnlineOCR slideNumber
                slideXml s0) as [[[slideText ocrUsed] | e] s1].
    + destruct Hslide as [_ Hplain]. destruct (Hplain Hgate) as (-> & -> & ->).
      reflexivity.
    + congruence.
Qed.

Lemma ocr_gate_witness :
  (exists r s',
      runPdf = (Ok r, s')
      /\ forall n info,
           nth_error (EnhancedPDFService.pages r) n = Some info ->
           EnhancedPDFService.page_ocrUsed info = true ->
           exists attempt,
             0 <= attempt <= EnhancedPDFService.maxRetries
             /\ strlen (trim (EnhancedPDFService.basicPageText Scenario.scannedPdf
                                (Z.of_nat n) attempt)) < 20)
  /\ (exists s1,
         @EnhancedPDFService.pageProcessing Device.World Rdown Pdown Fdocs
           Scenario.scannedPdf true 0 0 OnDevice.start
         = (Ok ("A page with enough text on it.", false), s1)
         /\ arb s1 = arb OnDevice.start /\ console s1 = console OnDevice.start).
Proof.
  destruct (ocr_gate Device.World Rdown Pdown Fdocs Scenario.paper Scenario.deck true
              None None OnDevice.start Scenario.scannedPdf Scenario.flakyDeck
              _ _ I I eq_refl eq_refl) as (Hpdf & _ & Hpage & _).
  split; [exact Hpdf|].
  apply (Hpage 0 0 OnDevice.start). vm_compute. discriminate.
Defined.

(** Scenario C: of the three pages of the scanned document only the second
    used OCR; the third, whose processing never settles, is an error
    entry. *)
Lemma scanned_pdf_pages :
  match fst runPdf with
  | Ok r =>
      map EnhancedPDFService.page_ocrUsed (EnhancedPDFService.pages r)
      = [false; true; false]
      /\ map EnhancedPDFService.page_text (EnhancedPDFService.pages r)
         = ["A page with enough text on it."; "device text";
            "Error processing page 3: Page processing timeout"]
      /\ EnhancedPDFService.totalPages r = 3
  | Throw _ => False
  end.
Proof. vm_compute. repeat split. Qed.





(** A slide whose OCR path throws: the slide has too little text of its
    own, the OCR call returns, and deleting the slide image fails.  The
    slide is entered as an error slide. *)
Lemma slide_image_not_deleted_example :
  match fst (@EnhancedPPTXService.extractTextFromPPTX Device.World Rdown Pdown
               (Scenario.stickyFiles (Ok Scenario.leaflet) (Ok Scenario.sparseDeck))
               Scenario.deck false None OnDevice.start) with
  | Ok r =>
      map EnhancedPPTXService.slide_text (EnhancedPPTXService.slides r)
      = ["Error processing slide 1: Error: file is locked"]
      /\ map EnhancedPPTXService.slide_wordCount (EnhancedPPTXService.slides r) = [0]
      /\ EnhancedPPTXService.totalSlides r = 1
  | Throw _ => False
  end.
Proof. vm_compute. repeat split. Qed.




(** ** DocumentProcessingService: dispatch and batches *)

Section BatchDocsFacts.
Context {W : Type} `{Runtime W} `{OCRProviders W} `{Files W} `{Collaborators W}.

(** A declared type that no branch takes makes [processDocument] throw
    [Unsupported document type], after one reading of the clock and one
    line on the console. *)
Lemma processDocument_unsupported (uri name type : string) (useOnlineOCR : bool) (s : Sys W) :
  dispatched type = false ->
  DocumentProcessingService.processDocument uri name type useOnlineOCR s
  = (Throw (mkError ("Unsupported document type: " ++ type)),
     mkSys (arb s)
           (console s
            ++ [LogDocumentError name (mkError ("Unsupported document type: " ++ type))])
           (after_reads 1 (world s))).
Proof.
  unfold dispatched. intros Hno.
  repeat (apply orb_false_iff in Hno; destruct Hno as [Hno ?]).
  unfold DocumentProcessingService.processDocument,
    DocumentProcessingService.dispatch.
  unfold bind at 1. unfold now at 1. rewrite (reading_0 (world s)). cbn [fst snd].
  unfold try_catch. unfold bind at 1.
  repeat match goal with
         | E : includes type _ = false |- _ => rewrite E; clear E
         end.
  reflexivity.
Qed.

(** One turn of the batch loop: a processed document is pushed, a thrown
    error is written to the console and nothing is pushed. *)
Lemma batchBody_run (useOnlineOCR : bool) (doc : DocumentProcessingService.DocumentRef)
      (acc : list DocumentProcessingService.ProcessedDocument) (s : Sys W) :
  DocumentProcessingService.batchBody useOnlineOCR doc (acc, s)
  = match DocumentProcessingService.processDocument
            (DocumentProcessingService.ref_uri doc)
            (DocumentProcessingService.ref_name doc)
            (DocumentProcessingService.ref_type doc) useOnlineOCR s with
    | (Ok p, s1) => (Ok tt, ((acc ++ [p])%list, s1))
    | (Throw e, s1) =>
        (Ok tt, (acc, mkSys (arb s1)
                            (console s1
                             ++ [LogDocumentFailed (DocumentProcessingService.ref_name doc) e])
                            (world s1)))
    end.
Proof.
  unfold DocumentProcessingService.batchBody, try_catch, bind, outer, update, log.
  cbn [fst snd].
  destruct (DocumentProcessingService.processDocument
              (DocumentProcessingService.ref_uri doc)
              (DocumentProcessingService.ref_name doc)
              (DocumentProcessingService.ref_type doc) useOnlineOCR s)
    as [[p | e] s1]; reflexivity.
Qed.

Lemma batch_loop_run (useOnlineOCR : bool)
      (docs : list DocumentProcessingService.DocumentRef) :
  forall (i : Z) (acc : list DocumentProcessingService.ProcessedDocument) (s : Sys W),
  exists ps fs s',
    for_each (fun _ doc => DocumentProcessingService.batchBody useOnlineOCR doc)
             i docs (acc, s)
    = (Ok tt, ((acc ++ ps)%list, s'))
    /\ batchOutcome useOnlineOCR docs ps fs.
Proof.
  induction docs as [|doc docs IH]; intros i acc s; cbn [for_each].
  - exists [], [], s. rewrite app_nil_r. split; [reflexivity | constructor].
  - unfold bind at 1. rewrite batchBody_run.
    destruct (DocumentProcessingService.processDocument
                (DocumentProcessingService.ref_uri doc)
                (DocumentProcessingService.ref_name doc)
                (DocumentProcessingService.ref_type doc) useOnlineOCR s)
      as [[p | e] s1] eqn:E.
    + destruct (IH (i + 1) (acc ++ [p])%list s1) as (ps & fs & s' & Hrest & Hout).
      rewrite Hrest. exists (p :: ps), fs, s'. rewrite <- app_assoc.
      split; [reflexivity|]. eapply batch_processed; eauto.
    + destruct (IH (i + 1) acc
                  (mkSys (arb s1)
                         (console s1
                          ++ [LogDocumentFailed (DocumentProcessingService.ref_name doc) e])
                         (world s1))) as (ps & fs & s' & Hrest & Hout).
      rewrite Hrest.
      exists ps, ((DocumentProcessingService.ref_name doc, e) :: fs), s'.
      split; [reflexivity|]. eapply batch_failed; eauto.
Qed.

Lemma batchOutcome_lengths (useOnlineOCR : bool)
      (docs : list DocumentProcessingService.DocumentRef)
      (ps : list DocumentProcessingService.ProcessedDocument)
      (fs : list (string * JsError)) :
  batchOutcome useOnlineOCR docs ps fs ->
  (List.length ps + List.length fs = List.length docs)%nat.
Proof. induction 1; cbn; lia. Qed.

End BatchDocsFacts.

Abbreviation Fplain := (Scenario.files (Ok Scenario.scannedPdf) (Ok Scenario.flakyDeck)).
Abbreviation runBatch :=
  (@DocumentProcessingService.processBatch Device.World Rdown Pdown Fplain
     Scenario.collaborators).

(** C8, as stated, fails in its last part.  Two batches in which different
    documents fail return the same value: the result holds the processed
    document and nothing about the one that failed. *)
Lemma failed_document_not_in_result_counterexample :
  fst (runBatch [Scenario.notes; Scenario.archive] false OnDevice.start)
  = fst (runBatch [Scenario.notes; Scenario.movie] false OnDevice.start)
  /\ match fst (runBatch [Scenario.notes; Scenario.archive] false OnDevice.start) with
     | Ok r =>
         map DocumentProcessingService.name (DocumentProcessingService.documents r)
         = ["notes.txt"]
         /\ includes (DocumentProcessingService.combinedText r) "old.zip" = false
         /\ includes (DocumentProcessingService.summary r) "old.zip" = false
     | Throw _ => False
     end.
Proof. split; vm_compute; repeat split. Qed.

(** C8, amended.  [processBatch] never throws.  It returns the results of
    the documents for which [processDocument] returned, in input order, so
    that their number and the number of failed documents add up to the
    size of the batch; a document whose declared type no branch takes is
    among the failed ones.  The combined text, the word count and the
    summary are computed from the processed documents alone; a failure is
    written to the console and nowhere else. *)
Theorem batch_resilience
    (W : Type) (R : Runtime W) (P : OCRProviders W) (F : Files W) (C : Collaborators W)
    (documents : list DocumentProcessingService.DocumentRef) (useOnlineOCR : bool)
    (s : Sys W) :
  (exists r s' failures,
      DocumentProcessingService.processBatch documents useOnlineOCR s = (Ok r, s')
      /\ batchOutcome useOnlineOCR documents
           (DocumentProcessingService.documents r) failures
      /\ (List.length (DocumentProcessingService.documents r) + List.length failures
          = List.length documents)%nat
      /\ DocumentProcessingService.combinedText r
         = DocumentProcessingService.combineDocumentContent
             (DocumentProcessingService.documents r)
      /\ DocumentProcessingService.totalWordCount r
         = sumZ (map DocumentProcessingService.doc_wordCount
                     (DocumentProcessingService.documents r))
      /\ DocumentProcessingService.summary r
         = DocumentProcessingService.generateBatchSummary
             (DocumentProcessingService.documents r))
  /\ (forall doc acc s0 e s1,
         DocumentProcessingService.processDocument
           (DocumentProcessingService.ref_uri doc) (DocumentProcessingService.ref_name doc)
           (DocumentProcessingService.ref_type doc) useOnlineOCR s0 = (Throw e, s1) ->
         DocumentProcessingService.batchBody useOnlineOCR doc (acc, s0)
         = (Ok tt,
            (acc, mkSys (arb s1)
                        (console s1
                         ++ [LogDocumentFailed (DocumentProcessingService.ref_name doc) e])
                        (world s1))))
  /\ (forall uri name type s0,
         dispatched type = false ->
         fst (DocumentProcessingService.processDocument uri name type useOnlineOCR s0)
         = Throw (mkError ("Unsupported document type: " ++ type))).
Proof.
  split; [|split].
  - unfold DocumentProcessingService.processBatch.
    unfold bind at 1. unfold now at 1. destruct (Date_now (world s)) as [t0 w1].
    cbn [fst snd].
    destruct (batch_loop_run useOnlineOCR documents 0 [] (mkSys (arb s) (console s) w1))
      as (ps & fs & s1 & Hloop & Hout).
    unfold bind at 1. unfold with_locals at 1. rewrite Hloop. cbn [fst snd app].
    unfold bind at 1. unfold now at 1. destruct (Date_now (world s1)) as [t w2].
    cbn [fst snd]. unfold ret.
    eexists; eexists; exists fs. split; [reflexivity|]. cbn.
    split; [exact Hout|]. split; [exact (batchOutcome_lengths _ _ _ _ Hout)|].
    repeat split.
  - intros doc acc s0 e s1 Hthrow. rewrite batchBody_run, Hthrow. reflexivity.
  - intros uri name type s0 Hno.
    now rewrite (processDocument_unsupported uri name type useOnlineOCR s0 Hno).
Qed.

Lemma batch_resilience_witness :
  (exists r s',
      runBatch [Scenario.notes; Scenario.archive] false OnDevice.start = (Ok r, s')
      /\ (List.length (DocumentProcessingService.documents r) <= 2)%nat)
  /\ fst (@DocumentProcessingService.processDocument Device.World Rdown Pdown Fplain
            Scenario.collaborators "file:///docs/old.zip" "old.zip" "application/zip"
            false OnDevice.start)
     = Throw (mkError "Unsupported document type: application/zip").
Proof.
  destruct (batch_resilience Device.World Rdown Pdown Fplain Scenario.collaborators
              [Scenario.notes; Scenario.archive] false OnDevice.start)
    as ((r & s' & failures & Hrun & _ & Hlen & _) & _ & Hunsupported).
  split.
  - exists r, s'. split; [exact Hrun|]. cbn [List.length] in Hlen. lia.
  - apply Hunsupported. vm_compute. reflexivity.
Defined.

(* ================================================================== *)
(** * Further properties *)
(* ================================================================== *)

(** ** MistralOCRService *)

Lemma quiet_message_429 : includes "Mistral API key not configured. Please add your API key to the .env file." "429" = false.
Proof. vm_compute. reflexivity. Qed.

(** Every rate-limit error carries the marker the retry loop looks for,
    whatever the [retry-after] header says. *)
Lemma rateLimitError_marked (retryAfter : option string) :
  includes (message (MistralOCRService.rateLimitError retryAfter)) "429" = true.
Proof.
  unfold MistralOCRService.rateLimitError. cbn [message].
  apply (includes_middle "Mistral API rate limit: " "429").
Qed.

Section MistralFacts.
Variable env : Device.Env.

(** The throttle leaves the counters alone. *)
Lemma enforceRateLimit_run (w : Device.World) :
  exists w1,
    MistralOCRService.enforceRateLimit env w = (Ok tt, w1)
    /\ Device.requests w1 = Device.requests w
    /\ Device.recognitions w1 = Device.recognitions w
    /\ Device.ticks w1 = S (S (Device.ticks w))
    /\ Device.lastRequestTime w1 = Device.clock env (S (Device.ticks w))
    /\ Device.timers w1
       = (Device.timers w
          ++ (let elapsed := Device.clock env (Device.ticks w) - Device.lastRequestTime w in
              if elapsed <? MistralOCRService.MIN_REQUEST_INTERVAL
              then [MistralOCRService.MIN_REQUEST_INTERVAL - elapsed]
              else []))%list.
Proof.
  unfold MistralOCRService.enforceRateLimit, bind, gets, when, ret,
    Device.dnow, Device.dwait, Device.read_clock, Device.set_timer,
    Device.set_lastRequestTime.
  cbn.
  destruct (Device.clock env (Device.ticks w) - Device.lastRequestTime w
            <? MistralOCRService.MIN_REQUEST_INTERVAL); cbn;
    eexists; repeat split; cbn; rewrite ?app_nil_r; reflexivity.
Qed.

(** One pass of [performOCR] makes at most one request. *)
Lemma performOCR_requests (uri : string) (w : Device.World) :
  (Device.requests w <= Device.requests (snd (MistralOCRService.performOCR env uri w))
   <= S (Device.requests w))%nat.
Proof.
  unfold MistralOCRService.performOCR.
  destruct (falsy (Device.apiKey env)); [cbn; lia|].
  destruct (enforceRateLimit_run w) as (w1 & Hrun & Hreq & _).
  rewrite <- Hreq.
  unfold bind, Device.request, throw, ret. rewrite Hrun.
  destruct (Device.net env (Device.requests w1)) as [e | r]; [cbn; lia|].
  destruct (negb (MistralOCRService.response_ok r)).
  - destruct (Device.status r =? 429); cbn; lia.
  - destruct (Device.content r) as [[t|] | e]; cbn; lia.
Qed.

Lemma retryLoop_requests (uri : string) (remaining : nat) :
  forall (attempt : Z) (lastError : option JsError) (w : Device.World),
    (Device.requests
       (snd (MistralOCRService.retryLoop (MistralOCRService.performOCR env uri)
               remaining attempt lastError w))
     <= Device.requests w + remaining)%nat.
Proof.
  induction remaining as [|remaining IH]; intros attempt lastError w;
    cbn [MistralOCRService.retryLoop].
  - unfold throw. cbn. lia.
  - pose proof (performOCR_requests uri w) as Hone.
    destruct (MistralOCRService.performOCR env uri w) as [[t | e] w1]; cbn [snd] in *.
    + lia.
    + destruct (includes (message e) "429" && (attempt <? MistralOCRService.MAX_RETRIES - 1)).
      * specialize (IH (attempt + 1) (Some e)
                       (Device.set_timer (MistralOCRService.BASE_DELAY * 2 ^ attempt) w1)).
        cbn [Device.set_timer Device.requests] in IH. lia.
      * destruct ((attempt =? 0) && negb (includes (message e) "429")); cbn [snd].
        -- lia.
        -- specialize (IH (attempt + 1) (Some e) w1). lia.
Qed.

End MistralFacts.

(** [parseInt] on the values a [retry-after] header can have. *)
Lemma parseInt_examples :
  MistralOCRService.parseInt "30" = Some 30
  /\ MistralOCRService.parseInt " 42abc" = Some 42
  /\ MistralOCRService.parseInt "0x10" = Some 16
  /\ MistralOCRService.parseInt "-0X1f" = Some (-31)
  /\ MistralOCRService.parseInt "0x" = None
  /\ MistralOCRService.parseInt "Wed, 21 Oct 2026 07:28:00 GMT" = None.
Proof. vm_compute. repeat split. Qed.

(** X1.  Request bound.  Whatever the API answers, one call of
    [MistralOCRService.extractTextFromImage] makes at most 3 requests. *)
Theorem mistral_at_most_three_requests (env : Device.Env) (uri : string) (w : Device.World) :
  (Device.requests (snd (MistralOCRService.extractTextFromImage env uri w))
   <= Device.requests w + 3)%nat.
Proof.
  unfold MistralOCRService.extractTextFromImage, MistralOCRService.executeWithRetry.
  exact (retryLoop_requests env uri 3 0 None w).
Qed.

(** X2.  Fail fast.  When the first attempt of the operation throws an
    error whose message does not contain '429', [executeWithRetry] throws
    that error in the state the operation left: no delay, no second
    attempt. *)
Theorem first_plain_error_thrown_at_once
    (A : Type) (operation : M Device.World A) (w w1 : Device.World) (e : JsError) :
  operation w = (Throw e, w1) ->
  includes (message e) "429" = false ->
  MistralOCRService.executeWithRetry operation w = (Throw e, w1).
Proof.
  intros Hop Hplain. unfold MistralOCRService.executeWithRetry.
  change (Z.to_nat MistralOCRService.MAX_RETRIES) with 3%nat.
  cbn [MistralOCRService.retryLoop]. rewrite Hop, Hplain. reflexivity.
Qed.

Lemma first_plain_error_thrown_at_once_witness :
  MistralOCRService.extractTextFromImage Scenario.remoteDown Scenario.image
    Device.world_init
  = MistralOCRService.performOCR Scenario.remoteDown Scenario.image Device.world_init.
Proof.
  assert (Hop : MistralOCRService.performOCR Scenario.remoteDown Scenario.image
                  Device.world_init
                = (Throw (MistralOCRService.apiError Scenario.serverError),
                   snd (MistralOCRService.performOCR Scenario.remoteDown Scenario.image
                          Device.world_init)))
    by (vm_compute; reflexivity).
  rewrite Hop.
  apply (first_plain_error_thrown_at_once string
           (MistralOCRService.performOCR Scenario.remoteDown Scenario.image)
           Device.world_init _ _ Hop).
  vm_compute. reflexivity.
Defined.

(** X3.  Exhausted retries.  When every attempt of the operation throws
    an error whose message contains '429', [executeWithRetry] makes three
    attempts, waits 2000 ms after the first and 4000 ms after the second,
    and throws the error of the third without a further wait. *)
Theorem rate_limit_exhausted
    (A : Type) (operation : M Device.World A) (w : Device.World) :
  (forall w0, exists e w1,
       operation w0 = (Throw e, w1) /\ includes (message e) "429" = true) ->
  exists e1 w1 e2 w2 e3 w3,
    operation w = (Throw e1, w1)
    /\ operation (Device.set_timer 2000 w1) = (Throw e2, w2)
    /\ operation (Device.set_timer 4000 w2) = (Throw e3, w3)
    /\ MistralOCRService.executeWithRetry operation w = (Throw e3, w3).
Proof.
  intros Hop. unfold MistralOCRService.executeWithRetry.
  change (Z.to_nat MistralOCRService.MAX_RETRIES) with 3%nat.
  cbn [MistralOCRService.retryLoop].
  destruct (Hop w) as (e1 & w1 & E1 & M1). rewrite E1, M1.
  change (0 <? MistralOCRService.MAX_RETRIES - 1) with true. cbn [andb].
  change (MistralOCRService.BASE_DELAY * 2 ^ 0) with 2000.
  destruct (Hop (Device.set_timer 2000 w1)) as (e2 & w2 & E2 & M2). rewrite E2, M2.
  change (0 + 1 <? MistralOCRService.MAX_RETRIES - 1) with true. cbn [andb].
  change (MistralOCRService.BASE_DELAY * 2 ^ (0 + 1)) with 4000.
  destruct (Hop (Device.set_timer 4000 w2)) as (e3 & w3 & E3 & M3). rewrite E3, M3.
  change (0 + 1 + 1 <? MistralOCRService.MAX_RETRIES - 1) with false.
  change (0 + 1 + 1 =? 0) with false. cbn [andb].
  exists e1, w1, e2, w2, e3, w3. repeat split; assumption.
Qed.

Lemma rate_limit_exhausted_witness :
  exists e1 w1 e2 w2 e3 w3,
    MistralOCRService.performOCR Cases.alwaysLimited Scenario.image Device.world_init
    = (Throw e1, w1)
    /\ MistralOCRService.performOCR Cases.alwaysLimited Scenario.image
         (Device.set_timer 2000 w1) = (Throw e2, w2)
    /\ MistralOCRService.performOCR Cases.alwaysLimited Scenario.image
         (Device.set_timer 4000 w2) = (Throw e3, w3)
    /\ MistralOCRService.extractTextFromImage Cases.alwaysLimited Scenario.image
         Device.world_init = (Throw e3, w3).
Proof.
  apply (rate_limit_exhausted string
           (MistralOCRService.performOCR Cases.alwaysLimited Scenario.image)
           Device.world_init).
  intros w0.
  destruct (enforceRateLimit_run Cases.alwaysLimited w0) as (w1 & Hrun & _).
  exists (MistralOCRService.rateLimitError None). eexists.
  unfold MistralOCRService.performOCR, bind, Device.request, throw.
  cbn [falsy Cases.alwaysLimited Device.apiKey]. rewrite Hrun.
  cbn. split; reflexivity.
Defined.

(** No key, no request.  Without an API key
    [MistralOCRService.extractTextFromImage] throws the configuration
    error and leaves the world as it is: the clock is not read, nothing is
    requested, nothing is waited for. *)
Theorem mistral_without_key (env : Device.Env) (uri : string) (w : Device.World) :
  falsy (Device.apiKey env) = true ->
  MistralOCRService.extractTextFromImage env uri w
  = (Throw (mkError "Mistral API key not configured. Please add your API key to the .env file."),
     w).
Proof.
  intros Hkey.
  unfold MistralOCRService.extractTextFromImage, MistralOCRService.executeWithRetry.
  change (Z.to_nat MistralOCRService.MAX_RETRIES) with 3%nat.
  cbn [MistralOCRService.retryLoop].
  unfold MistralOCRService.performOCR. rewrite Hkey. unfold throw. cbn [message].
  rewrite quiet_message_429. reflexivity.
Qed.

Lemma mistral_without_key_witness :
  MistralOCRService.extractTextFromImage
    Cases.noKey Scenario.image Device.world_init
  = (Throw (mkError "Mistral API key not configured. Please add your API key to the .env file."),
     Device.world_init).
Proof. apply mistral_without_key. reflexivity. Defined.

(** X4.  A 429 is always recognised.  When the API answers a request with
    status 429, [performOCR] throws an error that the retry loop takes for
    a rate limit, with or without a [retry-after] header; and no response
    outside 200-299 yields a text. *)
Theorem mistral_error_responses (env : Device.Env) (uri : string) (w : Device.World)
        (r : Device.HttpResponse) :
  falsy (Device.apiKey env) = false ->
  Device.net env (Device.requests w) = Device.Responded r ->
  MistralOCRService.response_ok r = false ->
  exists e w1,
    MistralOCRService.performOCR env uri w = (Throw e, w1)
    /\ Device.requests w1 = S (Device.requests w)
    /\ (Device.status r = 429 -> includes (message e) "429" = true).
Proof.
  intros Hkey Hnet Hbad. unfold MistralOCRService.performOCR. rewrite Hkey.
  destruct (enforceRateLimit_run env w) as (w1 & Hrun & Hreq & _).
  unfold bind, Device.request, throw, ret. rewrite Hrun. rewrite <- Hreq in Hnet |- *.
  rewrite Hnet, Hbad. cbn [negb].
  destruct (Device.status r =? 429) eqn:H429;
    eexists; eexists; (split; [reflexivity|]); cbn [Device.requests];
    (split; [reflexivity|]).
  - intros _. apply rateLimitError_marked.
  - intros Hs. rewrite Hs in H429. discriminate.
Qed.

Lemma mistral_error_responses_witness :
  exists e w1,
    MistralOCRService.performOCR Scenario.rateLimitedTwice Scenario.image
      Device.world_init = (Throw e, w1)
    /\ Device.requests w1 = 1%nat
    /\ includes (message e) "429" = true.
Proof.
  destruct (mistral_error_responses Scenario.rateLimitedTwice Scenario.image
              Device.world_init Scenario.tooManyRequests eq_refl eq_refl eq_refl)
    as (e & w1 & Hrun & Hreq & Hmark).
  exists e, w1. split; [exact Hrun|]. split; [exact Hreq|]. apply Hmark. reflexivity.
Defined.

(** X5.  The throttle.  [enforceRateLimit] waits only when less than 5000 ms
    have passed since the last request, and then for exactly the rest of
    the 5000 ms; afterwards [lastRequestTime] is the clock reading taken
    after the wait. *)
Theorem throttle_waits_for_the_rest (env : Device.Env) (w : Device.World) :
  let elapsed := Device.clock env (Device.ticks w) - Device.lastRequestTime w in
  let w1 := snd (MistralOCRService.enforceRateLimit env w) in
  Device.lastRequestTime w1 = Device.clock env (S (Device.ticks w))
  /\ (5000 <= elapsed -> Device.timers w1 = Device.timers w)
  /\ (elapsed < 5000 ->
      exists waited,
        Device.timers w1 = (Device.timers w ++ [waited])%list
        /\ elapsed + waited = 5000 /\ 0 < waited).
Proof.
  intros elapsed w1. unfold w1.
  destruct (enforceRateLimit_run env w) as (w' & Hrun & _ & _ & _ & Hlast & Htimers).
  rewrite Hrun. cbn [snd]. split; [exact Hlast|].
  fold elapsed in Htimers. unfold MistralOCRService.MIN_REQUEST_INTERVAL in Htimers.
  split.
  - intros Hge. apply Z.ltb_ge in Hge. rewrite Hge, app_nil_r in Htimers. exact Htimers.
  - intros Hlt. pose proof Hlt as Hlt'. apply Z.ltb_lt in Hlt'. rewrite Hlt' in Htimers.
    exists (5000 - elapsed). split; [exact Htimers|]. lia.
Qed.

Lemma throttle_waits_for_the_rest_witness :
  Device.timers
    (snd (MistralOCRService.enforceRateLimit Scenario.failsOnce
            (Device.mkWorld 4 1 0 0 0 3000 false [])))
  = [4000].
Proof.
  destruct (throttle_waits_for_the_rest Scenario.failsOnce
              (Device.mkWorld 4 1 0 0 0 3000 false [])) as (_ & _ & Hwait).
  destruct Hwait as (waited & Ht & Hsum & _); [vm_compute; reflexivity|].
  rewrite Ht. cbn [Device.timers app]. f_equal.
  assert (Hel : Device.clock Scenario.failsOnce 4 - 3000 = 1000) by reflexivity.
  cbn [Device.ticks Device.lastRequestTime] in Hsum. rewrite Hel in Hsum. lia.
Defined.

(** ** The batch loops of the two providers *)

Lemma textsOf_length (env : Device.Env) (uris ts : list string) :
  textsOf env uris ts -> List.length ts = List.length uris.
Proof. induction 1; cbn; congruence. Qed.

Lemma recognitionsOf_length (env : Device.Env) (uris : list string)
      (rs : list OfflineOCRResult) :
  recognitionsOf env uris rs -> List.length rs = List.length uris.
Proof. induction 1; cbn; congruence. Qed.

Lemma notify_returns {S A : Type} (onProgress : Callback A) (current total : Z) (info : A)
      (s : S) :
  returns_normally onProgress ->
  notify onProgress current total info s = (Ok tt, s).
Proof.
  intros Hcb. destruct onProgress as [f|]; cbn; [|reflexivity].
  now rewrite (Hcb current total info).
Qed.

Section QueueFacts.
Variable env : Device.Env.

(** One turn of the remote batch pushes one text and makes at most three
    requests. *)
Lemma mistral_imageBody_run (onProgress : Callback string) (total i : Z) (uri : string)
      (acc : list string) (w : Device.World) :
  returns_normally onProgress ->
  exists t w',
    MistralOCRQueue.imageBody env onProgress total i uri (acc, w)
    = (Ok tt, ((acc ++ [t])%list, w'))
    /\ (Device.requests w' <= Device.requests w + 3)%nat
    /\ ((exists w1, MistralOCRService.extractTextFromImage env uri w = (Ok t, w1))
        \/ (exists e w1,
               MistralOCRService.extractTextFromImage env uri w = (Throw e, w1)
               /\ t = "")).
Proof.
  intros Hcb. unfold MistralOCRQueue.imageBody. unfold bind at 1.
  rewrite (notify_returns onProgress (i + 1) total uri (acc, w) Hcb).
  unfold try_catch, bind, outer, update, when, Device.dwait, ret. cbn [fst snd].
  pose proof (retryLoop_requests env uri 3 0 None w) as Hreq.
  change (MistralOCRService.retryLoop (MistralOCRService.performOCR env uri) 3 0 None w)
    with (MistralOCRService.extractTextFromImage env uri w) in Hreq.
  destruct (MistralOCRService.extractTextFromImage env uri w) as [[t | e] w1] eqn:E;
    cbn [snd] in Hreq.
  - exists t. destruct (i <? total - 1); cbn [fst snd]; eexists;
      (split; [reflexivity|]); (split; [cbn; exact Hreq|]); left; now exists w1.
  - exists "", w1. split; [reflexivity|]. split; [exact Hreq|]. right. now exists e, w1.
Qed.

Lemma mistral_loop_run (onProgress : Callback string) (total : Z) (uris : list string) :
  returns_normally onProgress ->
  forall (i : Z) (acc : list string) (w : Device.World),
  exists ts w',
    for_each (MistralOCRQueue.imageBody env onProgress total) i uris (acc, w)
    = (Ok tt, ((acc ++ ts)%list, w'))
    /\ textsOf env uris ts
    /\ (Device.requests w' <= Device.requests w + 3 * List.length uris)%nat.
Proof.
  intros Hcb. induction uris as [|uri uris IH]; intros i acc w; cbn [for_each].
  - exists [], w. rewrite app_nil_r. split; [reflexivity|]. split; [constructor|].
    cbn. lia.
  - destruct (mistral_imageBody_run onProgress total i uri acc w Hcb)
      as (t & w1 & Hbody & Hreq & Ht).
    destruct (IH (i + 1) (acc ++ [t])%list w1) as (ts & w2 & Hrest & Htexts & Hreqs).
    exists (t :: ts), w2. unfold bind at 1. rewrite Hbody, Hrest.
    rewrite <- app_assoc. split; [reflexivity|]. split.
    + destruct Ht as [(w1' & E) | (e & w1' & E & ->)].
      * eapply texts_returned; eauto.
      * eapply texts_thrown; eauto.
    + cbn [List.length]. lia.
Qed.

(** The device provider returns whatever happens inside, after one file
    check, a call of the recogniser when the file was found, and two
    readings of the clock; it sets no timer. *)
Lemma offline_extract_run (uri : string) (w : Device.World) :
  exists r w1,
    OfflineOCRService.extractTextFromImage env uri w = (Ok r, w1)
    /\ Device.fileChecks w1 = S (Device.fileChecks w)
    /\ Device.recognitions w1
       = (Device.recognitions w
          + if fileFound env (Device.fileChecks w) then 1 else 0)%nat
    /\ Device.requests w1 = Device.requests w
    /\ Device.ticks w1 = S (S (Device.ticks w))
    /\ Device.timers w1 = Device.timers w
    /\ Device.isInitialized w1 = true
    /\ off_processingTime r
       = Device.clock env (S (Device.ticks w)) - Device.clock env (Device.ticks w)
    /\ match Device.fileInfo env (Device.fileChecks w) with
       | Device.FileInfo true =>
           match Device.mlkit env (Device.recognitions w) with
           | Device.Recognized rec =>
               off_text r = match Device.rec_text rec with Some t => t | None => "" end
           | Device.RecognizeFailed _ => off_text r = "" /\ off_confidence r = 0%Q
           end
       | _ => off_text r = "" /\ off_confidence r = 0%Q
       end.
Proof.
  unfold OfflineOCRService.extractTextFromImage, OfflineOCRService.initialize,
    Device.dnow, Device.getInfo, Device.recognize, Device.set_isInitialized,
    fileFound, bind, try_catch, ret, throw, gets.
  cbn. destruct (Device.isInitialized w) eqn:Hinit; cbn;
    (destruct (Device.fileInfo env (Device.fileChecks w)) as [e | []]; cbn;
     [ | destruct (Device.mlkit env (Device.recognitions w)); cbn | ]);
    eexists; eexists; (split; [reflexivity|]); cbn;
    repeat split; auto; lia.
Qed.

Lemma filesFound_S (from n : nat) :
  filesFound env from (S n)
  = ((if fileFound env from then 1 else 0) + filesFound env (S from) n)%nat.
Proof.
  unfold filesFound. cbn [seq filter].
  destruct (fileFound env from); reflexivity.
Qed.

(** One turn of the device batch pushes the result of the provider. *)
Lemma offline_imageBody_run (onProgress : Callback string) (total i : Z) (uri : string)
      (acc : list OfflineOCRResult) (w : Device.World) :
  returns_normally onProgress ->
  exists r w1,
    OfflineOCRService.extractTextFromImage env uri w = (Ok r, w1)
    /\ Device.fileChecks w1 = S (Device.fileChecks w)
    /\ Device.recognitions w1
       = (Device.recognitions w
          + if fileFound env (Device.fileChecks w) then 1 else 0)%nat
    /\ Device.requests w1 = Device.requests w
    /\ Device.timers w1 = Device.timers w
    /\ OfflineOCRBatch.imageBody env onProgress total i uri (acc, w)
       = (Ok tt, ((acc ++ [r])%list,
                  if i <? total - 1 then Device.set_timer 100 w1 else w1)).
Proof.
  intros Hcb. unfold OfflineOCRBatch.imageBody. unfold bind at 1.
  rewrite (notify_returns onProgress (i + 1) total uri (acc, w) Hcb).
  unfold try_catch, bind, outer, update, when, Device.dwait, ret. cbn [fst snd].
  destruct (offline_extract_run uri w)
    as (r & w1 & E & Hchk & Hrec & Hreq & _ & Htim & _).
  exists r, w1. split; [exact E|]. split; [exact Hchk|]. split; [exact Hrec|].
  split; [exact Hreq|].
  split; [exact Htim|]. rewrite E.
  destruct (i <? total - 1); reflexivity.
Qed.

(** The device batch from index [i] on, [total] being [i] plus the number
    of images left: one file check per image, one recognition per file
    found, 100 ms between images. *)
Lemma offline_loop_run (onProgress : Callback string) (uris : list string) :
  returns_normally onProgress ->
  forall (i : Z) (acc : list OfflineOCRResult) (w : Device.World),
  exists rs w',
    for_each (OfflineOCRBatch.imageBody env onProgress
                (i + Z.of_nat (List.length uris))) i uris (acc, w)
    = (Ok tt, ((acc ++ rs)%list, w'))
    /\ recognitionsOf env uris rs
    /\ Device.fileChecks w' = (Device.fileChecks w + List.length uris)%nat
    /\ Device.recognitions w'
       = (Device.recognitions w
          + filesFound env (Device.fileChecks w) (List.length uris))%nat
    /\ Device.requests w' = Device.requests w
    /\ Device.timers w'
       = (Device.timers w ++ repeat 100 (Nat.pred (List.length uris)))%list.
Proof.
  intros Hcb. induction uris as [|uri uris IH]; intros i acc w; cbn [for_each].
  - exists [], w. rewrite !app_nil_r. split; [reflexivity|]. split; [constructor|].
    cbn. rewrite ?app_nil_r. repeat split; lia.
  - destruct (offline_imageBody_run onProgress
                (i + Z.of_nat (List.length (uri :: uris))) i uri acc w Hcb)
      as (r & w1 & E & Hchk & Hrec & Hreq & Htim & Hbody).
    unfold bind at 1. rewrite Hbody.
    replace (i + Z.of_nat (List.length (uri :: uris)))
      with (i + 1 + Z.of_nat (List.length uris)) by (cbn [List.length]; lia).
    destruct (IH (i + 1) (acc ++ [r])%list
                 (if i <? i + 1 + Z.of_nat (List.length uris) - 1
                  then Device.set_timer 100 w1 else w1))
      as (rs & w2 & Hrest & Hrs & Hchk2 & Hrec2 & Hreq2 & Htim2).
    exists (r :: rs), w2. rewrite Hrest, <- app_assoc.
    split; [reflexivity|]. split; [eapply recognitions_more; eauto|].
    cbn [List.length]. rewrite filesFound_S.
    destruct uris as [|uri' uris'].
    + assert (Hlast : (i <? i + 1 + Z.of_nat (@List.length string []) - 1) = false)
        by (apply Z.ltb_ge; cbn; lia).
      rewrite Hlast in Hchk2, Hrec2, Hreq2, Htim2. cbn [List.length] in *.
      rewrite Hchk2, Hrec2, Hreq2, Htim2, Hchk, Hrec, Hreq, Htim. cbn.
      repeat split; lia.
    + assert (Hmore : (i <? i + 1 + Z.of_nat (List.length (uri' :: uris')) - 1) = true)
        by (apply Z.ltb_lt; cbn [List.length]; lia).
      rewrite Hmore in Hchk2, Hrec2, Hreq2, Htim2.
      cbn [Device.set_timer Device.recognitions Device.requests Device.timers
           Device.fileChecks] in *.
      rewrite Hchk2, Hrec2, Hreq2, Htim2, Hchk, Hrec, Hreq, Htim.
      cbn [List.length Nat.pred repeat].
      rewrite <- app_assoc. cbn [app]. repeat split; lia.
Qed.

End QueueFacts.

(** X6.  The remote batch.  With a progress callback that is absent or
    returns normally, [MistralOCRService.extractTextFromImages] never
    throws and returns one string per image, in input order: the text
    [extractTextFromImage] returned for it, or the empty string when it
    threw.  A batch of [n] images makes at most [3 * n] requests. *)
Theorem mistral_batch_one_text_per_image
    (env : Device.Env) (imageUris : list string) (onProgress : Callback string)
    (w : Device.World) :
  returns_normally onProgress ->
  exists results w',
    MistralOCRQueue.extractTextFromImages env imageUris onProgress w = (Ok results, w')
    /\ List.length results = List.length imageUris
    /\ textsOf env imageUris results
    /\ (Device.requests w' <= Device.requests w + 3 * List.length imageUris)%nat.
Proof.
  intros Hcb.
  destruct (mistral_loop_run env onProgress (Z.of_nat (List.length imageUris))
              imageUris Hcb 0 [] w) as (ts & w' & Hloop & Htexts & Hreq).
  exists ts, w'. split.
  - unfold MistralOCRQueue.extractTextFromImages, with_locals, bind, ret.
    rewrite Hloop. reflexivity.
  - split; [exact (textsOf_length env imageUris ts Htexts)|]. now split.
Qed.

Lemma mistral_batch_one_text_per_image_witness :
  exists results w',
    MistralOCRQueue.extractTextFromImages Scenario.failsOnce
      [Scenario.image; Scenario.image] None Device.world_init = (Ok results, w')
    /\ List.length results = 2%nat
    /\ textsOf Scenario.failsOnce [Scenario.image; Scenario.image] results
    /\ (Device.requests w' <= 6)%nat.
Proof.
  exact (mistral_batch_one_text_per_image Scenario.failsOnce
           [Scenario.image; Scenario.image] None Device.world_init I).
Defined.

(** With the API failing its first request only, the batch of two images
    returns the empty string and then the text. *)
Lemma mistral_batch_mixed :
  fst (MistralOCRQueue.extractTextFromImages Scenario.failsOnce
         [Scenario.image; Scenario.image] None Device.world_init)
  = Ok [EmptyString; "remote text"].
Proof. vm_compute. reflexivity. Qed.

(** A throwing callback aborts the remote batch.  The progress
    callback of [MistralOCRService.extractTextFromImages] runs outside the
    [try]: when it throws for the first image, the batch throws that error
    before anything is requested or waited for, and no partial result is
    returned. *)
Theorem mistral_batch_callback_throws
    (env : Device.Env) (uri : string) (uris : list string)
    (f : Z -> Z -> string -> Res unit) (e : JsError) (w : Device.World) :
  f 1 (Z.of_nat (List.length (uri :: uris))) uri = Throw e ->
  MistralOCRQueue.extractTextFromImages env (uri :: uris) (Some f) w = (Throw e, w).
Proof.
  intros Hf.
  unfold MistralOCRQueue.extractTextFromImages, with_locals, bind, ret.
  cbn [for_each]. unfold bind at 1. unfold MistralOCRQueue.imageBody at 1.
  unfold bind at 1. unfold notify. cbn [fst snd Z.add].
  change (0 + 1) with 1. rewrite Hf. reflexivity.
Qed.

Lemma mistral_batch_callback_throws_witness :
  MistralOCRQueue.extractTextFromImages Scenario.failsOnce
    [Scenario.image; Scenario.image]
    (Some (fun _ _ _ => Throw (mkError "listener failed"))) Device.world_init
  = (Throw (mkError "listener failed"), Device.world_init).
Proof.
  apply (mistral_batch_callback_throws Scenario.failsOnce Scenario.image [Scenario.image]
           (fun _ _ _ => Throw (mkError "listener failed"))).
  reflexivity.
Defined.

(** X7.  Status and throttle agree.  [getRateLimitStatus] reports
    [canMakeRequest] exactly when its [waitTimeMs] is 0, and leaves
    [lastRequestTime] alone; [enforceRateLimit], run from the same state,
    waits for exactly the reported time, and does not wait when a request
    can be made. *)
Theorem rate_limit_status_agrees_with_throttle (env : Device.Env) (w : Device.World) :
  exists st w1,
    MistralOCRQueue.getRateLimitStatus env w = (Ok st, w1)
    /\ (MistralOCRQueue.canMakeRequest st = true <-> MistralOCRQueue.waitTimeMs st = 0)
    /\ Device.lastRequestTime w1 = Device.lastRequestTime w
    /\ Device.timers (snd (MistralOCRService.enforceRateLimit env w))
       = (Device.timers w
          ++ (if MistralOCRQueue.canMakeRequest st then []
              else [MistralOCRQueue.waitTimeMs st]))%list.
Proof.
  destruct (enforceRateLimit_run env w) as (w' & Hrun & _ & _ & _ & _ & Htimers).
  rewrite Hrun. cbn [snd]. rewrite Htimers. clear Hrun Htimers.
  unfold MistralOCRQueue.getRateLimitStatus, bind, gets, ret, Device.dnow,
    Device.read_clock, MistralOCRService.MIN_REQUEST_INTERVAL.
  cbv beta iota zeta. eexists; eexists. split; [reflexivity|].
  cbn [MistralOCRQueue.canMakeRequest MistralOCRQueue.waitTimeMs Device.lastRequestTime].
  set (elapsed := Device.clock env (Device.ticks w) - Device.lastRequestTime w).
  rewrite Z.geb_leb.
  destruct (Z.leb_spec 5000 elapsed) as [Hge | Hlt].
  - assert (Hb : (elapsed <? 5000) = false) by (apply Z.ltb_ge; exact Hge).
    rewrite Hb. split; [tauto|]. split; reflexivity.
  - assert (Hb : (elapsed <? 5000) = true) by (apply Z.ltb_lt; exact Hlt).
    rewrite Hb. split; [|split; reflexivity].
    split; [discriminate | lia].
Qed.

(** X8.  The device batch.  With a progress callback that is absent or
    returns normally, [OfflineOCRService.extractTextFromImages] returns one
    result per image, each the result [extractTextFromImage] returned for
    it: the placeholder of the [catch] block is never pushed.  The batch
    asks once per image whether the file exists and calls the recogniser
    once for each file found, so at most once per image; it requests
    nothing from the network and waits 100 ms between two images. *)
Theorem offline_batch_results
    (env : Device.Env) (imageUris : list string) (onProgress : Callback string)
    (w : Device.World) :
  returns_normally onProgress ->
  exists results w',
    OfflineOCRBatch.extractTextFromImages env imageUris onProgress w = (Ok results, w')
    /\ List.length results = List.length imageUris
    /\ recognitionsOf env imageUris results
    /\ Device.fileChecks w' = (Device.fileChecks w + List.length imageUris)%nat
    /\ Device.recognitions w'
       = (Device.recognitions w
          + filesFound env (Device.fileChecks w) (List.length imageUris))%nat
    /\ (Device.recognitions w' <= Device.recognitions w + List.length imageUris)%nat
    /\ Device.requests w' = Device.requests w
    /\ Device.timers w'
       = (Device.timers w ++ repeat 100 (Nat.pred (List.length imageUris)))%list.
Proof.
  intros Hcb.
  destruct (offline_loop_run env onProgress imageUris Hcb 0 [] w)
    as (rs & w' & Hloop & Hrs & Hchk & Hrec & Hreq & Htim).
  exists rs, w'. split.
  - unfold OfflineOCRBatch.extractTextFromImages, with_locals, bind, ret.
    cbn [Z.add] in Hloop. rewrite Hloop. reflexivity.
  - split; [exact (recognitionsOf_length env imageUris rs Hrs)|].
    split; [exact Hrs|]. split; [exact Hchk|]. split; [exact Hrec|].
    split; [|now split].
    rewrite Hrec. unfold filesFound.
    pose proof (filter_length_le (fileFound env)
                  (seq (Device.fileChecks w) (List.length imageUris))) as Hle.
    rewrite length_seq in Hle. lia.
Qed.

Lemma offline_batch_results_witness :
  exists results w',
    OfflineOCRBatch.extractTextFromImages Cases.lostFile
      [Scenario.image; Scenario.image; Scenario.image] None Device.world_init
    = (Ok results, w')
    /\ List.length results = 3%nat
    /\ Device.fileChecks w' = 3%nat
    /\ Device.recognitions w' = 2%nat
    /\ Device.requests w' = 0%nat
    /\ Device.timers w' = [100; 100].
Proof.
  destruct (offline_batch_results Cases.lostFile
              [Scenario.image; Scenario.image; Scenario.image] None Device.world_init I)
    as (results & w' & Hrun & Hlen & _ & Hchk & Hrec & _ & Hreq & Htim).
  exists results, w'. now repeat split.
Defined.

(** X9.  The device provider never throws.  Whatever the file system and
    the recogniser do, [OfflineOCRService.extractTextFromImage] returns a
    result after one file check; it calls the recogniser once when the
    file was found and not at all otherwise.  Its processing time is the
    difference of the two clock readings it takes.  When the file check
    or the recogniser fails, the result has the empty text and confidence
    0; otherwise its text is the recognised text, or the empty string
    when the recogniser gave none. *)
Theorem offline_failure_is_an_empty_result
    (env : Device.Env) (uri : string) (w : Device.World) :
  exists r w1,
    OfflineOCRService.extractTextFromImage env uri w = (Ok r, w1)
    /\ Device.fileChecks w1 = S (Device.fileChecks w)
    /\ off_processingTime r
       = Device.clock env (S (Device.ticks w)) - Device.clock env (Device.ticks w)
    /\ match Device.fileInfo env (Device.fileChecks w) with
       | Device.FileInfo true =>
           Device.recognitions w1 = S (Device.recognitions w)
           /\ match Device.mlkit env (Device.recognitions w) with
              | Device.Recognized rec =>
                  off_text r
                  = match Device.rec_text rec with Some t => t | None => "" end
              | Device.RecognizeFailed _ => off_text r = "" /\ off_confidence r = 0%Q
              end
       | _ =>
           Device.recognitions w1 = Device.recognitions w
           /\ off_text r = "" /\ off_confidence r = 0%Q
       end.
Proof.
  destruct (offline_extract_run env uri w)
    as (r & w1 & E & Hchk & Hrec & _ & _ & _ & _ & Htime & Hout).
  exists r, w1. split; [exact E|]. split; [exact Hchk|]. split; [exact Htime|].
  unfold fileFound in Hrec.
  destruct (Device.fileInfo env (Device.fileChecks w)) as [e | []];
    (split; [lia | exact Hout]).
Qed.

(** ** The confidence of the device provider *)

Lemma blockConfidence_range (c : option Q) :
  (forall q, c = Some q -> (0 <= q)%Q /\ (q <= 1)%Q) ->
  (0 < OfflineOCRService.blockConfidence c)%Q
  /\ (OfflineOCRService.blockConfidence c <= 1)%Q.
Proof.
  intros Hc. unfold OfflineOCRService.blockConfidence.
  destruct c as [q|]; [|split; reflexivity || discriminate].
  destruct (Hc q eq_refl) as [H0 H1].
  destruct (Qeq_bool q 0) eqn:Hz; [split; reflexivity || discriminate|].
  split; [|exact H1].
  apply Qeq_bool_neq in Hz. apply Qle_lteq in H0. destruct H0 as [Hlt | Heq]; [exact Hlt|].
  exfalso. apply Hz. symmetry. exact Heq.
Qed.

Lemma sum_confidences_range (l : list Q) :
  (forall x, In x l -> (0 < x)%Q /\ (x <= 1)%Q) ->
  forall a : Q,
    (a <= fold_left Qplus l a)%Q
    /\ (fold_left Qplus l a <= a + inject_Z (Z.of_nat (List.length l)))%Q
    /\ (l <> [] -> (a < fold_left Qplus l a)%Q).
Proof.
  induction l as [|x l IH]; intros Hl a; cbn [fold_left List.length].
  - split; [apply Qle_refl|]. split; [|congruence].
    change (inject_Z (Z.of_nat 0)) with 0%Q. rewrite Qplus_0_r. apply Qle_refl.
  - destruct (Hl x (or_introl eq_refl)) as [Hx0 Hx1].
    destruct (IH (fun y Hy => Hl y (or_intror Hy)) (a + x)%Q) as (Hlow & Hhigh & _).
    assert (Hax : (a < a + x)%Q).
    { rewrite <- (Qplus_0_r a) at 1. apply Qplus_lt_r. exact Hx0. }
    split; [apply Qlt_le_weak; eapply Qlt_le_trans; eassumption|].
    split; [|intros _; eapply Qlt_le_trans; eassumption].
    eapply Qle_trans; [exact Hhigh|].
    rewrite Nat2Z.inj_succ. unfold Z.succ. rewrite inject_Z_plus.
    rewrite <- Qplus_assoc. apply Qplus_le_r.
    rewrite (Qplus_comm (inject_Z (Z.of_nat (List.length l)))).
    apply Qplus_le_l. exact Hx1.
Qed.

(** X10.  Confidence of a recognition.  When every confidence ML Kit
    reports for a block lies between 0 and 1, the overall confidence of a
    recognition lies above 0 and at most at 1, whatever blocks lack a
    confidence; the confidence 0 is thus left to the failure result. *)
Theorem recognition_confidence_in_range (blocks : list (option Q)) :
  (forall q, In (Some q) blocks -> (0 <= q)%Q /\ (q <= 1)%Q) ->
  (0 < OfflineOCRService.calculateOverallConfidence
         (map OfflineOCRService.blockConfidence blocks))%Q
  /\ (OfflineOCRService.calculateOverallConfidence
        (map OfflineOCRService.blockConfidence blocks) <= 1)%Q.
Proof.
  intros Hblocks.
  assert (Hall : forall x, In x (map OfflineOCRService.blockConfidence blocks) ->
                           (0 < x)%Q /\ (x <= 1)%Q).
  { intros x Hx. apply in_map_iff in Hx. destruct Hx as (c & <- & Hc).
    apply blockConfidence_range. intros q ->. now apply Hblocks. }
  unfold OfflineOCRService.calculateOverallConfidence.
  destruct (map OfflineOCRService.blockConfidence blocks) as [|x l] eqn:E;
    [split; reflexivity || discriminate|].
  destruct (sum_confidences_range (x :: l) Hall 0%Q) as (_ & Hhigh & Hpos).
  assert (Hn : (0 < inject_Z (Z.of_nat (List.length (x :: l))))%Q).
  { change 0%Q with (inject_Z 0). rewrite <- Zlt_Qlt. cbn [List.length]. lia. }
  split.
  - apply Qlt_shift_div_l; [exact Hn|]. rewrite Qmult_0_l. apply Hpos. discriminate.
  - apply Qle_shift_div_r; [exact Hn|]. rewrite Qmult_1_l.
    rewrite Qplus_0_l in Hhigh. exact Hhigh.
Qed.

Lemma recognition_confidence_in_range_witness :
  (0 < OfflineOCRService.calculateOverallConfidence
         (map OfflineOCRService.blockConfidence [Some (9 # 10); None; Some 0%Q]))%Q
  /\ (OfflineOCRService.calculateOverallConfidence
        (map OfflineOCRService.blockConfidence [Some (9 # 10); None; Some 0%Q]) <= 1)%Q.
Proof.
  apply (recognition_confidence_in_range [Some (9 # 10); None; Some 0%Q]).
  intros q [Hq | [Hq | [Hq | []]]]; inversion Hq; subst; split; discriminate.
Defined.

(** ** The arbiter: invariant, status, reset and forced cooldown *)

Lemma wellFormed_cleared (st : ArbiterState) (flag : bool) (until : Z) :
  wellFormed (mkArbiter 0 flag until).
Proof. split; cbn; [lia | intros _; unfold MAX_CONSECUTIVE_FAILURES; lia]. Qed.

Lemma wellFormed_afterFailure (st : ArbiterState) (t : Z) :
  wellFormed st -> wellFormed (afterFailure st t).
Proof.
  intros [Hpos Hlow]. unfold afterFailure.
  destruct (consecutiveFailures st + 1 >=? MAX_CONSECUTIVE_FAILURES) eqn:Hc.
  - split; cbn; [lia | discriminate].
  - split; cbn; [lia|]. intros _. rewrite Z.geb_leb in Hc. apply Z.leb_gt in Hc. exact Hc.
Qed.

Section ArbiterMore.
Context {W : Type} `{Runtime W} `{OCRProviders W}.

(** What a call leaves in the arbiter's statics, by mode. *)
Lemma byMode_wellFormed (m : Mode) (uri : string) (t0 : Z) (s : Sys W) :
  wellFormed (arb s) -> wellFormed (arb (snd (byMode m uri t0 s))).
Proof.
  intros Hwf. destruct m; cbn [byMode].
  - now rewrite performOnlineOCR_arb.
  - now rewrite performOfflineOCR_arb.
  - pose proof (autoAttempt_arb uri t0 s) as Hauto.
    destruct (fst (SmartOCRService.autoAttempt uri t0 s)); [|contradiction].
    destruct Hauto as [[_ Harb] | [_ Harb]]; rewrite Harb.
    + apply wellFormed_cleared. exact (arb s).
    + now apply wellFormed_afterFailure.
Qed.

(** Auto and offline mode throw nothing but what the local provider throws
    when called directly. *)
Lemma byMode_auto_returns (uri : string) (t0 : Z) (s : Sys W) :
  exists r s', byMode Auto uri t0 s = (Ok r, s').
Proof.
  cbn [byMode]. pose proof (autoAttempt_arb uri t0 s) as Hauto.
  destruct (SmartOCRService.autoAttempt uri t0 s) as [[r | e] s'] eqn:E;
    [now exists r, s' | contradiction].
Qed.

(** [getStatus] reads the clock once and changes nothing else. *)
Lemma getStatus_run (s : Sys W) :
  SmartOCRStatus.getStatus s
  = (Ok {| SmartOCRStatus.st_isTemporarilyOffline := isTemporarilyOffline (arb s);
           SmartOCRStatus.st_consecutiveFailures := consecutiveFailures (arb s);
           SmartOCRStatus.st_offlineUntil := offlineUntil (arb s);
           SmartOCRStatus.timeUntilOnline :=
             if isTemporarilyOffline (arb s)
             then Z.max 0 (offlineUntil (arb s) - reading 0 (world s))
             else 0;
           SmartOCRStatus.canUseOnline :=
             negb (isTemporarilyOffline (arb s))
             || (reading 0 (world s) >=? offlineUntil (arb s)) |},
     mkSys (arb s) (console s) (after_reads 1 (world s))).
Proof.
  unfold SmartOCRStatus.getStatus. run. rewrite (reading_0 (world s)). reflexivity.
Qed.

(** A state forced into the cooldown. *)
Lemma forceOfflineMode_run (durationMs : Z) (s : Sys W) :
  SmartOCRService.forceOfflineMode durationMs s
  = (Ok tt, mkSys (mkArbiter (consecutiveFailures (arb s)) true
                             (reading 0 (world s) + durationMs))
                  (console s) (after_reads 1 (world s))).
Proof. run. rewrite (reading_0 (world s)). reflexivity. Qed.

End ArbiterMore.

(** X11.  Invariant of the arbiter.  The statics are well formed (the
    failure counter is not negative, and it is below the threshold of 2
    whenever the cooldown flag is clear) at the start and after
    [resetFailureTracking]; [extractTextFromImage], in any mode and
    whatever the providers and the clock do, and [forceOfflineMode] keep
    them well formed. *)
Theorem arbiter_statics_well_formed
    (W : Type) (R : Runtime W) (P : OCRProviders W) (s : Sys W) :
  wellFormed arbiter_init
  /\ wellFormed (arb (snd (SmartOCRService.resetFailureTracking s)))
  /\ (wellFormed (arb s) ->
      (forall uri m,
          wellFormed (arb (snd (SmartOCRService.extractTextFromImage uri m s))))
      /\ (forall durationMs,
             wellFormed (arb (snd (SmartOCRService.forceOfflineMode durationMs s))))).
Proof.
  split; [apply wellFormed_cleared; exact arbiter_init|].
  split; [apply wellFormed_cleared; exact arbiter_init|].
  intros Hwf. split.
  - intros uri m.
    destruct (extract_dispatch uri m s) as [Hcool | (a & c & n & Ha & Hgo)].
    + destruct (cooling_call uri m s Hcool) as (Harb & _). now rewrite Harb.
    + rewrite Hgo. apply byMode_wellFormed. cbn [arb].
      destruct Ha as [-> | ->]; [exact Hwf | apply wellFormed_cleared; exact (arb s)].
  - intros durationMs. rewrite forceOfflineMode_run. cbn [snd arb].
    destruct Hwf as [Hpos _]. split; cbn; [exact Hpos | discriminate].
Qed.

Abbreviation Rfails := (Device.device_runtime Scenario.failsOnce).
Abbreviation Pfails := (device_providers Scenario.failsOnce).

Lemma arbiter_statics_well_formed_witness :
  wellFormed
    (arb (snd (@SmartOCRService.extractTextFromImage Device.World Rfails Pfails
                 Scenario.image Auto OnDevice.start)))
  /\ wellFormed
       (arb (snd (@SmartOCRService.forceOfflineMode Device.World Rfails 1000
                    OnDevice.start))).
Proof.
  destruct (arbiter_statics_well_formed Device.World Rfails Pfails OnDevice.start)
    as (Hinit & _ & Hkeep).
  destruct (Hkeep Hinit) as [Hcall Hforce].
  split; [exact (Hcall Scenario.image Auto) | exact (Hforce 1000)].
Defined.

(** X12.  What auto mode lets through.  [extractTextFromImage] in auto mode
    throws only while a cooldown runs, and then what the local provider,
    called directly, has thrown: outside a cooldown every failure of the
    two providers is turned into a result. *)
Theorem auto_mode_throws_only_in_cooldown
    (W : Type) (R : Runtime W) (P : OCRProviders W)
    (uri : string) (s s' : Sys W) (e : JsError) :
  SmartOCRService.extractTextFromImage uri Auto s = (Throw e, s') ->
  cooling s
  /\ fst (Offline_extractTextFromImage uri (after_reads 2 (world s))) = Throw e.
Proof.
  intros Hrun.
  destruct (extract_dispatch uri Auto s) as [Hcool | (a & c & n & _ & Hgo)].
  - split; [exact Hcool|].
    rewrite (extract_cooling uri Auto s Hcool), performOfflineOCR_run in Hrun.
    cbn [world] in Hrun.
    destruct (Offline_extractTextFromImage uri (after_reads 2 (world s)))
      as [[r | e'] w1]; cbn in *; congruence.
  - rewrite Hgo in Hrun.
    destruct (byMode_auto_returns uri (reading 0 (world s))
                (mkSys a c (after_reads n (world s)))) as (r & s1 & E).
    congruence.
Qed.

Abbreviation Rlimited := (Device.device_runtime Cases.alwaysLimited).
Abbreviation Pbroken := (Scenario.noRecogniser Cases.alwaysLimited).
Abbreviation forcedStart :=
  (mkSys (mkArbiter 0 true 1000000) [] Device.world_init).

Lemma auto_mode_throws_only_in_cooldown_witness :
  @cooling Device.World Rlimited forcedStart
  /\ fst (@Offline_extractTextFromImage Device.World Pbroken Scenario.image
            (@after_reads Device.World Rlimited 2 (world forcedStart)))
     = Throw (mkError "TextRecognition is not linked").
Proof.
  assert (Hrun : @SmartOCRService.extractTextFromImage Device.World Rlimited Pbroken
                   Scenario.image Auto forcedStart
                 = (Throw (mkError "TextRecognition is not linked"),
                    snd (@SmartOCRService.extractTextFromImage Device.World Rlimited
                           Pbroken Scenario.image Auto forcedStart)))
    by (vm_compute; reflexivity).
  exact (auto_mode_throws_only_in_cooldown Device.World Rlimited Pbroken
           Scenario.image forcedStart _ _ Hrun).
Defined.

(** X13.  On the device only mode 'online' throws.  With the two providers
    of the repository, a call of [extractTextFromImage] that throws was
    made in mode 'online' while no cooldown was running; calls in mode
    'auto' or 'offline', and every call made during a cooldown, return a
    result. *)
Theorem device_calls_throw_only_online
    (env : Device.Env) (uri : string) (m : Mode) (s s' : Sys Device.World)
    (e : JsError) :
  @SmartOCRService.extractTextFromImage Device.World (Device.device_runtime env)
    (device_providers env) uri m s = (Throw e, s') ->
  m = Online /\ ~ @cooling Device.World (Device.device_runtime env) s.
Proof.
  intros Hrun.
  assert (Hlocal : forall t0 fb s0 e0 s1,
             @SmartOCRService.performOfflineOCR Device.World (Device.device_runtime env)
               (device_providers env) uri t0 fb s0 <> (Throw e0, s1)).
  { intros t0 fb s0 e0 s1. rewrite performOfflineOCR_run.
    cbn [Offline_extractTextFromImage device_providers].
    destruct (offline_provider_never_throws env uri (world s0)) as (r & w1 & E & _).
    rewrite E. discriminate. }
  destruct (@extract_dispatch Device.World (Device.device_runtime env)
              (device_providers env) uri m s) as [Hcool | (a & c & n & _ & Hgo)].
  - exfalso. rewrite (extract_cooling uri m s Hcool) in Hrun.
    exact (Hlocal _ _ _ _ _ Hrun).
  - assert (Hno : ~ @cooling Device.World (Device.device_runtime env) s).
    { intros Hcool. rewrite (extract_cooling uri m s Hcool) in Hrun.
      exact (Hlocal _ _ _ _ _ Hrun). }
    split; [|exact Hno]. rewrite Hgo in Hrun. destruct m; [reflexivity | |].
    + exfalso. cbn [byMode] in Hrun. exact (Hlocal _ _ _ _ _ Hrun).
    + exfalso.
      match type of Hrun with
      | byMode Auto _ ?t0 ?s0 = _ =>
          destruct (@byMode_auto_returns Device.World (Device.device_runtime env)
                      (device_providers env) uri t0 s0) as (r & s1 & E)
      end.
      congruence.
Qed.

Abbreviation Rdevdown := (Device.device_runtime Scenario.remoteDown).
Abbreviation Pdevdown := (device_providers Scenario.remoteDown).

Lemma device_calls_throw_only_online_witness :
  Online = Online /\ ~ @cooling Device.World Rdevdown OnDevice.start.
Proof.
  assert (Hrun : @SmartOCRService.extractTextFromImage Device.World Rdevdown Pdevdown
                   Scenario.image Online OnDevice.start
                 = (Throw (MistralOCRService.apiError Scenario.serverError),
                    snd (@SmartOCRService.extractTextFromImage Device.World Rdevdown
                           Pdevdown Scenario.image Online OnDevice.start)))
    by (vm_compute; reflexivity).
  exact (device_calls_throw_only_online Scenario.remoteDown Scenario.image Online
           OnDevice.start _ _ Hrun).
Defined.

(** X14.  The status is consistent.  [getStatus] changes neither the
    statics nor the console; the time it reports until the remote provider
    is used again is never negative, and it is 0 exactly when
    [canUseOnline] is reported. *)
Theorem status_is_consistent
    (W : Type) (R : Runtime W) (s : Sys W) :
  exists st s',
    SmartOCRStatus.getStatus s = (Ok st, s')
    /\ arb s' = arb s /\ console s' = console s
    /\ 0 <= SmartOCRStatus.timeUntilOnline st
    /\ (SmartOCRStatus.canUseOnline st = true <-> SmartOCRStatus.timeUntilOnline st = 0).
Proof.
  rewrite getStatus_run. eexists; eexists. split; [reflexivity|].
  cbn [arb console SmartOCRStatus.timeUntilOnline SmartOCRStatus.canUseOnline].
  split; [reflexivity|]. split; [reflexivity|].
  destruct (isTemporarilyOffline (arb s)); cbn [negb orb].
  - split; [lia|]. rewrite Z.geb_leb. split.
    + intros Hle. apply Z.leb_le in Hle. lia.
    + intros Hmax. apply Z.leb_le. lia.
  - split; [lia | tauto].
Qed.


Abbreviation cooledDown :=
  (snd (@SmartOCRService.extractTextFromImage Device.World Rdevdown Pdevdown
          Scenario.image Auto
          (snd (@SmartOCRService.extractTextFromImage Device.World Rdevdown Pdevdown
                  Scenario.image Auto OnDevice.start)))).
Abbreviation cooledStatus :=
  (@SmartOCRStatus.getStatus Device.World Rdevdown cooledDown).


(** ** Recommendations, reset and forced cooldown *)

(** X16.  The recommendation follows the flag, not the clock.
    [getRecommendations] recommends 'offline' exactly when the cooldown
    flag is set and never recommends 'online'.  In particular, once the
    cooldown is over and before the next call has cleared the flag, it
    still recommends 'offline', with a retry announced in 0 minutes, while
    [getStatus] already reports that the remote provider can be used. *)
Theorem recommendation_follows_the_flag
    (W : Type) (R : Runtime W) (s : Sys W) :
  exists rec s',
    SmartOCRStatus.getRecommendations s = (Ok rec, s')
    /\ SmartOCRStatus.recommendedMode rec <> Online
    /\ (SmartOCRStatus.recommendedMode rec = Offline
        <-> isTemporarilyOffline (arb s) = true)
    /\ (isTemporarilyOffline (arb s) = true ->
        offlineUntil (arb s) <= reading 0 (world s) ->
        (exists st s1,
            SmartOCRStatus.getStatus s = (Ok st, s1)
            /\ SmartOCRStatus.canUseOnline st = true)
        /\ SmartOCRStatus.recommendedMode rec = Offline
        /\ includes (SmartOCRStatus.reason rec) "Will retry in 0 minutes." = true).
Proof.
  unfold SmartOCRStatus.getRecommendations. unfold bind at 1.
  rewrite getStatus_run. cbn [SmartOCRStatus.st_isTemporarilyOffline].
  destruct (isTemporarilyOffline (arb s)) eqn:Hflag.
  - unfold ret. eexists; eexists. split; [reflexivity|].
    cbn [SmartOCRStatus.recommendedMode SmartOCRStatus.reason
         SmartOCRStatus.st_consecutiveFailures SmartOCRStatus.timeUntilOnline].
    split; [discriminate|]. split; [tauto|].
    intros _ Hover. split; [|split; [reflexivity|]].
    + eexists; eexists. split; [reflexivity|].
      cbn [SmartOCRStatus.canUseOnline negb orb]. rewrite Z.geb_leb.
      apply Z.leb_le. exact Hover.
    + replace (Z.max 0 (offlineUntil (arb s) - reading 0 (world s))) with 0 by lia.
      change (string_of_Z (ceil_div 0 60000)) with "0".
      apply (includes_append_right "API temporarily disabled due to ").
      apply includes_append_right.
      apply (includes_append_right " consecutive failures. ").
      apply includes_prefix. reflexivity.
  - cbn [SmartOCRStatus.st_consecutiveFailures].
    destruct (consecutiveFailures (arb s) >? 0); unfold ret;
      eexists; eexists; (split; [reflexivity|]);
      cbn [SmartOCRStatus.recommendedMode];
      (split; [discriminate|]); (split; [split; discriminate|]);
      intros Habs; discriminate.
Qed.

Abbreviation staleState := (mkSys (mkArbiter 2 true 5000) [] Device.world_init).

Lemma recommendation_follows_the_flag_witness :
  exists rec,
    fst (@SmartOCRStatus.getRecommendations Device.World
           (Device.device_runtime Cases.alwaysLimited) staleState) = Ok rec
    /\ SmartOCRStatus.recommendedMode rec = Offline
    /\ includes (SmartOCRStatus.reason rec) "Will retry in 0 minutes." = true.
Proof.
  destruct (recommendation_follows_the_flag Device.World
              (Device.device_runtime Cases.alwaysLimited) staleState)
    as (rec & s' & Hrun & _ & _ & Hstale).
  exists rec. rewrite Hrun. split; [reflexivity|].
  destruct Hstale as (_ & Hoff & Htext); [reflexivity | vm_compute; discriminate|].
  split; assumption.
Defined.





(** ** DocumentProcessingService: the private [process...] methods *)

(** A text whose first character is no white space does not trim to the
    empty string. *)
Lemma trimEnd_nonblank_head (c : ascii) (rest : string) :
  is_space c = false -> trimEnd (String c rest) <> "".
Proof.
  intros Hc. cbn [trimEnd]. destruct (trimEnd rest); [rewrite Hc|]; discriminate.
Qed.

Lemma trim_nonblank_head (c : ascii) (rest : string) :
  is_space c = false -> 0 < strlen (trim (String c rest)).
Proof.
  intros Hc. unfold trim. cbn [trimStart]. rewrite Hc.
  pose proof (trimEnd_nonblank_head c rest Hc) as Hne.
  destruct (trimEnd (String c rest)); [congruence|].
  unfold strlen. cbn [String.length]. lia.
Qed.

Section DocumentFacts.
Context {W : Type} `{Runtime W} `{OCRProviders W} `{Files W} `{Collaborators W}.

(** [processDocument] around its dispatch: three readings of the clock
    and one random suffix, none of which can fail. *)
Lemma processDocument_run (uri name type : string) (useOnlineOCR : bool) (s : Sys W) :
  match DocumentProcessingService.dispatch uri type useOnlineOCR
          (mkSys (arb s) (console s) (after_reads 1 (world s))) with
  | (Ok ex, s1) =>
      exists doc s2,
        DocumentProcessingService.processDocument uri name type useOnlineOCR s
        = (Ok doc, s2)
        /\ arb s2 = arb s1 /\ console s2 = console s1
        /\ DocumentProcessingService.name doc = name
        /\ DocumentProcessingService.type doc = type
        /\ DocumentProcessingService.extractedText doc
           = DocumentProcessingService.ex_text ex
        /\ DocumentProcessingService.imageDescriptions doc
           = DocumentProcessingService.ex_imageDescriptions ex
        /\ DocumentProcessingService.pageCount doc
           = DocumentProcessingService.ex_pageCount ex
        /\ DocumentProcessingService.doc_wordCount doc
           = wordCount (DocumentProcessingService.ex_text ex)
        /\ DocumentProcessingService.processingMethod doc
           = match DocumentProcessingService.ex_processingMethod ex with
             | Some m => m
             | None => "Unknown"
             end
        /\ DocumentProcessingService.warnings doc
           = match DocumentProcessingService.ex_warnings ex with
             | Some ws => ws
             | None => []
             end
  | (Throw e, s1) =>
      DocumentProcessingService.processDocument uri name type useOnlineOCR s
      = (Throw e, mkSys (arb s1) (console s1 ++ [LogDocumentError name e]) (world s1))
  end.
Proof.
  destruct (DocumentProcessingService.dispatch uri type useOnlineOCR
              (mkSys (arb s) (console s) (after_reads 1 (world s))))
    as [[ex | e] s1] eqn:E;
    unfold DocumentProcessingService.processDocument;
    unfold bind at 1; unfold now at 1; rewrite (reading_0 (world s)); cbn [fst snd];
    unfold try_catch;
    unfold bind at 1; rewrite E; [|reflexivity].
  unfold bind, now, random36, ret.
  destruct (Date_now (world s1)) as [t1 w2]. cbn [fst snd world arb console].
  destruct (Date_now w2) as [t2 w3]. cbn [fst snd world arb console].
  destruct (Math_random36 w3) as [r w4]. cbn [fst snd].
  eexists; eexists. split; [reflexivity|]. cbn. repeat split.
Qed.

(** [processPPTX] catches whatever the enhanced service throws. *)
Lemma processPPTX_run (uri : string) (useOnlineOCR : bool) (s : Sys W) :
  DocumentProcessingService.processPPTX uri useOnlineOCR s
  = match EnhancedPPTXService.extractTextFromPPTX uri useOnlineOCR None s with
    | (Ok pptxResult, s1) =>
        (Ok (DocumentProcessingService.textOnly
               (EnhancedPPTXService.combinedText pptxResult)), s1)
    | (Throw e, s1) =>
        (Ok (DocumentProcessingService.textOnly
               (DocumentProcessingService.pptxFallbackText uri)), s1)
    end.
Proof.
  unfold DocumentProcessingService.processPPTX, try_catch, bind, ret.
  destruct (EnhancedPPTXService.extractTextFromPPTX uri useOnlineOCR None s)
    as [[r | e] s1]; reflexivity.
Qed.

(** A PPTX that cannot be opened. *)
Lemma extractTextFromPPTX_locked (uri : string) (useOnlineOCR : bool)
      (onProgress : Callback EnhancedPPTXService.PPTXSlideInfo)
      (s : Sys W) (e : JsError) (w1 : W) :
  openPPTX uri (after_reads 1 (world s)) = (Throw e, w1) ->
  EnhancedPPTXService.extractTextFromPPTX uri useOnlineOCR onProgress s
  = (Throw (mkError ("Enhanced PPTX processing failed: " ++ message e)),
     mkSys (arb s) (console s) w1).
Proof.
  intros Hopen. unfold EnhancedPPTXService.extractTextFromPPTX.
  unfold bind at 1. unfold now at 1. rewrite (reading_0 (world s)). cbn [fst snd].
  unfold try_catch. unfold bind at 1. unfold lift at 1. cbn [world arb console].
  rewrite Hopen. reflexivity.
Qed.

(** A PDF that cannot be opened. *)
Lemma extractTextFromPDF_locked (uri : string) (useOnlineOCR : bool)
      (onProgress : Callback EnhancedPDFService.PDFPageInfo)
      (s : Sys W) (e : JsError) (w1 : W) :
  openPDF uri (after_reads 1 (world s)) = (Throw e, w1) ->
  EnhancedPDFService.extractTextFromPDF uri useOnlineOCR onProgress s
  = (Throw (mkError ("Enhanced PDF processing failed: " ++ message e)),
     mkSys (arb s) (console s) w1).
Proof.
  intros Hopen. unfold EnhancedPDFService.extractTextFromPDF.
  unfold bind at 1. unfold now at 1. rewrite (reading_0 (world s)). cbn [fst snd].
  unfold try_catch. unfold bind at 1. unfold lift at 1. cbn [world arb console].
  rewrite Hopen. reflexivity.
Qed.


End DocumentFacts.

(** ** Declared types: dispatch, support and labels *)

Lemma prefix_split (p s : string) :
  prefix p s = true -> exists c, s = p ++ c.
Proof.
  revert s. induction p as [|x p IH]; intros s Hp.
  - now exists s.
  - destruct s as [|y s]; cbn in Hp; [discriminate|].
    destruct (ascii_dec x y) as [-> | _]; [|discriminate].
    destruct (IH s Hp) as (c & ->). now exists c.
Qed.

Lemma includes_split (hay needle : string) :
  includes hay needle = true -> exists a c, hay = a ++ needle ++ c.
Proof.
  induction hay as [|x hay IH]; rewrite includes_unfold.
  - destruct (prefix needle "") eqn:Hp; [|discriminate]. intros _.
    destruct (prefix_split _ _ Hp) as (c & Hc). now exists "", c.
  - destruct (prefix needle (String x hay)) eqn:Hp.
    + intros _. destruct (prefix_split _ _ Hp) as (c & Hc). now exists "", c.
    + intros Hin. destruct (IH Hin) as (a & c & ->). now exists (String x a), c.
Qed.

(** A part of a part is a part. *)
Lemma includes_trans (x y z : string) :
  includes x y = true -> includes y z = true -> includes x z = true.
Proof.
  intros Hxy Hyz.
  destruct (includes_split _ _ Hxy) as (a & c & ->).
  destruct (includes_split _ _ Hyz) as (a' & c' & ->).
  rewrite !append_assoc, <- (append_assoc a a'). apply includes_middle.
Qed.

(** X19.  Every listed type is processed.  A declared type that contains
    one of the eight MIME types listed by [isSupportedDocument] is
    reported as supported and is taken by a branch of [processDocument]:
    it never fails with 'Unsupported document type'. *)
Theorem listed_types_are_dispatched (mimeType listed : string) :
  In listed DocumentText.supportedTypes ->
  includes mimeType listed = true ->
  DocumentText.isSupportedDocument mimeType = true
  /\ dispatched mimeType = true.
Proof.
  intros Hlisted Hin.
  assert (Hpart : forall part, includes listed part = true ->
                               includes mimeType part = true)
    by (intros part; apply includes_trans; exact Hin).
  split.
  - unfold DocumentText.isSupportedDocument. apply existsb_exists.
    exists listed. split; [exact Hlisted|]. apply Hpart.
    unfold DocumentText.supportedTypes in Hlisted.
    repeat (destruct Hlisted as [<- | Hlisted]; [vm_compute; reflexivity|]).
    contradiction.
  - assert (Hkind : includes listed "pdf" = true
                    \/ includes listed "word" = true
                    \/ includes listed "presentationml" = true
                    \/ includes listed "image" = true
                    \/ includes listed "text" = true).
    { unfold DocumentText.supportedTypes in Hlisted.
      repeat (destruct Hlisted as [<- | Hlisted];
              [first [ left; vm_compute; reflexivity
                     | right; left; vm_compute; reflexivity
                     | right; right; left; vm_compute; reflexivity
                     | right; right; right; left; vm_compute; reflexivity
                     | right; right; right; right; vm_compute; reflexivity ]|]).
      contradiction. }
    unfold dispatched.
    destruct Hkind as [Hk | [Hk | [Hk | [Hk | Hk]]]]; apply Hpart in Hk; rewrite Hk;
      rewrite ?orb_true_r; reflexivity.
Qed.

Lemma listed_types_are_dispatched_witness :
  DocumentText.isSupportedDocument "text/plain; charset=utf-8" = true
  /\ dispatched "text/plain; charset=utf-8" = true.
Proof.
  apply (listed_types_are_dispatched "text/plain; charset=utf-8" "text/plain").
  - cbn. tauto.
  - vm_compute. reflexivity.
Defined.

(** The converse fails: the type of a legacy Word file is processed (as
    DOCX) although [isSupportedDocument] rejects it, and the bare name of
    a listed subtype is reported as supported although no branch takes it. *)
Lemma support_and_dispatch_differ :
  (DocumentText.isSupportedDocument "application/msword" = false
   /\ dispatched "application/msword" = true)
  /\ (DocumentText.isSupportedDocument "png" = true
      /\ dispatched "png" = false).
Proof. repeat split; vm_compute; reflexivity. Qed.

(** ** Documents by kind *)

(** X20.  A PDF that cannot be opened.  When loading the PDF throws [e],
    [processPDF] hands the file to the basic reader: it returns the
    reader's text as a document of one page, with the method 'Basic
    fallback (enhanced processing failed)' and a warning that carries the
    message of [e], and it throws only what the basic reader throws. *)
Theorem unopenable_pdf_falls_back
    (W : Type) (R : Runtime W) (P : OCRProviders W) (F : Files W) (C : Collaborators W)
    (uri : string) (useOnlineOCR : bool) (s : Sys W) (e : JsError) (w1 : W) :
  openPDF uri (after_reads 1 (world s)) = (Throw e, w1) ->
  DocumentProcessingService.processPDF uri useOnlineOCR s
  = match PDFService_extractTextFromPDF uri (mkSys (arb s) (console s) w1) with
    | (Ok text, s2) =>
        (Ok {| DocumentProcessingService.ex_text := text;
               DocumentProcessingService.ex_imageDescriptions := [];
               DocumentProcessingService.ex_pageCount := Some 1;
               DocumentProcessingService.ex_processingMethod :=
                 Some "Basic fallback (enhanced processing failed)";
               DocumentProcessingService.ex_warnings :=
                 Some ["Enhanced processing failed: Enhanced PDF processing failed: "
                       ++ message e] |}, s2)
    | (Throw e2, s2) => (Throw e2, s2)
    end.
Proof.
  intros Hopen. unfold DocumentProcessingService.processPDF, try_catch.
  unfold bind at 1.
  rewrite (extractTextFromPDF_locked uri useOnlineOCR _ s e w1 Hopen).
  unfold bind, ret. cbn [message].
  destruct (PDFService_extractTextFromPDF uri (mkSys (arb s) (console s) w1))
    as [[text | e2] s2]; reflexivity.
Qed.

Abbreviation Rplain := (Device.device_runtime Scenario.failsOnce).
Abbreviation Pplain := (device_providers Scenario.failsOnce).

Lemma unopenable_pdf_falls_back_witness :
  fst (@DocumentProcessingService.processPDF Device.World Rplain Pplain
         Library.locked Library.basicReader Scenario.paper false OnDevice.start)
  = Ok {| DocumentProcessingService.ex_text := "Text of the first page.";
          DocumentProcessingService.ex_imageDescriptions := [];
          DocumentProcessingService.ex_pageCount := Some 1;
          DocumentProcessingService.ex_processingMethod :=
            Some "Basic fallback (enhanced processing failed)";
          DocumentProcessingService.ex_warnings :=
            Some ["Enhanced processing failed: Enhanced PDF processing failed: Invalid PDF structure"] |}.
Proof.
  assert (Hopen : @openPDF Device.World Library.locked Scenario.paper
                    (@after_reads Device.World Rplain 1 (world OnDevice.start))
                  = (Throw (mkError "Invalid PDF structure"),
                     @after_reads Device.World Rplain 1 (world OnDevice.start)))
    by reflexivity.
  rewrite (unopenable_pdf_falls_back Device.World Rplain Pplain Library.locked
             Library.basicReader Scenario.paper false OnDevice.start _ _ Hopen).
  reflexivity.
Defined.

(** A PDF that opens is never handed to the basic reader.  When the
    PDF loads, [processPDF] returns the result of the enhanced service:
    the page count is the document's, there is one image description per
    page that used OCR, and the method names that number. *)
Theorem opened_pdf_is_processed_by_pages
    (W : Type) (R : Runtime W) (P : OCRProviders W) (F : Files W) (C : Collaborators W)
    (uri : string) (useOnlineOCR : bool) (s : Sys W) (pdfDoc : PdfDoc) (w1 : W) :
  openPDF uri (after_reads 1 (world s)) = (Ok pdfDoc, w1) ->
  exists ex s',
    DocumentProcessingService.processPDF uri useOnlineOCR s = (Ok ex, s')
    /\ DocumentProcessingService.ex_pageCount ex = Some (Z.of_nat (pageCount pdfDoc))
    /\ (List.length (DocumentProcessingService.ex_imageDescriptions ex)
        <= pageCount pdfDoc)%nat
    /\ DocumentProcessingService.ex_processingMethod ex
       = Some ("Enhanced multi-page ("
               ++ string_of_Z (Z.of_nat (List.length
                                           (DocumentProcessingService.ex_imageDescriptions ex)))
               ++ " pages used OCR)").
Proof.
  intros Hopen.
  destruct (extractTextFromPDF_run uri useOnlineOCR (Some (fun _ _ _ => Ok tt)) s
              pdfDoc w1 (fun _ _ _ => eq_refl) Hopen)
    as (r & s' & Hrun & Hlen & Htotal & _).
  unfold DocumentProcessingService.processPDF, try_catch. unfold bind at 1.
  rewrite Hrun. unfold ret. eexists; eexists. split; [reflexivity|].
  cbn [DocumentProcessingService.ex_pageCount
       DocumentProcessingService.ex_imageDescriptions
       DocumentProcessingService.ex_processingMethod].
  rewrite Htotal, length_map. split; [reflexivity|]. split; [|reflexivity].
  rewrite <- Hlen. apply filter_length_le.
Qed.

Lemma opened_pdf_is_processed_by_pages_witness :
  exists ex s',
    @DocumentProcessingService.processPDF Device.World Rplain Pplain
      (Scenario.files (Ok Scenario.scannedPdf) (Throw (mkError "no deck")))
      Library.basicReader Scenario.paper false OnDevice.start = (Ok ex, s')
    /\ DocumentProcessingService.ex_pageCount ex = Some 3.
Proof.
  destruct (opened_pdf_is_processed_by_pages Device.World Rplain Pplain
              (Scenario.files (Ok Scenario.scannedPdf) (Throw (mkError "no deck")))
              Library.basicReader Scenario.paper false OnDevice.start
              Scenario.scannedPdf
              (@after_reads Device.World Rplain 1 (world OnDevice.start)) eq_refl)
    as (ex & s' & Hrun & Hcount & _).
  exists ex, s'. split; [exact Hrun | exact Hcount].
Defined.

(** X21.  Presentations never fail.  A document whose declared type
    contains 'powerpoint' or 'presentationml' (and neither 'pdf' nor
    'word') is always processed: [processDocument] returns a document
    without page count, image descriptions or warnings and with the
    processing method 'Unknown': of what [processPPTX] returns only the
    text and the image descriptions are copied.  When the file cannot be
    opened its text is the fixed advice on PowerPoint files, and the error
    is lost. *)
Theorem presentations_never_fail
    (W : Type) (R : Runtime W) (P : OCRProviders W) (F : Files W) (C : Collaborators W)
    (uri name type : string) (useOnlineOCR : bool) (s : Sys W) :
  includes type "pdf" = false ->
  includes type "word" = false ->
  includes type "powerpoint" = true \/ includes type "presentationml" = true ->
  exists doc s',
    DocumentProcessingService.processDocument uri name type useOnlineOCR s = (Ok doc, s')
    /\ DocumentProcessingService.pageCount doc = None
    /\ DocumentProcessingService.imageDescriptions doc = []
    /\ DocumentProcessingService.warnings doc = []
    /\ DocumentProcessingService.processingMethod doc = "Unknown"
    /\ (forall e w1,
           openPPTX uri (after_reads 2 (world s)) = (Throw e, w1) ->
           DocumentProcessingService.extractedText doc
           = DocumentProcessingService.pptxFallbackText uri).
Proof.
  intros Hpdf Hword Hppt.
  assert (Hml : includes type "officedocument.wordprocessingml" = false).
  { destruct (includes type "officedocument.wordprocessingml") eqn:E; [|reflexivity].
    rewrite (includes_trans type "officedocument.wordprocessingml" "word" E eq_refl)
      in Hword. discriminate. }
  assert (Hkind : includes type "powerpoint" || includes type "presentationml" = true)
    by (destruct Hppt as [-> | ->]; rewrite ?orb_true_r; reflexivity).
  pose proof (processDocument_run uri name type useOnlineOCR s) as Hdoc.
  unfold DocumentProcessingService.dispatch in Hdoc.
  rewrite Hpdf, Hword, Hml, Hkind in Hdoc. cbn [orb] in Hdoc.
  rewrite processPPTX_run in Hdoc.
  destruct (EnhancedPPTXService.extractTextFromPPTX uri useOnlineOCR None
              (mkSys (arb s) (console s) (after_reads 1 (world s))))
    as [[pptxResult | e0] s1] eqn:Hrun;
    destruct Hdoc as (doc & s2 & Hok & _ & _ & _ & _ & Htext & Himg & Hpages & _
                      & Hmethod & Hwarn);
    exists doc, s2; (split; [exact Hok|]);
    (split; [exact Hpages|]); (split; [exact Himg|]);
    (split; [exact Hwarn|]); (split; [exact Hmethod|]);
    intros e w1 Hopen;
    rewrite (extractTextFromPPTX_locked uri useOnlineOCR None
               (mkSys (arb s) (console s) (after_reads 1 (world s))) e w1) in Hrun
      by exact Hopen.
  - discriminate.
  - exact Htext.
Qed.

Lemma presentations_never_fail_witness :
  exists doc s',
    @DocumentProcessingService.processDocument Device.World Rplain Pplain
      Library.locked Library.basicReader Scenario.deck "deck.pptx" Library.pptxMime
      false OnDevice.start = (Ok doc, s')
    /\ DocumentProcessingService.processingMethod doc = "Unknown"
    /\ DocumentProcessingService.extractedText doc
       = DocumentProcessingService.pptxFallbackText Scenario.deck.
Proof.
  destruct (presentations_never_fail Device.World Rplain Pplain Library.locked
              Library.basicReader Scenario.deck "deck.pptx" Library.pptxMime false
              OnDevice.start)
    as (doc & s' & Hrun & _ & _ & _ & Hmethod & Htext);
    [vm_compute; reflexivity | vm_compute; reflexivity
     | right; vm_compute; reflexivity |].
  exists doc, s'. split; [exact Hrun|]. split; [exact Hmethod|].
  apply (Htext (mkError "End of central directory not found")
               (@after_reads Device.World Rplain 2 (world OnDevice.start))).
  reflexivity.
Defined.

(** X22.  Counted as 'Other'.  A document whose declared type contains
    'presentationml' but none of 'pdf', 'word', 'powerpoint' and 'image',
    as the MIME type of a .pptx file does, is processed by [processPPTX],
    yet the batch summary counts it under 'Other' and not under 'PPTX'. *)
Theorem pptx_is_counted_as_other
    (W : Type) (R : Runtime W) (P : OCRProviders W) (F : Files W) (C : Collaborators W)
    (uri type : string) (useOnlineOCR : bool) :
  includes type "presentationml" = true ->
  includes type "pdf" = false ->
  includes type "word" = false ->
  includes type "powerpoint" = false ->
  includes type "image" = false ->
  DocumentProcessingService.dispatch uri type useOnlineOCR
  = DocumentProcessingService.processPPTX uri useOnlineOCR
  /\ DocumentProcessingService.typeLabel type = "Other".
Proof.
  intros Hml Hpdf Hword Hppt Himg.
  assert (Hwml : includes type "officedocument.wordprocessingml" = false).
  { destruct (includes type "officedocument.wordprocessingml") eqn:E; [|reflexivity].
    rewrite (includes_trans type "officedocument.wordprocessingml" "word" E eq_refl)
      in Hword. discriminate. }
  unfold DocumentProcessingService.dispatch, DocumentProcessingService.typeLabel.
  rewrite Hpdf, Hword, Hwml, Hppt, Hml, Himg. split; reflexivity.
Qed.

Lemma pptx_is_counted_as_other_witness :
  @DocumentProcessingService.dispatch Device.World Rplain Pplain Library.locked
    Library.basicReader Scenario.deck Library.pptxMime false
  = @DocumentProcessingService.processPPTX Device.World Rplain Pplain Library.locked
      Scenario.deck false
  /\ DocumentProcessingService.typeLabel Library.pptxMime = "Other".
Proof.
  apply (pptx_is_counted_as_other Device.World Rplain Pplain Library.locked
           Library.basicReader Scenario.deck Library.pptxMime false);
    vm_compute; reflexivity.
Defined.

(** X23.  The text of an image is never blank.  What [processImage]
    returns contains a character that is no white space: the recognised
    text, or the report that no text was detected. *)
Theorem image_text_is_never_blank
    (W : Type) (R : Runtime W) (P : OCRProviders W) (F : Files W) (C : Collaborators W)
    (uri : string) (useOnlineOCR : bool) (s s' : Sys W) (t : string) :
  DocumentProcessingService.processImage uri useOnlineOCR s = (Ok t, s') ->
  0 < strlen (trim t).
Proof.
  unfold DocumentProcessingService.processImage, bind.
  destruct (SmartOCRService.extractTextFromImage uri
              (if useOnlineOCR then Auto else Offline) s) as [[result | e] s1];
    [|discriminate].
  destruct (falsy (text result) || (strlen (trim (text result)) =? 0)) eqn:Hblank;
    unfold ret; intros Hrun; inversion Hrun; subst.
  - unfold DocumentProcessingService.noTextDetected. cbn [append].
    apply trim_nonblank_head. reflexivity.
  - apply orb_false_iff in Hblank. destruct Hblank as [_ Hlen].
    apply Z.eqb_neq in Hlen. unfold strlen in *. lia.
Qed.

Lemma image_text_is_never_blank_witness :
  0 < strlen (trim (DocumentProcessingService.noTextDetected
                      (mkOCRResult "" SrcOffline 0 30000 false))).
Proof.
  apply (image_text_is_never_blank Device.World
           (Device.device_runtime Cases.blindDevice) (device_providers Cases.blindDevice)
           Library.locked Library.basicReader Scenario.image false OnDevice.start
           (snd (@DocumentProcessingService.processImage Device.World
                   (Device.device_runtime Cases.blindDevice)
                   (device_providers Cases.blindDevice)
                   Scenario.image false OnDevice.start))).
  vm_compute. reflexivity.
Defined.


(** ** Chunks of pages and slides *)

Lemma strlen_append (a b : string) : strlen (a ++ b) = strlen a + strlen b.
Proof.
  unfold strlen. induction a as [|x a IH]; cbn [append String.length]; lia.
Qed.

Lemma strlen_nonneg (a : string) : 0 <= strlen a.
Proof. unfold strlen. lia. Qed.

Lemma trimStart_shorter (s : string) : strlen (trimStart s) <= strlen s.
Proof.
  unfold strlen. induction s as [|x s IH]; cbn [trimStart String.length]; [lia|].
  destruct (is_space x); cbn [String.length]; lia.
Qed.

Lemma trimEnd_shorter (s : string) : strlen (trimEnd s) <= strlen s.
Proof.
  unfold strlen. induction s as [|x s IH]; cbn [trimEnd String.length]; [lia|].
  destruct (trimEnd s) as [|y r].
  - destruct (is_space x); cbn [String.length] in *; lia.
  - cbn [String.length] in *. lia.
Qed.

Lemma trim_shorter (s : string) : strlen (trim s) <= strlen s.
Proof.
  unfold trim. pose proof (trimEnd_shorter (trimStart s)). pose proof (trimStart_shorter s).
  lia.
Qed.

Lemma blank_append (a b : string) : blank (a ++ b) = blank a && blank b.
Proof.
  induction a as [|x a IH]; cbn [append blank]; [reflexivity|].
  rewrite IH. now rewrite andb_assoc.
Qed.

Lemma trimStart_blank (s : string) : blank s = false -> blank (trimStart s) = false.
Proof.
  induction s as [|x s IH]; cbn [blank trimStart]; [discriminate|].
  destruct (is_space x) eqn:Hx; cbn [andb]; [exact IH|].
  intros _. cbn [blank]. now rewrite Hx.
Qed.

Lemma trimEnd_blank (s : string) : blank s = false -> trimEnd s <> "".
Proof.
  induction s as [|x s IH]; cbn [blank trimEnd]; [discriminate|].
  destruct (is_space x) eqn:Hx; cbn [andb].
  - intros Hs. specialize (IH Hs). destruct (trimEnd s); [congruence | discriminate].
  - intros _. destruct (trimEnd s); discriminate.
Qed.

Lemma trim_of_ink (s : string) : blank s = false -> falsy (trim s) = false.
Proof.
  intros Hs. unfold trim.
  pose proof (trimEnd_blank _ (trimStart_blank s Hs)) as Hne.
  destruct (trimEnd (trimStart s)); [congruence | reflexivity].
Qed.

Section ChunkFacts.
Context {U : Type}.
Variable number : U -> Z.
Variable text : U -> string.
Variable title : string.
Variable maxChunkSize : Z.

(** The title line of a unit is no white space. *)
Lemma unitText_ink (u : U) : blank (Chunking.unitText number text title u) = false.
Proof.
  unfold Chunking.unitText, nl. cbn [append blank]. reflexivity.
Qed.

Lemma chunkInv_start : chunkInv maxChunkSize [] (Chunking.mkLoop [] [] "" [] 0).
Proof.
  constructor; cbn; try reflexivity; try congruence; try lia.
  - split; reflexivity.
  - constructor.
Qed.

Lemma index_snoc (infos : list Chunking.ChunkInfo) (i : Chunking.ChunkInfo) :
  map Chunking.chunkIndex infos = map Z.of_nat (seq 0 (List.length infos)) ->
  Chunking.chunkIndex i = Z.of_nat (List.length infos) ->
  map Chunking.chunkIndex (infos ++ [i])
  = map Z.of_nat (seq 0 (List.length (infos ++ [i]))).
Proof.
  intros Hmap Hi. rewrite length_app. cbn [List.length].
  rewrite seq_app, !map_app, Hmap. cbn. now rewrite Hi.
Qed.

Lemma chunkInv_step (done : list Z) (st : Chunking.Loop) (u : U) :
  chunkInv maxChunkSize done st ->
  chunkInv maxChunkSize (done ++ [number u])
           (Chunking.step number text title maxChunkSize st u).
Proof.
  intros [Hpart [Hmap Hidx] Hpairs Hempty Hink Hfits]. unfold Chunking.step.
  destruct ((strlen (Chunking.currentChunk st)
             + strlen (Chunking.unitText number text title u) >? maxChunkSize)
            && (strlen (Chunking.currentChunk st) >? 0)) eqn:Hfull.
  - apply andb_true_iff in Hfull. destruct Hfull as [_ Hpos].
    apply Z.gtb_lt in Hpos.
    assert (Hne : Chunking.currentMembers st <> []).
    { intros Hnil. rewrite (Hempty Hnil) in Hpos. cbn in Hpos. lia. }
    constructor; cbn [Chunking.l_chunks Chunking.l_chunkInfo Chunking.currentChunk
                      Chunking.currentMembers Chunking.l_chunkIndex].
    + rewrite map_app, List.concat_app. cbn [map List.concat Chunking.members].
      rewrite app_nil_r, <- Hpart, <- !app_assoc. reflexivity.
    + split.
      * apply index_snoc; [exact Hmap | exact Hidx].
      * rewrite length_app. cbn [List.length]. lia.
    + apply Forall2_app; [exact Hpairs|]. constructor; [|constructor].
      cbn [Chunking.members]. split; [exact Hne|].
      intros Htwo. pose proof (trim_shorter (Chunking.currentChunk st)).
      specialize (Hfits Htwo). lia.
    + discriminate.
    + intros _. apply unitText_ink.
    + cbn [List.length]. lia.
  - constructor; cbn [Chunking.l_chunks Chunking.l_chunkInfo Chunking.currentChunk
                      Chunking.currentMembers Chunking.l_chunkIndex].
    + rewrite app_assoc, Hpart. reflexivity.
    + split; assumption.
    + exact Hpairs.
    + intros Hnil. now apply app_eq_nil in Hnil.
    + intros _. rewrite blank_append, unitText_ink. apply andb_false_r.
    + rewrite length_app. cbn [List.length]. intros Htwo.
      assert (Hne : Chunking.currentMembers st <> [])
        by (destruct (Chunking.currentMembers st); [cbn in Htwo; lia | discriminate]).
      specialize (Hink Hne).
      assert (Hpos : 0 < strlen (Chunking.currentChunk st)).
      { destruct (Chunking.currentChunk st); [discriminate|].
        unfold strlen. cbn [String.length]. lia. }
      apply andb_false_iff in Hfull. rewrite strlen_append.
      destruct Hfull as [Hsum | Hzero].
      * rewrite Z.gtb_ltb in Hsum. apply Z.ltb_ge in Hsum. exact Hsum.
      * rewrite Z.gtb_ltb in Hzero. apply Z.ltb_ge in Hzero. lia.
Qed.

Lemma chunkInv_loop (units : list U) :
  forall (done : list Z) (st : Chunking.Loop),
    chunkInv maxChunkSize done st ->
    chunkInv maxChunkSize (done ++ map number units)
             (fold_left (Chunking.step number text title maxChunkSize) units st).
Proof.
  induction units as [|u units IH]; intros done st Hinv; cbn [fold_left map].
  - now rewrite app_nil_r.
  - replace (done ++ number u :: map number units)%list
      with ((done ++ [number u]) ++ map number units)%list
      by (rewrite <- app_assoc; reflexivity).
    apply IH. now apply chunkInv_step.
Qed.

(** The chunks and their descriptions after the final chunk is added. *)
Lemma chunkUnits_sound (units : list U) :
  let r := Chunking.chunkUnits number text title units maxChunkSize in
  List.length (Chunking.chunks r) = List.length (Chunking.chunkInfo r)
  /\ List.concat (map Chunking.members (Chunking.chunkInfo r)) = map number units
  /\ map Chunking.chunkIndex (Chunking.chunkInfo r)
     = map Z.of_nat (seq 0 (List.length (Chunking.chunkInfo r)))
  /\ Forall2 (fun c i => Chunking.members i <> []
                         /\ ((2 <= List.length (Chunking.members i))%nat ->
                             strlen c <= maxChunkSize))
             (Chunking.chunks r) (Chunking.chunkInfo r).
Proof.
  unfold Chunking.chunkUnits.
  pose proof (chunkInv_loop units [] _ chunkInv_start) as Hinv. cbn [app] in Hinv.
  destruct Hinv as [Hpart [Hmap Hidx] Hpairs Hempty Hink Hfits].
  set (st := fold_left (Chunking.step number text title maxChunkSize) units
                       (Chunking.mkLoop [] [] "" [] 0)) in *.
  unfold Chunking.finish.
  destruct (falsy (trim (Chunking.currentChunk st))) eqn:Hblank;
    cbn [Chunking.chunks Chunking.chunkInfo].
  - assert (Hnil : Chunking.currentMembers st = []).
    { destruct (Chunking.currentMembers st) eqn:E; [reflexivity|].
      rewrite (trim_of_ink _ (Hink ltac:(discriminate))) in Hblank. discriminate. }
    rewrite Hnil, app_nil_r in Hpart.
    split; [exact (Forall2_length Hpairs)|]. split; [exact Hpart|].
    split; [exact Hmap | exact Hpairs].
  - assert (Hne : Chunking.currentMembers st <> []).
    { intros Hnil. rewrite (Hempty Hnil) in Hblank. discriminate. }
    split; [rewrite !length_app, (Forall2_length Hpairs); reflexivity|].
    split.
    + rewrite map_app, List.concat_app. cbn [map List.concat Chunking.members].
      rewrite app_nil_r. exact Hpart.
    + split; [apply index_snoc; [exact Hmap | exact Hidx]|].
      apply Forall2_app; [exact Hpairs|]. constructor; [|constructor].
      cbn [Chunking.members]. split; [exact Hne|].
      intros Htwo. pose proof (trim_shorter (Chunking.currentChunk st)).
      specialize (Hfits Htwo). lia.
Qed.

End ChunkFacts.

(** X25.  Chunks partition the pages and the slides.  [chunkPDFText] and
    [chunkPPTXText] return as many chunks as descriptions, numbered from 0
    in order; the page (slide) numbers of the descriptions, put together
    in order, are the numbers of the pages (slides) of the result, so each
    page lies in exactly one chunk and none is dropped; no chunk is empty
    of pages, and a chunk that holds two or more pages has at most
    [maxChunkSize] characters. *)
Theorem chunks_partition_the_units
    (pdfResult : EnhancedPDFService.EnhancedPDFResult)
    (pptxResult : EnhancedPPTXService.EnhancedPPTXResult) (maxChunkSize : Z) :
  (let r := chunkPDFText pdfResult maxChunkSize in
   List.length (Chunking.chunks r) = List.length (Chunking.chunkInfo r)
   /\ List.concat (map Chunking.members (Chunking.chunkInfo r))
      = map EnhancedPDFService.pageNumber (EnhancedPDFService.pages pdfResult)
   /\ map Chunking.chunkIndex (Chunking.chunkInfo r)
      = map Z.of_nat (seq 0 (List.length (Chunking.chunkInfo r)))
   /\ Forall2 (fun c i => Chunking.members i <> []
                          /\ ((2 <= List.length (Chunking.members i))%nat ->
                              strlen c <= maxChunkSize))
              (Chunking.chunks r) (Chunking.chunkInfo r))
  /\ (let r := chunkPPTXText pptxResult maxChunkSize in
      List.length (Chunking.chunks r) = List.length (Chunking.chunkInfo r)
      /\ List.concat (map Chunking.members (Chunking.chunkInfo r))
         = map EnhancedPPTXService.slideNumber (EnhancedPPTXService.slides pptxResult)
      /\ map Chunking.chunkIndex (Chunking.chunkInfo r)
         = map Z.of_nat (seq 0 (List.length (Chunking.chunkInfo r)))
      /\ Forall2 (fun c i => Chunking.members i <> []
                             /\ ((2 <= List.length (Chunking.members i))%nat ->
                                 strlen c <= maxChunkSize))
                 (Chunking.chunks r) (Chunking.chunkInfo r)).
Proof.
  split.
  - exact (chunkUnits_sound EnhancedPDFService.pageNumber EnhancedPDFService.page_text
             "Page" maxChunkSize (EnhancedPDFService.pages pdfResult)).
  - exact (chunkUnits_sound EnhancedPPTXService.slideNumber
             EnhancedPPTXService.slide_text "Slide" maxChunkSize
             (EnhancedPPTXService.slides pptxResult)).
Qed.

(** Three pages of 40 characters chunked at 100: the first two pages share
    a chunk, the third gets its own; at 10 every page is a chunk longer
    than the limit. *)
Lemma chunking_three_pages :
  let page n := EnhancedPDFService.mkPage n "Forty characters of text on this page..." 7 10 false in
  let doc := EnhancedPDFService.mkResult [page 1; page 2; page 3] "" 3 21 30 "" in
  map Chunking.members (Chunking.chunkInfo (chunkPDFText doc 130)) = [[1; 2]; [3]]
  /\ map Chunking.range (Chunking.chunkInfo (chunkPDFText doc 130)) = ["1-2"; "3"]
  /\ map Chunking.range (Chunking.chunkInfo (chunkPDFText doc 10)) = ["1-1"; "2-2"; "3"]
  /\ map strlen (Chunking.chunks (chunkPDFText doc 10)) = [55; 55; 55].
Proof. vm_compute. repeat split. Qed.

(** ** Chunks of a text *)

Lemma length_substring_le (s : string) :
  forall n m : nat, (String.length (substring n m s) <= m)%nat.
Proof.
  induction s as [|x s IH]; intros n m.
  - destruct n, m; cbn; lia.
  - destruct n as [|n]; cbn [substring].
    + destruct m as [|m]; cbn [String.length]; [lia|]. specialize (IH 0%nat m). lia.
    + apply IH.
Qed.

Lemma length_substring_rest (s : string) :
  forall n m : nat, (String.length (substring n m s) <= String.length s - n)%nat.
Proof.
  induction s as [|x s IH]; intros n m.
  - destruct n, m; cbn; lia.
  - destruct n as [|n]; cbn [substring].
    + destruct m as [|m]; cbn [String.length]; [lia|]. specialize (IH 0%nat m). lia.
    + cbn [String.length]. specialize (IH n m). lia.
Qed.

(** A slice from [start] within the text has at most [stop - start]
    characters and ends within the text. *)
Lemma slice_length (s : string) (start stop : Z) :
  0 <= start <= strlen s ->
  0 <= stop ->
  strlen (DocumentText.slice s start stop) <= Z.max 0 (Z.min stop (strlen s) - start).
Proof.
  intros Hstart Hstop. unfold DocumentText.slice, DocumentText.sliceIndex.
  assert (Hs : (start <? 0) = false) by (apply Z.ltb_ge; lia).
  assert (Ht : (stop <? 0) = false) by (apply Z.ltb_ge; lia).
  rewrite Hs, Ht. replace (Z.min start (strlen s)) with start by lia.
  pose proof (length_substring_le s (Z.to_nat start)
                (Z.to_nat (Z.min stop (strlen s) - start))) as H1.
  unfold strlen in *. lia.
Qed.

(** [lastIndexOf] gives -1 or an index of the text at most [fromIndex]. *)
Lemma lastIndexFrom_range (s : string) (c : ascii) (fromIndex : Z) :
  forall i found : Z,
    DocumentText.lastIndexFrom s c fromIndex i found = found
    \/ (i <= DocumentText.lastIndexFrom s c fromIndex i found
        /\ DocumentText.lastIndexFrom s c fromIndex i found < i + strlen s
        /\ DocumentText.lastIndexFrom s c fromIndex i found <= Z.max 0 fromIndex).
Proof.
  induction s as [|x s IH]; intros i found; cbn [DocumentText.lastIndexFrom].
  - now left.
  - assert (Hlen : strlen (String x s) = 1 + strlen s)
      by (unfold strlen; cbn [String.length]; lia).
    pose proof (strlen_nonneg s) as Hpos.
    destruct (Ascii.eqb x c && (i <=? Z.max 0 fromIndex)) eqn:Hhit.
    + apply andb_true_iff in Hhit. destruct Hhit as [_ Hle]. apply Z.leb_le in Hle.
      destruct (IH (i + 1) i) as [-> | (H1 & H2 & H3)]; right; lia.
    + destruct (IH (i + 1) found) as [-> | (H1 & H2 & H3)]; [now left | right; lia].
Qed.

Lemma lastIndexOf_range (s : string) (c : ascii) (fromIndex : Z) :
  -1 <= DocumentText.lastIndexOf s c fromIndex
  /\ DocumentText.lastIndexOf s c fromIndex < Z.max 1 (strlen s)
  /\ DocumentText.lastIndexOf s c fromIndex <= Z.max 0 fromIndex.
Proof.
  unfold DocumentText.lastIndexOf.
  pose proof (strlen_nonneg s).
  destruct (lastIndexFrom_range s c fromIndex 0 (-1)) as [-> | (H1 & H2 & H3)]; lia.
Qed.

(** Beyond [fromIndex] nothing is found. *)
Lemma lastIndexFrom_beyond (s : string) (c : ascii) (fromIndex : Z) :
  forall i found : Z,
    Z.max 0 fromIndex < i ->
    DocumentText.lastIndexFrom s c fromIndex i found = found.
Proof.
  induction s as [|x s IH]; intros i found Hi; cbn [DocumentText.lastIndexFrom].
  - reflexivity.
  - assert (Hno : (i <=? Z.max 0 fromIndex) = false) by (apply Z.leb_gt; exact Hi).
    rewrite Hno, andb_false_r. apply IH. lia.
Qed.

(** The double nearest to a count of units differs from it by at most its
    [2^53]th part. *)
Lemma round53_error (n : Z) :
  0 <= n -> n - n / 2 ^ 53 <= Double.round53 n <= n + n / 2 ^ 53.
Proof.
  intros Hn. unfold Double.round53. rewrite (Z.abs_eq n Hn).
  destruct (Z.log2 n + 1 <=? 53) eqn:Hbits.
  - pose proof (Z.div_pos n (2 ^ 53) Hn ltac:(lia)). lia.
  - apply Z.leb_gt in Hbits.
    assert (Hpos : 0 < n).
    { destruct (Z.eq_dec n 0) as [-> | Hne]; [cbn in Hbits; lia | lia]. }
    set (shift := Z.log2 n + 1 - 53) in *.
    assert (Hshift : 1 <= shift) by (unfold shift; lia).
    rewrite (Z.sgn_pos n Hpos), Z.mul_1_l.
    rewrite !Z.shiftl_mul_pow2, Z.shiftr_div_pow2 by lia.
    rewrite Z.mul_1_l.
    pose proof (Z.div_mod n (2 ^ shift) ltac:(apply Z.pow_nonzero; lia)) as Hdm.
    pose proof (Z.mod_pos_bound n (2 ^ shift) ltac:(apply Z.pow_pos_nonneg; lia)) as Hmod.
    assert (Hhalf : 2 ^ shift = 2 * 2 ^ (shift - 1)).
    { replace shift with (Z.succ (shift - 1)) at 1 by lia.
      rewrite Z.pow_succ_r by lia. reflexivity. }
    assert (Hrel : 2 ^ (shift - 1) <= n / 2 ^ 53).
    { apply Z.div_le_lower_bound; [lia|].
      rewrite <- Z.pow_add_r by lia.
      replace (53 + (shift - 1)) with (Z.log2 n) by (unfold shift; lia).
      apply Z.log2_spec. exact Hpos. }
    set (q := n / 2 ^ shift) in *. set (r := n mod 2 ^ shift) in *.
    set (h := 2 ^ (shift - 1)) in *.
    replace (n - q * 2 ^ shift) with r by lia.
    destruct ((r >? h) || ((r =? h) && Z.odd q)) eqn:Hup.
    + assert (h <= r).
      { apply orb_true_iff in Hup. destruct Hup as [Hgt | Heq].
        - apply Z.gtb_lt in Hgt. lia.
        - apply andb_true_iff in Heq. destruct Heq as [Heq _].
          apply Z.eqb_eq in Heq. lia. }
      nia.
    + assert (r <= h).
      { apply orb_false_iff in Hup. destruct Hup as [Hgt _].
        rewrite Z.gtb_ltb in Hgt. apply Z.ltb_ge in Hgt. exact Hgt. }
      nia.
Qed.

(** [m * 0.7] is not negative and not more than [m], for [m >= 0]. *)
Lemma times07_range (m : Z) :
  0 <= m -> 0 <= Double.times07 m <= m * Double.one.
Proof.
  intros Hm. unfold Double.times07, Double.point7, Double.one.
  pose proof (round53_error (m * 3152519739159347) ltac:(lia)) as Herr.
  assert (Hq : 0 <= m * 3152519739159347 / 2 ^ 53 <= m).
  { split; [apply Z.div_pos; lia|].
    apply Z.div_le_upper_bound; [lia|].
    change (2 ^ 53) with 9007199254740992. nia. }
  change (2 ^ 52) with 4503599627370496. lia.
Qed.

(** Below [2^53] a sum [i + m * 0.7] is more than [i - 1]. *)
Lemma plus_times07_lower (i m : Z) :
  0 <= i -> 0 <= m -> i + m < 2 ^ 53 ->
  (i - 1) * Double.one < Double.plus_times07 i m.
Proof.
  intros Hi Hm Hsmall. unfold Double.plus_times07.
  pose proof (times07_range m Hm) as Hp.
  pose proof (round53_error (i * Double.one + Double.times07 m)
                ltac:(unfold Double.one in *; lia)) as Herr.
  assert (Hq : (i * Double.one + Double.times07 m) / 2 ^ 53 < Double.one).
  { apply Z.div_lt_upper_bound; [lia|].
    unfold Double.one in *. change (2 ^ 53) with 9007199254740992 in *.
    change (2 ^ 52) with 4503599627370496 in *. nia. }
  unfold Double.one in *. change (2 ^ 52) with 4503599627370496 in *. lia.
Qed.

(** With a positive chunk size every turn of the loop moves on, by at
    most [maxChunkSize + 1] characters. *)
Lemma chunkEndFrom_range (text : string) (maxChunkSize currentIndex : Z) :
  1 <= maxChunkSize ->
  0 <= currentIndex ->
  strlen text < 2 ^ 53 ->
  currentIndex < DocumentText.chunkEndFrom text maxChunkSize currentIndex
  <= currentIndex + maxChunkSize + 1.
Proof.
  intros Hmax Hci Hlen. unfold DocumentText.chunkEndFrom.
  destruct (currentIndex + maxChunkSize <? strlen text) eqn:Hin; [|lia].
  apply Z.ltb_lt in Hin.
  pose proof (lastIndexOf_range text DocumentText.period (currentIndex + maxChunkSize)).
  pose proof (lastIndexOf_range text DocumentText.newline (currentIndex + maxChunkSize)).
  destruct (Double.gt (Z.max (DocumentText.lastIndexOf text DocumentText.period
                                (currentIndex + maxChunkSize))
                             (DocumentText.lastIndexOf text DocumentText.newline
                                (currentIndex + maxChunkSize)))
                      (Double.plus_times07 currentIndex maxChunkSize)) eqn:Hbreak; [|lia].
  unfold Double.gt in Hbreak. apply Z.gtb_lt in Hbreak.
  pose proof (plus_times07_lower currentIndex maxChunkSize Hci ltac:(lia) ltac:(lia))
    as Hlow.
  unfold Double.one in *. change (2 ^ 52) with 4503599627370496 in *. lia.
Qed.

Lemma sumZ_snoc (l : list Z) (x : Z) : sumZ (l ++ [x]) = sumZ l + x.
Proof. unfold sumZ. rewrite fold_left_app. reflexivity. Qed.

(** The loop ends within as many turns as characters are left. *)
Lemma chunkLoop_ends (text : string) (maxChunkSize : Z) :
  1 <= maxChunkSize ->
  strlen text < 2 ^ 53 ->
  forall (fuel : nat) (currentIndex : Z) (chunks : list string),
    0 <= currentIndex ->
    (Z.to_nat (strlen text - currentIndex) <= fuel)%nat ->
    Forall (fun c => strlen c <= maxChunkSize + 1) chunks ->
    sumZ (map strlen chunks) <= Z.min currentIndex (strlen text) ->
    exists out,
      DocumentText.chunkLoop fuel text maxChunkSize currentIndex chunks = Some out
      /\ Forall (fun c => strlen c <= maxChunkSize + 1) out
      /\ sumZ (map strlen out) <= strlen text
      /\ (List.length chunks <= List.length out)%nat.
Proof.
  intros Hmax Hlen. induction fuel as [|fuel IH]; intros ci chunks Hci Hfuel Hall Hsum.
  - cbn [DocumentText.chunkLoop].
    assert (Hdone : (ci <? strlen text) = false) by (apply Z.ltb_ge; lia).
    rewrite Hdone. exists chunks. repeat split; [exact Hall | lia | lia].
  - cbn [DocumentText.chunkLoop].
    destruct (ci <? strlen text) eqn:Hmore.
    + apply Z.ltb_lt in Hmore.
      pose proof (chunkEndFrom_range text maxChunkSize ci Hmax Hci Hlen) as Hend.
      pose proof (slice_length text ci (DocumentText.chunkEndFrom text maxChunkSize ci)
                    ltac:(lia) ltac:(lia)) as Hslice.
      pose proof (trim_shorter
                    (DocumentText.slice text ci
                       (DocumentText.chunkEndFrom text maxChunkSize ci))) as Htrim.
      destruct (IH (DocumentText.chunkEndFrom text maxChunkSize ci)
                   (chunks ++ [trim (DocumentText.slice text ci
                                       (DocumentText.chunkEndFrom text maxChunkSize ci))])%list)
        as (out & Hout & Hforall & Htotal & Hcount).
      * lia.
      * lia.
      * apply Forall_app. split; [exact Hall|]. constructor; [lia | constructor].
      * rewrite map_app. cbn [map]. rewrite sumZ_snoc. lia.
      * exists out. split; [exact Hout|]. split; [exact Hforall|]. split; [exact Htotal|].
        rewrite length_app in Hcount. cbn [List.length] in Hcount. lia.
    + apply Z.ltb_ge in Hmore. exists chunks. repeat split; [exact Hall | lia | lia].
Qed.

(** X26.  Chunks of a text.  With a chunk size of at least 1 and a text
    of fewer than [2^53] characters (every JavaScript string is),
    [chunkTextForAPI] ends after at most as many turns of its loop as the
    text has characters and returns at least one chunk.  No chunk has more
    than [maxChunkSize + 1] characters (a chunk cut after a full stop or
    line break found at the limit is one longer than the limit), and the
    chunks together are not longer than the text. *)
Theorem text_chunks_are_bounded (text : string) (maxChunkSize : Z) :
  1 <= maxChunkSize ->
  strlen text < 2 ^ 53 ->
  exists chunks,
    DocumentText.chunkTextForAPI (String.length text) text maxChunkSize = Some chunks
    /\ chunks <> []
    /\ Forall (fun c => strlen c <= maxChunkSize + 1) chunks
    /\ sumZ (map strlen chunks) <= strlen text.
Proof.
  intros Hmax Hlen. unfold DocumentText.chunkTextForAPI.
  destruct (strlen text <=? maxChunkSize) eqn:Hshort.
  - apply Z.leb_le in Hshort. exists [text]. split; [reflexivity|].
    split; [discriminate|]. split; [constructor; [lia | constructor]|].
    unfold sumZ. cbn. lia.
  - apply Z.leb_gt in Hshort.
    assert (Hturn : exists out,
               DocumentText.chunkLoop (String.length text) text maxChunkSize 0 []
               = Some out
               /\ Forall (fun c => strlen c <= maxChunkSize + 1) out
               /\ sumZ (map strlen out) <= strlen text
               /\ (List.length (@nil string) <= List.length out)%nat).
    { apply (chunkLoop_ends text maxChunkSize Hmax Hlen);
        [lia | unfold strlen; lia | constructor |].
      unfold sumZ. cbn. pose proof (strlen_nonneg text). lia. }
    destruct Hturn as (out & Hout & Hall & Hsum & _).
    exists out. split; [exact Hout|]. split; [|split; assumption].
    intros ->. destruct text as [|x text]; [cbn in Hshort; lia|].
    cbn [String.length DocumentText.chunkLoop] in Hout.
    assert (Hfirst : (0 <? strlen (String x text)) = true)
      by (apply Z.ltb_lt; unfold strlen; cbn [String.length]; lia).
    rewrite Hfirst in Hout.
    pose proof (chunkEndFrom_range (String x text) maxChunkSize 0 Hmax ltac:(lia) Hlen)
      as Hend.
    pose proof (slice_length (String x text) 0
                  (DocumentText.chunkEndFrom (String x text) maxChunkSize 0)
                  ltac:(pose proof (strlen_nonneg (String x text)); lia)
                  ltac:(lia)) as Hslice.
    pose proof (trim_shorter
                  (DocumentText.slice (String x text) 0
                     (DocumentText.chunkEndFrom (String x text) maxChunkSize 0)))
      as Htrim.
    destruct (chunkLoop_ends (String x text) maxChunkSize Hmax Hlen (String.length text)
                (DocumentText.chunkEndFrom (String x text) maxChunkSize 0)
                ([] ++ [trim (DocumentText.slice (String x text) 0
                                (DocumentText.chunkEndFrom (String x text) maxChunkSize 0))])%list)
      as (out' & Hout' & _ & _ & Hcount).
    + lia.
    + unfold strlen. cbn [String.length]. lia.
    + constructor; [|constructor]. lia.
    + cbn [app map]. unfold sumZ. cbn [fold_left]. lia.
    + rewrite Hout' in Hout. inversion Hout. subst out'. cbn in Hcount. lia.
Qed.

Lemma text_chunks_are_bounded_witness :
  exists chunks,
    DocumentText.chunkTextForAPI 21 "aaaaaaaaaa.bbbbbbbbbb" 10 = Some chunks
    /\ chunks <> []
    /\ Forall (fun c => strlen c <= 11) chunks
    /\ sumZ (map strlen chunks) <= 21.
Proof.
  apply (text_chunks_are_bounded "aaaaaaaaaa.bbbbbbbbbb" 10); [lia|].
  vm_compute. reflexivity.
Defined.

(** The bound is reached: the first chunk has 11 characters at a chunk
    size of 10. *)
Lemma chunk_longer_than_the_limit :
  DocumentText.chunkTextForAPI 21 "aaaaaaaaaa.bbbbbbbbbb" 10
  = Some ["aaaaaaaaaa."; "bbbbbbbbbb"].
Proof. vm_compute. reflexivity. Qed.

(** The product with [0.7] is rounded: [90 * 0.7] is the double just
    below 63, so with a chunk size of 90 a full stop at index 63 is taken
    as the end of the chunk, although 63 is not more than 70% of 90. *)
Lemma chunk_cut_at_seventy_percent :
  Double.times07 90 = 63 * Double.one - 32
  /\ Double.times07 10 = 7 * Double.one
  /\ match DocumentText.chunkTextForAPI 120
             ("aaaaaaaaaaaaaaaaaaaaaaaaaaaaaaaaaaaaaaaaaaaaaaaaaaaaaaaaaaaaaaa."
              ++ "bbbbbbbbbbbbbbbbbbbbbbbbbbbbbbbbbbbbbbbbbbbbbbbbbbbbbbbb") 90 with
     | Some chunks => map strlen chunks = [64; 56]
     | None => False
     end.
Proof. vm_compute. repeat split. Qed.

(** X27.  A chunk size of 0 never ends.  With [maxChunkSize = 0] and a
    text that is not empty and does not start with a full stop or a line
    break, the loop of [chunkTextForAPI] stays at index 0: whatever the
    number of turns allowed, it has not returned. *)
Theorem zero_chunk_size_never_ends (c : ascii) (rest : string) (fuel : nat) :
  Ascii.eqb c DocumentText.period = false ->
  Ascii.eqb c DocumentText.newline = false ->
  DocumentText.chunkTextForAPI fuel (String c rest) 0 = None.
Proof.
  intros Hperiod Hnewline. unfold DocumentText.chunkTextForAPI.
  pose proof (strlen_nonneg rest) as Hrest.
  assert (Hlen : strlen (String c rest) = 1 + strlen rest)
    by (unfold strlen; cbn [String.length]; lia).
  assert (Hlong : (strlen (String c rest) <=? 0) = false) by (apply Z.leb_gt; lia).
  rewrite Hlong.
  assert (Hstay : DocumentText.chunkEndFrom (String c rest) 0 0 = 0).
  { unfold DocumentText.chunkEndFrom. cbn [Z.add].
    assert (Hin : (0 <? strlen (String c rest)) = true) by (apply Z.ltb_lt; lia).
    rewrite Hin. unfold DocumentText.lastIndexOf. cbn [DocumentText.lastIndexFrom].
    rewrite Hperiod, Hnewline. cbn [andb].
    rewrite !lastIndexFrom_beyond by lia. reflexivity. }
  assert (Hloop : forall chunks,
             DocumentText.chunkLoop fuel (String c rest) 0 0 chunks = None).
  { induction fuel as [|fuel IH]; intros chunks; cbn [DocumentText.chunkLoop];
      (assert (Hin : (0 <? strlen (String c rest)) = true) by (apply Z.ltb_lt; lia));
      rewrite Hin; [reflexivity|].
    rewrite Hstay. apply IH. }
  apply Hloop.
Qed.

Lemma zero_chunk_size_never_ends_witness :
  DocumentText.chunkTextForAPI 1000 "notes" 0 = None.
Proof.
  apply (zero_chunk_size_never_ends "n"%char "otes" 1000); reflexivity.
Defined.

(** X28.  When a text should be chunked.  For a text of [textLength]
    characters [getProcessingRecommendation] estimates the least number of
    tokens of 4 characters that hold it, and it advises chunking exactly
    when the text has more than 400000 characters; the advice for a very
    large document is given exactly beyond 1600000 characters. *)
Theorem chunking_advice_thresholds (textLength : Z) :
  let r := DocumentText.getProcessingRecommendation textLength in
  4 * (DocumentText.estimatedTokens r - 1) < textLength
  /\ textLength <= 4 * DocumentText.estimatedTokens r
  /\ (DocumentText.shouldChunk r = true <-> 400000 < textLength)
  /\ (DocumentText.recommendation r
      = "Document is very large. Consider using offline mode or chunking for online processing."
      <-> 1600000 < textLength).
Proof.
  cbv zeta. unfold DocumentText.getProcessingRecommendation, ceil_div.
  pose proof (Z.div_mod (- textLength) 4 ltac:(lia)) as Hdiv.
  pose proof (Z.mod_pos_bound (- textLength) 4 ltac:(lia)) as Hmod.
  set (q := (- textLength) / 4) in *.
  destruct (- q >? 400000) eqn:Hbig.
  - apply Z.gtb_lt in Hbig.
    cbn [DocumentText.estimatedTokens DocumentText.shouldChunk
         DocumentText.recommendation].
    split; [lia|]. split; [lia|]. split; [split; [lia | reflexivity]|].
    split; [lia | reflexivity].
  - rewrite Z.gtb_ltb in Hbig. apply Z.ltb_ge in Hbig.
    destruct (- q >? 100000) eqn:Hmid.
    + apply Z.gtb_lt in Hmid.
      cbn [DocumentText.estimatedTokens DocumentText.shouldChunk
           DocumentText.recommendation].
      split; [lia|]. split; [lia|]. split; [split; [lia | reflexivity]|].
      split; [discriminate | lia].
    + rewrite Z.gtb_ltb in Hmid. apply Z.ltb_ge in Hmid.
      cbn [DocumentText.estimatedTokens DocumentText.shouldChunk
           DocumentText.recommendation].
      split; [lia|]. split; [lia|]. split; [split; [discriminate | lia]|].
      split; [discriminate | lia].
Qed.

(** ** Batches of documents: the combined text and the summary *)

Lemma includes_append_left (a b needle : string) :
  includes a needle = true -> includes (a ++ b) needle = true.
Proof.
  intros Hin. destruct (includes_split _ _ Hin) as (p & q & ->).
  rewrite !append_assoc. apply includes_middle.
Qed.

Lemma includes_refl (a : string) : includes a a = true.
Proof.
  pose proof (includes_middle "" a "") as Hin. cbn [append] in Hin.
  now rewrite append_nil_r in Hin.
Qed.

Lemma includes_join (sep : string) (xs : list string) (x needle : string) :
  In x xs -> includes x needle = true -> includes (join sep xs) needle = true.
Proof.
  intros Hx Hin. induction xs as [|y xs IH]; [contradiction|].
  destruct Hx as [-> | Hx].
  - destruct xs as [|z xs]; cbn [join]; [exact Hin|].
    now apply includes_append_left.
  - specialize (IH Hx). destruct xs as [|z xs]; [contradiction|].
    cbn [join]. apply includes_append_right. apply includes_append_right. exact IH.
Qed.

(** X29.  The combined text holds every document.  For each document
    handed to [combineDocumentContent], the combined text contains its
    title line followed by its extracted text. *)
Theorem combined_text_holds_every_document
    (documents : list DocumentProcessingService.ProcessedDocument)
    (doc : DocumentProcessingService.ProcessedDocument) :
  In doc documents ->
  includes (DocumentProcessingService.combineDocumentContent documents)
           ("=== " ++ DocumentProcessingService.name doc ++ " ===" ++ nl
            ++ DocumentProcessingService.extractedText doc) = true.
Proof.
  intros Hdoc. unfold DocumentProcessingService.combineDocumentContent.
  eapply includes_join.
  - apply in_map. exact Hdoc.
  - cbv beta zeta.
    destruct (0 <? Z.of_nat (List.length (DocumentProcessingService.imageDescriptions doc))).
    + apply includes_append_left, includes_refl.
    + apply includes_refl.
Qed.

Lemma combined_text_holds_every_document_witness :
  let first := DocumentProcessingService.mkProcessed "1" "a.txt" "text/plain" "alpha" []
                 None 1 1 "Unknown" [] in
  let second := DocumentProcessingService.mkProcessed "2" "b.png" "image/png" "beta"
                  ["a chart"] None 1 1 "Unknown" [] in
  includes (DocumentProcessingService.combineDocumentContent [first; second])
           ("=== b.png ===" ++ nl ++ "beta") = true.
Proof.
  cbv zeta.
  apply (combined_text_holds_every_document
           [DocumentProcessingService.mkProcessed "1" "a.txt" "text/plain" "alpha" []
              None 1 1 "Unknown" [];
            DocumentProcessingService.mkProcessed "2" "b.png" "image/png" "beta"
              ["a chart"] None 1 1 "Unknown" []]
           (DocumentProcessingService.mkProcessed "2" "b.png" "image/png" "beta"
              ["a chart"] None 1 1 "Unknown" [])).
  right. left. reflexivity.
Defined.

Section EmptyBatch.
Context {W : Type} `{Runtime W} `{OCRProviders W} `{Files W} `{Collaborators W}.

(** Documents that no branch takes leave the list of results as it is,
    and two lines each on the console. *)
Lemma unsupported_loop_run (useOnlineOCR : bool)
      (docs : list DocumentProcessingService.DocumentRef) :
  Forall (fun d => dispatched (DocumentProcessingService.ref_type d) = false) docs ->
  forall (i : Z) (acc : list DocumentProcessingService.ProcessedDocument) (s : Sys W),
  exists s',
    for_each (fun _ doc => DocumentProcessingService.batchBody useOnlineOCR doc)
             i docs (acc, s)
    = (Ok tt, (acc, s'))
    /\ arb s' = arb s
    /\ console s' = (console s ++ unsupportedLines docs)%list.
Proof.
  induction 1 as [|doc docs Hno _ IH]; intros i acc s; cbn [for_each].
  - exists s. repeat split. cbn. now rewrite app_nil_r.
  - unfold bind at 1. rewrite batchBody_run.
    rewrite (processDocument_unsupported _ _ _ useOnlineOCR s Hno).
    cbn [arb console world].
    match goal with
    | |- context [for_each _ (i + 1) docs (acc, ?s1)] =>
        destruct (IH (i + 1) acc s1) as (s' & Hrest & Harb & Hlog)
    end.
    exists s'. cbn [arb console world] in *. rewrite Hrest.
    split; [reflexivity|]. split; [exact Harb|].
    rewrite Hlog. unfold unsupportedLines. cbn [flat_map].
    rewrite <- !app_assoc. reflexivity.
Qed.

End EmptyBatch.

(** X30.  A batch without results.  When no document of the batch has a
    type that [processDocument] takes (in particular for the empty batch),
    [processBatch] still returns: no documents, the empty combined text, 0
    words, and a summary that reports 0 documents and 'NaN' as the average
    number of words per document.  Each document has left two error lines
    on the console, in input order: the one written by the [catch] of
    [processDocument] before it rethrows, then the one written by the
    [catch] of [processBatch]. *)
Theorem batch_without_results_reports_nan
    (W : Type) (R : Runtime W) (P : OCRProviders W) (F : Files W) (C : Collaborators W)
    (documents : list DocumentProcessingService.DocumentRef) (useOnlineOCR : bool)
    (s : Sys W) :
  Forall (fun d => dispatched (DocumentProcessingService.ref_type d) = false) documents ->
  exists r s',
    DocumentProcessingService.processBatch documents useOnlineOCR s = (Ok r, s')
    /\ DocumentProcessingService.documents r = []
    /\ DocumentProcessingService.combinedText r = ""
    /\ DocumentProcessingService.totalWordCount r = 0
    /\ includes (DocumentProcessingService.summary r) "0 documents processed" = true
    /\ includes (DocumentProcessingService.summary r) "(avg: NaN per doc)" = true
    /\ console s' = (console s ++ unsupportedLines documents)%list
    /\ List.length (console s')
       = (List.length (console s) + 2 * List.length documents)%nat.
Proof.
  intros Hnone. unfold DocumentProcessingService.processBatch.
  unfold bind at 1. unfold now at 1. destruct (Date_now (world s)) as [t0 w1].
  cbn [fst snd].
  destruct (unsupported_loop_run useOnlineOCR documents Hnone 0 []
              (mkSys (arb s) (console s) w1)) as (s1 & Hloop & _ & Hlog).
  unfold bind at 1. unfold with_locals at 1. rewrite Hloop. cbn [fst snd].
  unfold bind at 1. unfold now at 1. destruct (Date_now (world s1)) as [t w2].
  cbn [fst snd]. unfold ret.
  eexists; eexists. split; [reflexivity|].
  cbn [DocumentProcessingService.documents DocumentProcessingService.combinedText
       DocumentProcessingService.totalWordCount DocumentProcessingService.summary
       console] in *.
  split; [reflexivity|]. split; [reflexivity|]. split; [reflexivity|].
  split; [vm_compute; reflexivity|]. split; [vm_compute; reflexivity|].
  split; [exact Hlog|].
  rewrite Hlog, length_app. unfold unsupportedLines.
  clear. induction documents as [|d ds IH]; cbn [flat_map List.length app]; lia.
Qed.

Lemma batch_without_results_reports_nan_witness :
  exists r s',
    @DocumentProcessingService.processBatch Device.World Rplain Pplain Library.locked
      Library.basicReader [Scenario.archive; Scenario.movie] true OnDevice.start
    = (Ok r, s')
    /\ DocumentProcessingService.documents r = []
    /\ includes (DocumentProcessingService.summary r) "(avg: NaN per doc)" = true
    /\ console s'
       = [LogDocumentError "old.zip"
            (mkError "Unsupported document type: application/zip");
          LogDocumentFailed "old.zip"
            (mkError "Unsupported document type: application/zip");
          LogDocumentError "clip.mp4" (mkError "Unsupported document type: video/mp4");
          LogDocumentFailed "clip.mp4" (mkError "Unsupported document type: video/mp4")].
Proof.
  destruct (batch_without_results_reports_nan Device.World Rplain Pplain Library.locked
              Library.basicReader [Scenario.archive; Scenario.movie] true OnDevice.start)
    as (r & s' & Hrun & Hdocs & _ & _ & _ & Hnan & Hlog & _).
  - repeat constructor.
  - exists r, s'. split; [exact Hrun|]. split; [exact Hdocs|]. split; [exact Hnan|].
    exact Hlog.
Defined.
